(** * electron-debug-mcp: process records, target registry, CDP command path
      and resource routing

    A shallow embedding of [src/index.ts] and [src/resourceRouting.ts].

    Conventions of the embedding.
    - An [ElectronProcess] is a mutable JavaScript object that the runtime
      state's [Map], the event handlers and every in-flight request share by
      reference.  The objects live in a [heap] indexed by references; the
      [Map<string, ElectronProcess>] of [McpRuntimeState] maps identifiers to
      references.
    - The outside world (port prober, [spawn], [fetch], the
      chrome-remote-interface factory and its clients) is a record of
      oracles, [World].  Every call made on it is appended to the [trace]
      of the state, oldest first.
    - [Date.now()] and [new Date()] read the [clock] of the state
      (milliseconds); only [setTimeout] advances it: the time that an
      awaited call takes is not part of the model.
    - An [async] function is run to completion as one command of the
      state-and-error monad [M]; a rejected promise is a [Throw].  The
      handlers that a start registers on its child are commands of their
      own ([addLog], [onExit]); they run between the operations and,
      within a start, while its polling loop waits, for the events that
      the world delivers there ([arrivals]).
    - [console.*] output is not part of the model. *)

From Stdlib Require Import ZArith String Ascii List Bool Lia.
From Stdlib Require Import Decimal DecimalString DecimalPos DecimalZ.
From Stdlib Require Import Floats.PrimFloat.
From stdpp Require Import base option list gmap strings.

Local Open Scope string_scope.
Local Open Scope Z_scope.

(** ** JavaScript primitives the source relies on *)

Module Js.

(** Whether an optional number is truthy: [!n] holds of [undefined] and
    of [0]. *)
Definition truthyNumber (n : option Z) : bool :=
  match n with
  | Some z => negb (z =? 0)
  | None => false
  end.

(** Whether an optional string is truthy: [!s] holds of [undefined] and
    of the empty string. *)
Definition truthyString (s : option string) : bool :=
  match s with
  | Some EmptyString => false
  | Some _ => true
  | None => false
  end.

Definition nonEmpty (s : string) : bool :=
  match s with
  | EmptyString => false
  | String _ _ => true
  end.

(** [s.split(sep)] for a one-character separator: never the empty list. *)
Fixpoint split (sep : ascii) (s : string) : list string :=
  match s with
  | EmptyString => [EmptyString]
  | String c rest =>
      if Ascii.eqb c sep then EmptyString :: split sep rest
      else match split sep rest with
           | [] => [String c EmptyString]
           | seg :: segs => String c seg :: segs
           end
  end.

(** [segments.join(sep)]. *)
Definition join (sep : string) (segments : list string) : string :=
  String.concat sep segments.

(** [s.startsWith(p)]. *)
Definition startsWith (s p : string) : bool := String.prefix p s.

(** [s.slice(n)] for [0 <= n]. *)
Fixpoint slice (n : nat) (s : string) : string :=
  match n, s with
  | O, _ => s
  | S _, EmptyString => EmptyString
  | S m, String _ rest => slice m rest
  end.

(** [`${n}`] for an integer [n]. *)
Definition numberToString (n : Z) : string :=
  NilZero.string_of_int (Z.to_int n).

(** [Array.prototype.find]. *)
Definition find {A : Type} (f : A -> bool) (l : list A) : option A :=
  List.find f l.

(** [Array.prototype.some]. *)
Definition some {A : Type} (f : A -> bool) (l : list A) : bool :=
  List.existsb f l.

(** [a.splice(0, n)]: what is left in [a]. *)
Definition spliceFront {A : Type} (n : nat) (l : list A) : list A :=
  List.skipn n l.

End Js.

(** ** Data model ([src/index.ts], lines 26-77) *)

Module CDPTarget.
Record t : Type := mk {
  id : string;
  type : string;
  title : string;
  url : string;
  webSocketDebuggerUrl : option string;
  devtoolsFrontendUrl : option string
}.
End CDPTarget.

(** A chrome-remote-interface client object, known by its identity. *)
Inductive CDPClient : Type := Client (handle : nat).

(** A [ChildProcess] object: its identity and its [pid] member. *)
Inductive ChildProcess : Type := Child (handle : nat) (pid : option Z).

Definition childPid (c : ChildProcess) : option Z :=
  match c with Child _ p => p end.

Inductive Status : Type := running | stopped | crashed.

Definition Status_eqb (a b : Status) : bool :=
  match a, b with
  | running, running | stopped, stopped | crashed, crashed => true
  | _, _ => false
  end.

Module ElectronProcess.
Record t : Type := mk {
  id : string;
  process : ChildProcess;
  name : string;
  status : Status;
  pid : option Z;
  debugPort : option Z;
  startTime : Z;
  logs : list string;
  appPath : string;
  cdpClient : option CDPClient;
  targets : option (list CDPTarget.t);
  lastTargetUpdate : option Z
}.

Definition setStatus (v : Status) (p : t) : t :=
  mk (id p) (process p) (name p) v (pid p) (debugPort p) (startTime p)
     (logs p) (appPath p) (cdpClient p) (targets p) (lastTargetUpdate p).

Definition setLogs (v : list string) (p : t) : t :=
  mk (id p) (process p) (name p) (status p) (pid p) (debugPort p) (startTime p)
     v (appPath p) (cdpClient p) (targets p) (lastTargetUpdate p).

Definition setCdpClient (v : option CDPClient) (p : t) : t :=
  mk (id p) (process p) (name p) (status p) (pid p) (debugPort p) (startTime p)
     (logs p) (appPath p) v (targets p) (lastTargetUpdate p).

(** [p.targets = ts; p.lastTargetUpdate = new Date()]. *)
Definition setTargets (ts : list CDPTarget.t) (stamp : Z) (p : t) : t :=
  mk (id p) (process p) (name p) (status p) (pid p) (debugPort p) (startTime p)
     (logs p) (appPath p) (cdpClient p) (Some ts) (Some stamp).
End ElectronProcess.

(** The local variables of [getElectronDebugInfo] typed
    [number | 'unavailable']. *)
Inductive MetricReading : Type :=
| Measured (value : float)
| Unavailable.

Record ProcessInfo : Type := mkProcessInfo {
  info_pid : Z;
  cpuUsage : float;
  memoryUsage : float;
  info_status : string
}.

Record ElectronWebContentsInfo : Type := mkWebContents {
  wc_id : Z;
  wc_url : string;
  wc_title : string;
  debuggable : bool;
  wc_debugPort : option Z;
  wc_targetId : option string
}.

Record ElectronDebugInfo : Type := mkDebugInfo {
  webContents : list ElectronWebContentsInfo;
  main : ProcessInfo;
  renderers : list ProcessInfo
}.

(** ** Messages exchanged with the outside world *)

(** A member of a [params] object. *)
Inductive ParamValue : Type :=
| PString (s : string)
| PBool (b : bool)
| PNumber (n : Z).

Definition Params : Type := list (string * ParamValue).

Record Metric : Type := mkMetric { metric_name : string; metric_value : float }.

(** What a [client.send] resolves to.  Only [getElectronDebugInfo] looks
    inside a reply, and only for a [metrics] member, read at the type the
    source asserts for it. *)
Inductive Reply : Type :=
| ReplyValue (payload : string)
| ReplyMetrics (metrics : list Metric).

(** The body of a discovery response, as [response.json()] settles. *)
Inductive Body : Type :=
| JsonTargets (targets : list CDPTarget.t)
| JsonInvalid (reason : string).

(** How [fetch(url)] settles. *)
Inductive FetchOutcome : Type :=
| FetchRejected (reason : string)
| FetchResponse (ok : bool) (statusText : string) (body : Body).

(** One constructor per [throw] site; a rejection coming from an external
    collaborator carries that collaborator's message.  [SocketBadPort] is
    the [RangeError] that [server.listen] throws inside the port probe for
    a port outside 0..65535.  [InvalidReference]
    is no throw site of the source, where a reference always designates an
    object: it is what reading a reference outside the heap gives. *)
Inductive Error : Type :=
| NoPortAvailable
| PortUnavailable (debugPort : Z)
| NoDebugPort
| DiscoveryRejected (reason : string)
| DiscoveryBadStatus (statusText : string)
| DiscoveryInvalidJson (reason : string)
| TargetNotFound (targetId : string)
| ConnectRejected (reason : string)
| SessionError (reason : string)
| ProcessNotRunning (processId : string)
| TargetNotInProcess (targetId processId : string)
| InvalidCdpCommand (commandPath : string)
| CdpCommandFailed (cause : Error)
| InvalidCdpUri (uri : string)
| ProcessNotFound (processId : string)
| ResourceNotFound (uri : string)
| CloseFailed (reason : string)
| SocketBadPort (reason : string)
| InvalidReference.

(** The [message] of the [Error] object thrown at each site. *)
Fixpoint message (e : Error) : string :=
  match e with
  | NoPortAvailable => "No available debug port found in range 9222-9999"
  | PortUnavailable p => "Debug port " ++ Js.numberToString p ++ " is not available"
  | NoDebugPort => "No debug port available for this Electron process"
  | DiscoveryRejected reason => reason
  | DiscoveryBadStatus statusText => "Failed to get targets: " ++ statusText
  | DiscoveryInvalidJson reason => reason
  | TargetNotFound targetId => "Target " ++ targetId ++ " not found"
  | ConnectRejected reason => reason
  | SessionError reason => reason
  | ProcessNotRunning processId =>
      "Process " ++ processId ++ " not found or not running"
  | TargetNotInProcess targetId processId =>
      "Target " ++ targetId ++ " not found in process " ++ processId
  | InvalidCdpCommand commandPath =>
      "Invalid CDP command format: " ++ commandPath
        ++ ". Expected format: {domain}/{command}"
  | CdpCommandFailed cause => "Error executing CDP command: " ++ message cause
  | InvalidCdpUri uri => "Invalid CDP URI: " ++ uri
  | ProcessNotFound processId => "Process " ++ processId ++ " not found"
  | ResourceNotFound uri => "Resource not found: " ++ uri
  | CloseFailed reason => reason
  | SocketBadPort reason => reason
  | InvalidReference => "invalid reference"
  end.

(** Calls made on the outside world. *)
Inductive Event : Type :=
| Probe (port : Z)
| Spawn (command : string) (args : list string)
| Fetch (url : string)
| Connect (target : string) (port : Z)
| Send (client : CDPClient) (method : string) (params : option Params)
| Close (client : CDPClient)
| Kill (child : ChildProcess)
| Sleep (ms : Z).

(** What a child makes its handlers run for: a chunk on [stdout] or
    [stderr] (the ['data'] handlers of lines 200-212), or its exit with a
    code, [null] for a signal (the ['exit'] handler of lines 214-230). *)
Inductive ChildEvent : Type :=
| Output (chunk : string)
| Exited (code : option Z).

(** The external collaborators.  [isPortAvailable] is what the probe
    resolves to for a port that [listen] accepts, and [listenError] the
    message of the [RangeError] that [listen] throws for a port outside
    0..65535.  [fetch] is asked at a time of the clock; [CDP] and [send]
    answer [inl reason] when their promise rejects; [close] answers
    [Some reason] when it throws.  [arrivals child n] is what the child
    makes its handlers run for while the start that spawned it awaits the
    outcome of its [n]-th call on the outside world.

    A child without [pid] is a spawn that failed: its ['error'] event has
    no listener in the source and ends the server.  The operations do not
    follow the server there, and what is proved of a start is proved of a
    spawn that yields a [pid]. *)
Record World : Type := mkWorld {
  isPortAvailable : Z -> bool;
  getElectronExecutablePath : string;
  basename : string -> string;
  spawn : string -> list string -> ChildProcess;
  fetch : Z -> string -> FetchOutcome;
  CDP : string -> Z -> string + CDPClient;
  send : CDPClient -> string -> option Params -> string + Reply;
  close : CDPClient -> option string;
  listenError : Z -> string;
  arrivals : ChildProcess -> nat -> list ChildEvent
}.

(** ** Program state and the command monad *)

Definition loc : Type := nat.

Record State : Type := mkState {
  heap : gmap loc ElectronProcess.t;
  electronProcesses : gmap string loc;
  clock : Z;
  trace : list Event
}.

Inductive Result (A : Type) : Type :=
| Ok (a : A)
| Throw (e : Error).
Arguments Ok {A} a.
Arguments Throw {A} e.

Definition M (A : Type) : Type := State -> Result A * State.

Definition ret {A : Type} (a : A) : M A := fun s => (Ok a, s).

Definition throw {A : Type} (e : Error) : M A := fun s => (Throw e, s).

Definition bind {A B : Type} (m : M A) (k : A -> M B) : M B :=
  fun s =>
    match m s with
    | (Ok a, s') => k a s'
    | (Throw e, s') => (Throw e, s')
    end.

(** [try { m } catch (err) { handler err }]: what [m] did before it threw
    stays done. *)
Definition tryCatch {A : Type} (m : M A) (handler : Error -> M A) : M A :=
  fun s =>
    match m s with
    | (Ok a, s') => (Ok a, s')
    | (Throw e, s') => handler e s'
    end.

Declare Scope cmd_scope.
Delimit Scope cmd_scope with cmd.
Notation "'let*' x ':=' m 'in' k" := (bind m (fun x => k))
  (at level 10, x name, m at level 100, k at level 200) : cmd_scope.
Local Open Scope cmd_scope.

Definition emit (e : Event) : M unit :=
  fun s => (Ok tt, mkState (heap s) (electronProcesses s) (clock s) (trace s ++ [e])).

(** [Date.now()]. *)
Definition dateNow : M Z := fun s => (Ok (clock s), s).

(** The number of calls made on the outside world so far. *)
Definition callsMade : M nat := fun s => (Ok (List.length (trace s)), s).

(** [await new Promise(resolve => setTimeout(resolve, ms))]. *)
Definition sleep (ms : Z) : M unit :=
  fun s => (Ok tt, mkState (heap s) (electronProcesses s) (clock s + ms)
                           (trace s ++ [Sleep ms])).

(** Reading the object behind a reference. *)
Definition deref (r : loc) : M ElectronProcess.t :=
  fun s =>
    match heap s !! r with
    | Some p => (Ok p, s)
    | None => (Throw InvalidReference, s)
    end.

(** An assignment to members of the object behind a reference. *)
Definition assign (r : loc) (f : ElectronProcess.t -> ElectronProcess.t) : M unit :=
  fun s => (Ok tt, mkState (alter f r (heap s)) (electronProcesses s) (clock s) (trace s)).

(** A new object. *)
Definition alloc (p : ElectronProcess.t) : M loc :=
  fun s =>
    let r := fresh (dom (heap s)) in
    (Ok r, mkState (<[r := p]> (heap s)) (electronProcesses s) (clock s) (trace s)).

(** [state.electronProcesses.get(id)]. *)
Definition mapGet (id : string) : M (option loc) :=
  fun s => (Ok (electronProcesses s !! id), s).

(** [state.electronProcesses.set(id, r)]. *)
Definition mapSet (id : string) (r : loc) : M unit :=
  fun s => (Ok tt, mkState (heap s) (<[id := r]> (electronProcesses s)) (clock s) (trace s)).

(** [state.electronProcesses.delete(id)]. *)
Definition mapDelete (id : string) : M unit :=
  fun s => (Ok tt, mkState (heap s) (delete id (electronProcesses s)) (clock s) (trace s)).

(** ** Application supervisor ([src/index.ts], lines 140-279) *)

Section Operations.

Variable w : World.

(** The ports that [server.listen] accepts. *)
Definition validPort (port : Z) : bool := (0 <=? port) && (port <? 65536).

(** [await isPortAvailable(port)] (lines 90-99): for a port outside
    0..65535 [listen] throws inside the executor and the promise rejects;
    otherwise it resolves to whether the port could be listened on. *)
Definition probe (port : Z) : M bool :=
  let* _ := emit (Probe port) in
  if validPort port then ret (isPortAvailable w port)
  else throw (SocketBadPort (listenError w port)).

(** The value of an optional number when it is truthy. *)
Definition givenNumber (n : option Z) : option Z :=
  match n with
  | Some z => if Js.truthyNumber (Some z) then Some z else None
  | None => None
  end.

(** The ports 9222, 9223, ..., 9999 of the scanning loop. *)
Definition portRange : list Z :=
  List.map (fun i => 9222 + Z.of_nat i) (List.seq 0 778).

(** [for (port ...) if (await isPortAvailable(port)) { debugPort = port; break }]. *)
Fixpoint scanPorts (ports : list Z) : M (option Z) :=
  match ports with
  | [] => ret None
  | port :: rest =>
      let* available := probe port in
      if available then ret (Some port) else scanPorts rest
  end.

(** Lines 144-161: the debugging port of a start. *)
Definition choosePort (debugPort : option Z) : M Z :=
  match givenNumber debugPort with
  | None =>
      let* found := scanPorts portRange in
      match found with
      | Some port => ret port
      | None => throw NoPortAvailable
      end
  | Some port =>
      let* available := probe port in
      if available then ret port else throw (PortUnavailable port)
  end.

Definition MAX_LOG_ENTRIES : nat := 1000.

(** The body of [addLog] on the [logs] array. *)
Definition pushLog (log : string) (logs : list string) : list string :=
  let pushed := (logs ++ [log])%list in
  if (MAX_LOG_ENTRIES <? List.length pushed)%nat
  then Js.spliceFront (List.length pushed - MAX_LOG_ENTRIES) pushed
  else pushed.

(** [addLog], the closure over the record of one start; both the [stdout]
    and the [stderr] handler call it with the text of a chunk. *)
Definition addLog (r : loc) (log : string) : M unit :=
  assign r (fun p => ElectronProcess.setLogs (pushLog log (ElectronProcess.logs p)) p).

(** [client.close()]. *)
Definition closeClient (client : CDPClient) : M unit :=
  let* _ := emit (Close client) in
  match close w client with
  | Some reason => throw (CloseFailed reason)
  | None => ret tt
  end.

(** [if (p.cdpClient) { try { p.cdpClient.close() } catch (err) { ... }
    p.cdpClient = undefined }], shared by the exit handler and [stop]. *)
Definition closeSession (r : loc) : M unit :=
  let* p := deref r in
  match ElectronProcess.cdpClient p with
  | Some client =>
      let* _ := tryCatch (closeClient client) (fun _ => ret tt) in
      assign r (ElectronProcess.setCdpClient None)
  | None => ret tt
  end.

(** The ['exit'] handler of one start; [code] is [null] for a signal. *)
Definition onExit (id : string) (r : loc) (code : option Z) : M unit :=
  let exited := match code with
                | Some 0 => stopped
                | _ => crashed
                end in
  let* _ := assign r (ElectronProcess.setStatus exited) in
  let* _ := closeSession r in
  mapDelete id.

(** The handlers that a start registers on its child, on one event. *)
Definition onChildEvent (id : string) (r : loc) (e : ChildEvent) : M unit :=
  match e with
  | Output chunk => addLog r chunk
  | Exited code => onExit id r code
  end.

Fixpoint handleEvents (id : string) (r : loc) (events : list ChildEvent) : M unit :=
  match events with
  | [] => ret tt
  | e :: rest =>
      let* _ := onChildEvent id r e in
      handleEvents id r rest
  end.

(** What runs while a start awaits the outcome of its last call: the
    handlers, for what its child does in the meantime. *)
Definition whileWaiting (id : string) (r : loc) : M unit :=
  let* p := deref r in
  let* n := callsMade in
  handleEvents id r (arrivals w (ElectronProcess.process p) n).

(** ** Target registry (lines 369-389) *)

Definition discoveryUrl (port : Z) : string :=
  "http://localhost:" ++ Js.numberToString port ++ "/json/list".

(** The [catch] of the source logs and rethrows; nothing is undone or
    added by it. *)
Definition updateCDPTargets (r : loc) : M (list CDPTarget.t) :=
  let* p := deref r in
  match givenNumber (ElectronProcess.debugPort p) with
  | None => throw NoDebugPort
  | Some port =>
      let url := discoveryUrl port in
      let* _ := emit (Fetch url) in
      let* asked := dateNow in
      match fetch w asked url with
      | FetchRejected reason => throw (DiscoveryRejected reason)
      | FetchResponse ok statusText body =>
          if negb ok then throw (DiscoveryBadStatus statusText)
          else
            match body with
            | JsonInvalid reason => throw (DiscoveryInvalidJson reason)
            | JsonTargets targets =>
                let* stamp := dateNow in
                let* _ := assign r (ElectronProcess.setTargets targets stamp) in
                ret targets
            end
      end
  end.

(** The startup polling loop (lines 238-247).  [fuel] bounds the number of
    iterations; [pollFuel] is enough of it (lemma [pollTargets_fuel]).
    The loop awaits the refresh and, when that throws, the timer; the
    handlers of the child run during both.  What they assign (status, log
    buffer, session, process map) and what the refresh assigns (the cache
    and its stamp) are apart, so the handlers are run once the awaited
    outcome is there. *)
Fixpoint pollTargets (fuel : nat) (id : string) (r : loc)
    (startTime startupTimeout : Z) : M bool :=
  match fuel with
  | O => ret false
  | S fuel' =>
      let* now := dateNow in
      if now - startTime <? startupTimeout then
        let* connected := tryCatch (let* _ := updateCDPTargets r in ret true)
                                   (fun _ => ret false) in
        let* _ := whileWaiting id r in
        if connected then ret true
        else
          let* _ := sleep 500 in
          let* _ := whileWaiting id r in
          pollTargets fuel' id r startTime startupTimeout
      else ret false
  end.

Definition pollFuel (startupTimeout : Z) : nat :=
  Z.to_nat ((startupTimeout + 499) / 500).

Definition processId (now : Z) : string :=
  "electron-" ++ Js.numberToString now.

Definition startElectronApp (appPath : string) (debugPort : option Z)
    (startupTimeoutArg : option Z) : M loc :=
  let startupTimeout := default 30000 startupTimeoutArg in
  let* now := dateNow in
  let id := processId now in
  let* port := choosePort debugPort in
  let args := ["--enable-logging";
               "--remote-debugging-port=" ++ Js.numberToString port;
               appPath] in
  let electronPath := getElectronExecutablePath w in
  let* _ := emit (Spawn electronPath args) in
  let electronProc := spawn w electronPath args in
  let* created := dateNow in
  let* r := alloc (ElectronProcess.mk id electronProc (basename w appPath) running
                     (childPid electronProc) (Some port) created [] appPath
                     None None None) in
  let* _ := mapSet id r in
  let* startTime := dateNow in
  let* connected := pollTargets (pollFuel startupTimeout) id r startTime startupTimeout in
  ret r.

Definition stopElectronApp (id : string) : M bool :=
  let* found := mapGet id in
  match found with
  | None => ret false
  | Some r =>
      let* _ := closeSession r in
      let* p := deref r in
      let* _ := emit (Kill (ElectronProcess.process p)) in
      let* _ := assign r (ElectronProcess.setStatus stopped) in
      let* _ := mapDelete id in
      ret true
  end.

(** ** Session client factory and command executor (lines 394-447) *)

(** The condition of line 401: no list, no stamp, or a stamp older than
    5000 ms. *)
Definition needsRefresh (p : ElectronProcess.t) (now : Z) : bool :=
  match ElectronProcess.targets p, ElectronProcess.lastTargetUpdate p with
  | Some _, Some last => now - last >? 5000
  | _, _ => true
  end.

(** [p.targets?.find(t => t.id === targetId)]. *)
Definition findTarget (p : ElectronProcess.t) (targetId : string) : option CDPTarget.t :=
  match ElectronProcess.targets p with
  | Some targets => Js.find (fun t => String.eqb (CDPTarget.id t) targetId) targets
  | None => None
  end.

Definition connectToCDPTarget (r : loc) (targetId : string) : M CDPClient :=
  let* p := deref r in
  match givenNumber (ElectronProcess.debugPort p) with
  | None => throw NoDebugPort
  | Some port =>
      let* now := dateNow in
      let* _ := (if needsRefresh p now
                 then let* _ := updateCDPTargets r in ret tt
                 else ret tt) in
      let* p' := deref r in
      match findTarget p' targetId with
      | None => throw (TargetNotFound targetId)
      | Some _ =>
          let* _ := emit (Connect targetId port) in
          match CDP w targetId port with
          | inl reason => throw (ConnectRejected reason)
          | inr client =>
              let* _ := assign r (ElectronProcess.setCdpClient (Some client)) in
              ret client
          end
      end
  end.

(** [await client.send(method, params)]. *)
Definition sendCommand (client : CDPClient) (method : string)
    (params : option Params) : M Reply :=
  let* _ := emit (Send client method params) in
  match send w client method params with
  | inl reason => throw (SessionError reason)
  | inr reply => ret reply
  end.

Definition executeCDPCommand (r : loc) (targetId domain command : string)
    (params : Params) : M Reply :=
  let* p := deref r in
  let* client := match ElectronProcess.cdpClient p with
                 | Some client => ret client
                 | None => connectToCDPTarget r targetId
                 end in
  sendCommand client (domain ++ "." ++ command) (Some params).

(** ** Derived debug info (lines 281-362) *)

(** The four locals declared [number | 'unavailable'] at lines 314-317. *)
Record Readings : Type := mkReadings {
  mainCpuUsage : MetricReading;
  mainMemoryUsage : MetricReading;
  rendererCpuUsage : MetricReading;
  rendererMemoryUsage : MetricReading
}.

Definition noReadings : Readings :=
  mkReadings Unavailable Unavailable Unavailable Unavailable.

(** [metrics.find(m => m.name === name)]. *)
Definition findMetric (name : string) (metrics : list Metric) : option Metric :=
  Js.find (fun m => String.eqb (metric_name m) name) metrics.

(** [value * 0.5]. *)
Definition half (value : float) : float := PrimFloat.mul value 0.5%float.

(** Lines 323-336: what the reply of [Performance.getMetrics] assigns to
    the four locals. *)
Definition readMetrics (reply : Reply) : Readings :=
  match reply with
  | ReplyValue _ => noReadings
  | ReplyMetrics metrics =>
      let cpuMetric := findMetric "CPUUsage" metrics in
      let memoryMetric := findMetric "JSHeapUsedSize" metrics in
      mkReadings
        (match cpuMetric with
         | Some m => Measured (metric_value m)
         | None => Unavailable
         end)
        (match memoryMetric with
         | Some m => Measured (metric_value m)
         | None => Unavailable
         end)
        (match cpuMetric with
         | Some m => Measured (half (metric_value m))
         | None => Unavailable
         end)
        (match memoryMetric with
         | Some m => Measured (half (metric_value m))
         | None => Unavailable
         end)
  end.

(** [typeof v === 'number' ? v : 0], the expression of each returned
    [cpuUsage] and [memoryUsage] member (lines 348-356). *)
Definition numberOrZero (v : MetricReading) : float :=
  match v with
  | Measured value => value
  | Unavailable => 0%float
  end.

(** [n || 0]. *)
Definition orZero (n : option Z) : Z := default 0 (givenNumber n).

(** Lines 296-311. *)
Definition webContentsOf (p : ElectronProcess.t) : list ElectronWebContentsInfo :=
  match ElectronProcess.targets p with
  | Some targets =>
      imap (fun index target =>
              mkWebContents (Z.of_nat index + 1) (CDPTarget.url target)
                (CDPTarget.title target)
                (Js.truthyString (CDPTarget.webSocketDebuggerUrl target))
                (ElectronProcess.debugPort p) (Some (CDPTarget.id target)))
           targets
  | None =>
      [mkWebContents 1 ("file://" ++ ElectronProcess.appPath p)
         (ElectronProcess.name p) true (ElectronProcess.debugPort p) None]
  end.

(** Lines 319-341. *)
Definition collectReadings (p : ElectronProcess.t) : M Readings :=
  match ElectronProcess.cdpClient p with
  | Some client =>
      tryCatch
        (let* performanceMetrics := sendCommand client "Performance.getMetrics" None in
         ret (readMetrics performanceMetrics))
        (fun _ => ret noReadings)
  | None => ret noReadings
  end.

Definition getElectronDebugInfo (id : string) : M (option ElectronDebugInfo) :=
  let* found := mapGet id in
  match found with
  | None => ret None
  | Some r =>
      let* p0 := deref r in
      if negb (Status_eqb (ElectronProcess.status p0) running) then ret None
      else
        let* _ := tryCatch (let* _ := updateCDPTargets r in ret tt)
                           (fun _ => ret tt) in
        let* p := deref r in
        let* readings := collectReadings p in
        let pid := orZero (ElectronProcess.pid p) in
        ret (Some (mkDebugInfo (webContentsOf p)
                     (mkProcessInfo pid
                        (numberOrZero (mainCpuUsage readings))
                        (numberOrZero (mainMemoryUsage readings))
                        "running")
                     [mkProcessInfo (pid + 1)
                        (numberOrZero (rendererCpuUsage readings))
                        (numberOrZero (rendererMemoryUsage readings))
                        "running"]))
  end.

Definition requireRunningElectronProcess (processId : string) : M loc :=
  let* found := mapGet processId in
  match found with
  | None => throw (ProcessNotRunning processId)
  | Some r =>
      let* p := deref r in
      if Status_eqb (ElectronProcess.status p) running then ret r
      else throw (ProcessNotRunning processId)
  end.

End Operations.

(** ** Resource routing ([src/resourceRouting.ts]) *)

Module ELECTRON_RESOURCES.
Definition INFO : string := "electron://info".
Definition PROCESS : string := "electron://process/".
Definition LOGS : string := "electron://logs/".
Definition CDP : string := "electron://cdp/".
Definition TARGETS : string := "electron://targets".
End ELECTRON_RESOURCES.

Inductive ParsedResourceRoute : Type :=
| RouteInfo
| RouteTargets
| RouteProcess (processId : string)
| RouteLogs (processId : string)
| RouteCdp (processId targetId : string) (commandPath : option string)
| RouteInvalidCdp
| RouteUnknown.

(** The value of an optional string when it is truthy. *)
Definition givenString (s : option string) : option string :=
  if Js.truthyString s then s else None.

(** Lines 35-51: the branch of a URI that starts with the [cdp] prefix. *)
Definition parseCdpPath (path : string) : ParsedResourceRoute :=
  match Js.split "/" path with
  | processId :: targetId :: commandSegments =>
      if Js.nonEmpty processId && Js.nonEmpty targetId then
        let commandPath :=
          if (0 <? List.length commandSegments)%nat
          then Some (Js.join "/" commandSegments)
          else None in
        match givenString commandPath with
        | None => RouteCdp processId targetId None
        | Some path' => RouteCdp processId targetId (Some path')
        end
      else RouteInvalidCdp
  | _ => RouteInvalidCdp
  end.

(** Lines 53-67: the branches tried when the URI is none of the above. *)
Definition parseProcessOrLogs (uri : string) : ParsedResourceRoute :=
  let asProcess :=
    if Js.startsWith uri ELECTRON_RESOURCES.PROCESS
    then givenString (Some (Js.slice (String.length ELECTRON_RESOURCES.PROCESS) uri))
    else None in
  let asLogs :=
    if Js.startsWith uri ELECTRON_RESOURCES.LOGS
    then givenString (Some (Js.slice (String.length ELECTRON_RESOURCES.LOGS) uri))
    else None in
  match asProcess, asLogs with
  | Some processId, _ => RouteProcess processId
  | None, Some processId => RouteLogs processId
  | None, None => RouteUnknown
  end.

Definition parseElectronResourceUri (uri : string) : ParsedResourceRoute :=
  if String.eqb uri ELECTRON_RESOURCES.INFO then RouteInfo
  else if String.eqb uri ELECTRON_RESOURCES.TARGETS then RouteTargets
  else if Js.startsWith uri ELECTRON_RESOURCES.CDP
  then parseCdpPath (Js.slice (String.length ELECTRON_RESOURCES.CDP) uri)
  else parseProcessOrLogs uri.

(** ** The [ReadResource] handler ([src/index.ts], lines 518-626) *)

Record ProcessSummary : Type := mkSummary {
  sum_id : string;
  sum_name : string;
  sum_status : Status;
  sum_pid : option Z;
  sum_startTime : Z
}.

(** The payload handed to [jsonResourceResponse] or [textResourceResponse];
    the serialisation to text is left out. *)
Inductive ResourcePayload : Type :=
| TargetsPayload (allTargets : list (string * CDPTarget.t))
| TargetPayload (target : CDPTarget.t)
| ReplyPayload (result : Reply)
| InfoPayload (activeProcesses : list ProcessSummary)
| DebugInfoPayload (debugInfo : ElectronDebugInfo)
| LogsPayload (text : string).

Record ResourceReadResult : Type := mkResource {
  res_uri : string;
  res_payload : ResourcePayload
}.

Definition jsonResourceResponse (uri : string) (payload : ResourcePayload) :
    ResourceReadResult :=
  mkResource uri payload.

Definition textResourceResponse (uri : string) (text : string) : ResourceReadResult :=
  mkResource uri (LogsPayload text).

Section Handlers.

Variable w : World.

(** [runtimeState.electronProcesses.entries()].  A JavaScript [Map] lists
    its entries in insertion order; the finite map lists them in an order
    of its own. *)
Definition mapEntries : M (list (string * loc)) :=
  fun s => (Ok (map_to_list (electronProcesses s)), s).

Fixpoint forEach {A B : Type} (f : A -> M (list B)) (l : list A) : M (list B) :=
  match l with
  | [] => ret []
  | a :: rest =>
      let* here := f a in
      let* there := forEach f rest in
      ret (here ++ there)%list
  end.

(** The [targets] case. *)
Definition readTargets (uri : string) : M ResourceReadResult :=
  let* entries := mapEntries in
  let* allTargets :=
    forEach (fun entry : string * loc =>
               let (id, r) := entry in
               let* p := deref r in
               if Status_eqb (ElectronProcess.status p) running
                  && Js.truthyNumber (ElectronProcess.debugPort p)
               then
                 tryCatch
                   (let* _ := updateCDPTargets w r in
                    let* p' := deref r in
                    ret (List.map (fun target => (id, target))
                           (default [] (ElectronProcess.targets p'))))
                   (fun _ => ret [])
               else ret [])
            entries in
  ret (jsonResourceResponse uri (TargetsPayload allTargets)).

(** [p.targets?.some(t => t.id === targetId)]. *)
Definition hasTarget (p : ElectronProcess.t) (targetId : string) : bool :=
  match ElectronProcess.targets p with
  | Some targets => Js.some (fun t => String.eqb (CDPTarget.id t) targetId) targets
  | None => false
  end.

(** The [cdp] case (lines 547-588). *)
Definition readCdp (uri processId targetId : string) (commandPath : option string) :
    M ResourceReadResult :=
  let* r := requireRunningElectronProcess processId in
  match givenString commandPath with
  | None =>
      let* p := deref r in
      let* _ := (if negb (hasTarget p targetId)
                    && Js.truthyNumber (ElectronProcess.debugPort p)
                 then tryCatch (let* _ := updateCDPTargets w r in ret tt)
                               (fun _ => ret tt)
                 else ret tt) in
      let* p' := deref r in
      match findTarget p' targetId with
      | None => throw (TargetNotInProcess targetId processId)
      | Some target => ret (jsonResourceResponse uri (TargetPayload target))
      end
  | Some path =>
      match Js.split "/" path with
      | [domain; method] =>
          if Js.nonEmpty domain && Js.nonEmpty method then
            tryCatch
              (let* result := executeCDPCommand w r targetId domain method [] in
               ret (jsonResourceResponse uri (ReplyPayload result)))
              (fun error => throw (CdpCommandFailed error))
          else throw (InvalidCdpCommand path)
      | _ => throw (InvalidCdpCommand path)
      end
  end.

(** The [info] case. *)
Definition readInfo (uri : string) : M ResourceReadResult :=
  let* entries := mapEntries in
  let* activeProcesses :=
    forEach (fun entry : string * loc =>
               let (id, r) := entry in
               let* proc := deref r in
               ret [mkSummary id (ElectronProcess.name proc)
                      (ElectronProcess.status proc) (ElectronProcess.pid proc)
                      (ElectronProcess.startTime proc)])
            entries in
  ret (jsonResourceResponse uri (InfoPayload activeProcesses)).

Definition readResource (uri : string) : M ResourceReadResult :=
  match parseElectronResourceUri uri with
  | RouteTargets => readTargets uri
  | RouteCdp processId targetId commandPath =>
      readCdp uri processId targetId commandPath
  | RouteInvalidCdp => throw (InvalidCdpUri uri)
  | RouteInfo => readInfo uri
  | RouteProcess processId =>
      let* debugInfo := getElectronDebugInfo w processId in
      match debugInfo with
      | None => throw (ProcessNotRunning processId)
      | Some info => ret (jsonResourceResponse uri (DebugInfoPayload info))
      end
  | RouteLogs processId =>
      let* found := mapGet processId in
      match found with
      | None => throw (ProcessNotFound processId)
      | Some r =>
          let* p := deref r in
          ret (textResourceResponse uri
                 (Js.join (String (ascii_of_nat 10) EmptyString) (ElectronProcess.logs p)))
      end
  | RouteUnknown => throw (ResourceNotFound uri)
  end.

End Handlers.

(** ** Locating the Electron executable ([src/index.ts], lines 101-138) *)

Module Executable.

(** [os.platform()]: the two values the source tests for, and the rest. *)
Inductive Platform : Type := win32 | darwin | otherPlatform.

(** What the lookup reads of the machine: the platform, the home and
    working directories, which paths exist, and [path.join] and
    [path.resolve] on their lists of segments. *)
Record Machine : Type := mkMachine {
  platform : Platform;
  homedir : string;
  cwd : string;
  existsSync : string -> bool;
  pathJoin : list string -> string;
  pathResolve : list string -> string
}.

Definition possiblePaths (m : Machine) : list string :=
  match platform m with
  | win32 =>
      [pathJoin m [homedir m; "AppData"; "Roaming"; "npm"; "electron.cmd"];
       pathResolve m [cwd m; "node_modules"; ".bin"; "electron.cmd"];
       pathResolve m [cwd m; "node_modules"; "electron"; "dist"; "electron.exe"]]
  | darwin =>
      [pathResolve m [cwd m; "node_modules"; ".bin"; "electron"];
       pathResolve m [cwd m; "node_modules"; "electron"; "dist"; "Electron.app";
                      "Contents"; "MacOS"; "Electron"];
       pathJoin m [homedir m; ".npm-global"; "bin"; "electron"]]
  | otherPlatform =>
      [pathResolve m [cwd m; "node_modules"; ".bin"; "electron"];
       pathResolve m [cwd m; "node_modules"; "electron"; "dist"; "electron"];
       pathJoin m [homedir m; ".npm-global"; "bin"; "electron"];
       pathJoin m [homedir m; ".local"; "bin"; "electron"]]
  end.

(** [for (const p of possiblePaths) if (fs.existsSync(p)) return p]. *)
Fixpoint firstExisting (m : Machine) (paths : list string) : option string :=
  match paths with
  | [] => None
  | electronPath :: rest =>
      if existsSync m electronPath then Some electronPath
      else firstExisting m rest
  end.

Definition getElectronExecutablePath (m : Machine) : string :=
  match firstExisting m (possiblePaths m) with
  | Some electronPath => electronPath
  | None => "electron"
  end.

End Executable.

(** ** The [ListResources] handler ([src/index.ts], lines 472-516) *)

Record Resource : Type := mkListed {
  listed_uri : string;
  listed_name : string;
  listed_description : string;
  listed_mimeType : string
}.

Definition staticResources : list Resource :=
  [mkListed ELECTRON_RESOURCES.INFO "Electron Debugging Info"
     "Information about the Electron debugging capabilities" "application/json";
   mkListed ELECTRON_RESOURCES.TARGETS "Electron Debug Targets"
     "List all available debug targets across Electron processes" "application/json"].

(** [target.title || target.url]. *)
Definition titleOrUrl (target : CDPTarget.t) : string :=
  if Js.nonEmpty (CDPTarget.title target) then CDPTarget.title target
  else CDPTarget.url target.

Definition cdpResource (id : string) (target : CDPTarget.t) : Resource :=
  mkListed (ELECTRON_RESOURCES.CDP ++ id ++ "/" ++ CDPTarget.id target)
    ("CDP: " ++ titleOrUrl target)
    ("Chrome DevTools Protocol access for target " ++ CDPTarget.id target)
    "application/json".

(** The body of the loop over the entries of the map (lines 488-513). *)
Definition processResources (id : string) (p : ElectronProcess.t) : list Resource :=
  [mkListed (ELECTRON_RESOURCES.PROCESS ++ id)
     ("Electron Process: " ++ ElectronProcess.name p)
     ("Debug information for Electron process " ++ ElectronProcess.name p)
     "application/json";
   mkListed (ELECTRON_RESOURCES.LOGS ++ id)
     ("Electron Logs: " ++ ElectronProcess.name p)
     ("Logs for Electron process " ++ ElectronProcess.name p)
     "text/plain"]
  ++ match ElectronProcess.targets p with
     | Some targets => List.map (cdpResource id) targets
     | None => []
     end.

Definition listResources : M (list Resource) :=
  let* entries := mapEntries in
  let* listed :=
    forEach (fun entry : string * loc =>
               let (id, r) := entry in
               let* p := deref r in
               ret (processResources id p))
            entries in
  ret (staticResources ++ listed)%list.

(** ** The [CallTool] handler ([src/index.ts], lines 759-950) *)

(** A request [{ name, arguments }], its arguments read at the type that
    the case of [name] asserts for them; [otherTool] is a name that no case
    has. *)
Inductive ToolCall : Type :=
| electron_start (appPath : string) (debugPort startupTimeout : option Z)
| electron_stop (processId : string)
| electron_list
| electron_reload (processId : string) (targetId : option string)
| electron_evaluate (processId targetId expression : string)
    (returnByValue : option bool)
| electron_pause (processId targetId : string)
| electron_resume (processId targetId : string)
| otherTool (name : string).

Record ProcessListing : Type := mkListing {
  listing_id : string;
  listing_name : string;
  listing_status : Status;
  listing_pid : option Z;
  listing_startTime : Z;
  listing_appPath : string;
  listing_debugPort : option Z
}.

(** The object serialised into the text of the result. *)
Inductive ToolPayload : Type :=
| StartedPayload (processId name : string) (status : Status) (pid debugPort : option Z)
    (appPath : string)
| StoppedPayload (success : bool) (processId : string)
| ListedPayload (processes : list ProcessListing)
| ReloadedPayload (processId targetId : string)
| EvaluatedPayload (result : Reply) (processId targetId : string)
| SucceededPayload (processId targetId : string)
| ErrorPayload (error : string).

Record ToolResult : Type := mkToolResult {
  tool_payload : ToolPayload;
  isError : bool
}.

Section Tools.

Variable w : World.

(** The loop of lines 834-840: one reload per cached target, a failure
    caught and the loop going on. *)
Fixpoint reloadEach (r : loc) (targets : list CDPTarget.t) : M unit :=
  match targets with
  | [] => ret tt
  | target :: rest =>
      let* _ := tryCatch
                  (let* _ := executeCDPCommand w r (CDPTarget.id target)
                               "Page" "reload" [] in
                   ret tt)
                  (fun _ => ret tt) in
      reloadEach r rest
  end.

(** The [switch] of the handler; the check that opens the cases of lines
    824-932 is the one of [requireRunningElectronProcess], written out in
    each.  The [default] case is in [callTool]. *)
Definition runTool (call : ToolCall) : M ToolPayload :=
  match call with
  | electron_start appPath debugPort startupTimeout =>
      let* r := startElectronApp w appPath debugPort startupTimeout in
      let* process := deref r in
      ret (StartedPayload (ElectronProcess.id process) (ElectronProcess.name process)
             (ElectronProcess.status process) (ElectronProcess.pid process)
             (ElectronProcess.debugPort process) (ElectronProcess.appPath process))
  | electron_stop processId =>
      let* stopped := stopElectronApp w processId in
      ret (StoppedPayload stopped processId)
  | electron_list =>
      let* entries := mapEntries in
      let* processes :=
        forEach (fun entry : string * loc =>
                   let (id, r) := entry in
                   let* proc := deref r in
                   ret [mkListing id (ElectronProcess.name proc)
                          (ElectronProcess.status proc) (ElectronProcess.pid proc)
                          (ElectronProcess.startTime proc)
                          (ElectronProcess.appPath proc)
                          (ElectronProcess.debugPort proc)])
                entries in
      ret (ListedPayload processes)
  | electron_reload processId targetId =>
      let* r := requireRunningElectronProcess processId in
      let* process := deref r in
      let* _ := match givenString targetId with
                | Some target =>
                    let* _ := executeCDPCommand w r target "Page" "reload" [] in
                    ret tt
                | None =>
                    match ElectronProcess.targets process with
                    | Some targets => reloadEach r targets
                    | None => ret tt
                    end
                end in
      ret (ReloadedPayload processId (default "all" (givenString targetId)))
  | electron_evaluate processId targetId expression returnByValue =>
      let* r := requireRunningElectronProcess processId in
      let* result :=
        executeCDPCommand w r targetId "Runtime" "evaluate"
          [("expression", PString expression);
           ("returnByValue", PBool (default true returnByValue))] in
      ret (EvaluatedPayload result processId targetId)
  | electron_pause processId targetId =>
      let* r := requireRunningElectronProcess processId in
      let* _ := executeCDPCommand w r targetId "Debugger" "pause" [] in
      ret (SucceededPayload processId targetId)
  | electron_resume processId targetId =>
      let* r := requireRunningElectronProcess processId in
      let* _ := executeCDPCommand w r targetId "Debugger" "resume" [] in
      ret (SucceededPayload processId targetId)
  | otherTool name => ret (ErrorPayload ("Unknown tool: " ++ name))
  end.

(** The handler: whatever the [switch] throws becomes a result flagged as
    an error and carrying the message; so does the error that the
    [default] case throws for a name without a case. *)
Definition callTool (call : ToolCall) : M ToolResult :=
  match call with
  | otherTool name => ret (mkToolResult (ErrorPayload ("Unknown tool: " ++ name)) true)
  | _ =>
      tryCatch
        (let* payload := runTool call in ret (mkToolResult payload false))
        (fun error => ret (mkToolResult (ErrorPayload (message error)) true))
  end.

End Tools.

(** ** Notions used to state the properties *)

(** A run of ['data'] events on one record: [addLog] once per chunk. *)
Fixpoint addLogs (r : loc) (chunks : list string) : M unit :=
  match chunks with
  | [] => ret tt
  | log :: rest => let* _ := addLog r log in addLogs r rest
  end.

(** The last [n] elements of a list. *)
Definition lastN {A : Type} (n : nat) (l : list A) : list A :=
  List.skipn (List.length l - n) l.

(** The state after the discovery request has gone out. *)
Definition afterFetch (s : State) (port : Z) : State :=
  mkState (heap s) (electronProcesses s) (clock s)
          (trace s ++ [Fetch (discoveryUrl port)]).

(** What [client.send] settles to, as a result of the command monad. *)
Definition sendResult (w : World) (client : CDPClient) (method : string)
    (params : option Params) : Result Reply :=
  match send w client method params with
  | inl reason => Throw (SessionError reason)
  | inr reply => Ok reply
  end.

(** The calls that closing the session of a record makes. *)
Definition closeCalls (p : ElectronProcess.t) : list Event :=
  match ElectronProcess.cdpClient p with
  | Some client => [Close client]
  | None => []
  end.

(** The path of a cdp URI has both identifier segments: at least two
    segments, the first two not empty. *)
Definition hasBothIdentifiers (path : string) : Prop :=
  exists processId targetId rest,
    Js.split "/" path = processId :: targetId :: rest /\
    processId <> "" /\ targetId <> "".

(** A command path of exactly two segments, neither empty. *)
Definition isDomainAndMethod (commandPath : string) : Prop :=
  exists domain method,
    Js.split "/" commandPath = [domain; method] /\ domain <> "" /\ method <> "".

(** ** Scenarios *)

Module Scenario.

Definition target1 : CDPTarget.t :=
  CDPTarget.mk "t1" "page" "Main window" "file:///app/index.html"
    (Some "ws://localhost:9222/devtools/page/t1") None.

(** A running record on port 9222 whose cache was filled at time 2000. *)
Definition record1 : ElectronProcess.t :=
  ElectronProcess.mk "electron-1000" (Child 1 (Some 4242)) "app" running
    (Some 4242) (Some 9222) 1000 [] "/app" None (Some [target1]) (Some 2000).

(** The same record with an open session. *)
Definition record1Connected : ElectronProcess.t :=
  ElectronProcess.setCdpClient (Some (Client 7)) record1.

(** A world fixed by which ports are free, how discovery settles and how
    [Performance.getMetrics] settles; a child is known by the length of
    its command line, every session is client 7 and every other command
    is answered; a child does nothing while its start waits. *)
Definition world (available : Z -> bool) (discovery : FetchOutcome)
    (metrics : string + Reply) : World :=
  mkWorld available "electron" (fun _ => "app")
    (fun _ args =>
       let n := String.length (String.concat " " args) in
       Child n (Some (4000 + Z.of_nat n)))
    (fun _ _ => discovery)
    (fun _ _ => inr (Client 7))
    (fun _ method _ =>
       if String.eqb method "Performance.getMetrics" then metrics
       else inr (ReplyValue "{}"))
    (fun _ => None)
    (fun port =>
       "options.port should be >= 0 and < 65536. Received type number ("
         ++ Js.numberToString port ++ ").")
    (fun _ _ => []).

Definition discovered : FetchOutcome := FetchResponse true "OK" (JsonTargets [target1]).

(** Discovery answers; the metrics command is refused. *)
Definition online : World :=
  world (fun _ => true) discovered (inl "'Performance.getMetrics' wasn't found").

(** Discovery answers; the metrics reply has no [CPUUsage] entry. *)
Definition onlinePartialMetrics : World :=
  world (fun _ => true) discovered
    (inr (ReplyMetrics [mkMetric "JSHeapUsedSize" 52428800%float])).

(** The debugging port does not answer. *)
Definition offline : World :=
  world (fun _ => true) (FetchRejected "fetch failed") (inr (ReplyValue "{}")).

(** Port 9222 is taken. *)
Definition taken9222 : World :=
  world (fun port => negb (port =? 9222)) discovered (inr (ReplyValue "{}")).

(** A state holding one record, registered under its identifier. *)
Definition holding (p : ElectronProcess.t) (now : Z) : State :=
  mkState {[ 0%nat := p ]} {[ ElectronProcess.id p := 0%nat ]} now [].

(** No record yet. *)
Definition fresh (now : Z) : State := mkState ∅ ∅ now [].

(** A record whose buffer is at the cap. *)
Definition recordFull : ElectronProcess.t :=
  ElectronProcess.setLogs (List.repeat "old" 1000) record1.

(** Two starts, on two free ports, that read the same [Date.now()]:
    discovery answers the first at once, so the clock has not moved when
    the second begins. *)
Definition firstStart : Result loc * State :=
  startElectronApp online "/apps/a" (Some 9222) None (fresh 1700000000000).

Definition secondStart : Result loc * State :=
  startElectronApp online "/apps/b" (Some 9223) None (snd firstStart).

End Scenario.

(** ** Notions used to state the further properties *)

(** A state after more calls on the outside world. *)
Definition withCalls (s : State) (calls : list Event) : State :=
  mkState (heap s) (electronProcesses s) (clock s) (trace s ++ calls).

(** The ports of the scanning range below [port], in increasing order. *)
Definition portsBelow (port : Z) : list Z :=
  List.map (fun i => 9222 + Z.of_nat i) (List.seq 0 (Z.to_nat (port - 9222))).

(** The command line of a start on [port]. *)
Definition startArgs (appPath : string) (port : Z) : list string :=
  ["--enable-logging"; "--remote-debugging-port=" ++ Js.numberToString port; appPath].

(** The record that a start at time [now] creates. *)
Definition createdRecord (w : World) (now : Z) (appPath : string) (port : Z) :
    ElectronProcess.t :=
  let child := spawn w (getElectronExecutablePath w) (startArgs appPath port) in
  ElectronProcess.mk (processId now) child (basename w appPath) running
    (childPid child) (Some port) now [] appPath None None None.

(** Discovery on [url] gives no target list at any time: the request is
    rejected, the response is not ok, or its body is not JSON. *)
Definition discoveryDown (w : World) (url : string) : Prop :=
  forall t targets statusText, fetch w t url <> FetchResponse true statusText (JsonTargets targets).

(** The calls of the polling loop: discovery requests and waits. *)
Definition isPollCall (url : string) (e : Event) : Prop :=
  e = Fetch url \/ e = Sleep 500.

(** The status that the exit handler gives for an exit code. *)
Definition exitStatus (code : option Z) : Status :=
  match code with
  | Some 0 => stopped
  | _ => crashed
  end.

(** Whether an event is the exit of the child. *)
Definition isExit (e : ChildEvent) : bool :=
  match e with
  | Exited _ => true
  | Output _ => false
  end.

(** The child does not exit while its start waits. *)
Definition staysAlive (w : World) (child : ChildProcess) : Prop :=
  forall n, List.existsb isExit (arrivals w child n) = false.

(** The child neither writes nor exits while its start waits. *)
Definition staysQuiet (w : World) (child : ChildProcess) : Prop :=
  forall n, arrivals w child n = [].

(** What the handlers make of a record without session, on one event and
    on a list of events. *)
Definition afterEvent (p : ElectronProcess.t) (e : ChildEvent) : ElectronProcess.t :=
  match e with
  | Output chunk =>
      ElectronProcess.setLogs (pushLog chunk (ElectronProcess.logs p)) p
  | Exited code =>
      ElectronProcess.setCdpClient None (ElectronProcess.setStatus (exitStatus code) p)
  end.

Definition afterEvents (p : ElectronProcess.t) (events : list ChildEvent) :
    ElectronProcess.t :=
  List.fold_left afterEvent events p.

(** The members of a record that nothing assigns once it is created. *)
Definition sameMembers (p p' : ElectronProcess.t) : Prop :=
  ElectronProcess.id p' = ElectronProcess.id p /\
  ElectronProcess.process p' = ElectronProcess.process p /\
  ElectronProcess.name p' = ElectronProcess.name p /\
  ElectronProcess.pid p' = ElectronProcess.pid p /\
  ElectronProcess.debugPort p' = ElectronProcess.debugPort p /\
  ElectronProcess.startTime p' = ElectronProcess.startTime p /\
  ElectronProcess.appPath p' = ElectronProcess.appPath p.

(** What a start finds changed, from [s] to [s'], while it waited for
    discovery on [url]: its record [r], registered under [id], is still
    there, without session; no other record and no other entry of the
    process map has changed; the calls made are those of the polling loop;
    the clock has not gone back.  The process map and the status are as
    they were when the child has not exited, the log buffer when the child
    has been quiet, the cache when discovery has given no list. *)
Definition Waited (w : World) (url id : string) (r : loc) (s s' : State) : Prop :=
  exists p p' calls,
    heap s !! r = Some p /\
    heap s' !! r = Some p' /\
    sameMembers p p' /\
    ElectronProcess.cdpClient p' = None /\
    (forall r', r' <> r -> heap s' !! r' = heap s !! r') /\
    (forall id', id' <> id -> electronProcesses s' !! id' = electronProcesses s !! id') /\
    trace s' = (trace s ++ calls)%list /\
    List.Forall (isPollCall url) calls /\
    clock s <= clock s' /\
    (staysAlive w (ElectronProcess.process p) ->
     electronProcesses s' = electronProcesses s /\
     ElectronProcess.status p' = ElectronProcess.status p) /\
    (staysQuiet w (ElectronProcess.process p) ->
     ElectronProcess.logs p' = ElectronProcess.logs p) /\
    (discoveryDown w url ->
     ElectronProcess.targets p' = ElectronProcess.targets p).

(** The call does not end the server: a start whose spawn fails does. *)
Definition serverSurvives (w : World) (call : ToolCall) : Prop :=
  match call with
  | electron_start _ _ _ => forall command args, childPid (spawn w command args) <> None
  | _ => True
  end.

(** A string without the separator of URI segments. *)
Fixpoint slashFree (s : string) : bool :=
  match s with
  | EmptyString => true
  | String c rest => negb (Ascii.eqb c "/") && slashFree rest
  end.

(** A string fit to be one identifier segment of a URI. *)
Definition isSegment (s : string) : Prop := s <> "" /\ slashFree s = true.

(** Every reference of the process map designates a record. *)
Definition mapLive (s : State) : Prop :=
  forall id r, electronProcesses s !! id = Some r -> is_Some (heap s !! r).

(** A discovery request, on whatever URL. *)
Definition isFetch (e : Event) : Prop := exists url, e = Fetch url.

(** ** Further scenarios *)

Module Cases.

(** The ports below 9224 are taken. *)
Definition from9224 : World :=
  Scenario.world (fun port => 9224 <=? port) Scenario.discovered (inr (ReplyValue "{}")).

(** No port of the scanning range is free. *)
Definition noPort : World :=
  Scenario.world (fun _ => false) Scenario.discovered (inr (ReplyValue "{}")).

(** A world with the collaborators of [w] and the child events given. *)
Definition withArrivals (w : World)
    (events : ChildProcess -> nat -> list ChildEvent) : World :=
  mkWorld (isPortAvailable w) (getElectronExecutablePath w) (basename w) (spawn w)
    (fetch w) (CDP w) (send w) (close w) (listenError w) events.

(** The debugging port does not answer; the child writes a line during
    every wait of its start and does not exit. *)
Definition chatty : World :=
  withArrivals Scenario.offline (fun _ _ => [Output "listening"]).

(** The debugging port does not answer; the child writes a line and exits
    with code 1 while its start awaits the first discovery request, the
    third call of a start on a given port. *)
Definition dying : World :=
  withArrivals Scenario.offline
    (fun _ n => if (n =? 3)%nat then [Output "boom"; Exited (Some 1)] else []).

(** A running record that has no debugging port. *)
Definition recordNoPort : ElectronProcess.t :=
  ElectronProcess.mk "electron-1000" (Child 1 (Some 4242)) "app" running
    (Some 4242) None 1000 [] "/app" None None None.

(** A record that is still registered and no longer running. *)
Definition recordStopped : ElectronProcess.t :=
  ElectronProcess.setStatus stopped Scenario.record1.

(** A macOS machine where Electron is installed in the project only;
    paths are joined with a slash. *)
Definition mac : Executable.Machine :=
  Executable.mkMachine Executable.darwin "/Users/dev" "/work/app"
    (fun path => String.eqb path "/work/app/node_modules/.bin/electron")
    (String.concat "/") (String.concat "/").

End Cases.

(** * Properties *)

(** ** Log buffer *)

Lemma lastN_all {A : Type} (n : nat) (l : list A) :
  (List.length l <= n)%nat -> lastN n l = l.
Proof.
  intros Hle. unfold lastN.
  replace (List.length l - n)%nat with 0%nat by lia. reflexivity.
Qed.

Lemma lastN_length {A : Type} (n : nat) (l : list A) :
  List.length (lastN n l) = Nat.min n (List.length l).
Proof. unfold lastN. rewrite List.length_skipn. lia. Qed.

Lemma lastN_snoc {A : Type} (n : nat) (l : list A) (x : A) :
  (0 < n)%nat -> lastN n (lastN n l ++ [x]) = lastN n (l ++ [x]).
Proof.
  intros Hn. destruct (Nat.le_gt_cases (List.length l) n) as [Hle | Hgt].
  - rewrite (lastN_all n l Hle). reflexivity.
  - unfold lastN at 1. rewrite List.length_app, lastN_length. simpl.
    replace (Nat.min n (List.length l) + 1 - n)%nat with 1%nat by lia.
    unfold lastN. rewrite List.length_app. simpl.
    rewrite (drop_app_le (drop _ l)) by (rewrite length_drop; lia).
    rewrite drop_drop.
    rewrite (drop_app_le l) by lia.
    do 2 f_equal. lia.
Qed.

(** Cutting to the last [n] commutes with appending more. *)
Lemma lastN_app {A : Type} (n : nat) (l more : list A) :
  (0 < n)%nat -> lastN n (lastN n l ++ more) = lastN n (l ++ more).
Proof.
  intros Hn. induction more as [| m more IH] using List.rev_ind.
  - rewrite !List.app_nil_r. apply lastN_all. rewrite lastN_length. lia.
  - rewrite !List.app_assoc.
    rewrite <- (lastN_snoc n (lastN n l ++ more)) by exact Hn.
    rewrite IH. apply lastN_snoc. exact Hn.
Qed.

Lemma lastN_keeps_last {A : Type} (n : nat) (l : list A) (x : A) :
  (0 < n)%nat -> exists front, lastN n (l ++ [x]) = (front ++ [x])%list.
Proof.
  intros Hn. unfold lastN. rewrite List.length_app. simpl.
  exists (List.skipn (List.length l + 1 - n) l).
  rewrite drop_app_le by lia. reflexivity.
Qed.

Lemma pushLog_lastN (log : string) (logs : list string) :
  pushLog log logs = lastN MAX_LOG_ENTRIES (logs ++ [log]).
Proof.
  unfold pushLog, Js.spliceFront.
  destruct (Nat.ltb_spec MAX_LOG_ENTRIES (List.length (logs ++ [log]))) as [Hlt | Hge].
  - reflexivity.
  - symmetry. apply lastN_all. exact Hge.
Qed.

Lemma addLog_run (r : loc) (log : string) (s : State) (p : ElectronProcess.t) :
  heap s !! r = Some p ->
  addLog r log s =
    (Ok tt, mkState (<[r := ElectronProcess.setLogs
                              (pushLog log (ElectronProcess.logs p)) p]> (heap s))
                    (electronProcesses s) (clock s) (trace s)).
Proof.
  intros Hr. unfold addLog, assign. do 2 f_equal.
  apply map_eq. intros i. rewrite lookup_alter, lookup_insert.
  destruct (decide (r = i)) as [-> | Hne]; [rewrite Hr|]; reflexivity.
Qed.

Lemma addLogs_run (r : loc) (chunks : list string) :
  forall (s : State) (p : ElectronProcess.t) (log : string),
    heap s !! r = Some p ->
    exists s',
      addLogs r (chunks ++ [log]) s = (Ok tt, s') /\
      electronProcesses s' = electronProcesses s /\
      trace s' = trace s /\
      heap s' =
        <[r := ElectronProcess.setLogs
                 (lastN MAX_LOG_ENTRIES
                    (ElectronProcess.logs p ++ chunks ++ [log])) p]> (heap s).
Proof.
  induction chunks as [| c rest IH]; intros s p log Hr.
  - simpl. unfold bind. rewrite (addLog_run r log s p Hr). simpl.
    eexists. split; [reflexivity|]. simpl. rewrite pushLog_lastN. auto.
  - simpl. unfold bind. rewrite (addLog_run r c s p Hr).
    set (p1 := ElectronProcess.setLogs (pushLog c (ElectronProcess.logs p)) p).
    set (s1 := mkState _ _ _ _).
    destruct (IH s1 p1 log) as (s' & Hrun & Hmap & Htrace & Hheap).
    { subst s1. simpl. apply lookup_insert_eq. }
    exists s'. split; [exact Hrun|]. split; [exact Hmap|]. split; [exact Htrace|].
    rewrite Hheap. subst s1 p1. simpl. rewrite insert_insert_eq.
    f_equal. unfold ElectronProcess.setLogs. simpl. f_equal.
    rewrite pushLog_lastN, lastN_app by (unfold MAX_LOG_ENTRIES; lia).
    rewrite <- List.app_assoc. reflexivity.
Qed.

(** The buffer of a record that started empty, as [startElectronApp]
    creates it, after any run of chunks. *)
Lemma addLogs_from_empty (r : loc) (chunks : list string) (s : State)
    (p : ElectronProcess.t) :
  heap s !! r = Some p ->
  ElectronProcess.logs p = [] ->
  exists s' p',
    addLogs r chunks s = (Ok tt, s') /\
    heap s' !! r = Some p' /\
    ElectronProcess.logs p' = lastN MAX_LOG_ENTRIES chunks.
Proof.
  intros Hr Hempty. induction chunks as [| c front _] using List.rev_ind.
  - exists s, p. split; [reflexivity|]. split; [exact Hr|]. rewrite Hempty. reflexivity.
  - destruct (addLogs_run r front s p c Hr) as (s' & Hrun & _ & _ & Hheap).
    exists s'. eexists. split; [exact Hrun|].
    split; [rewrite Hheap; apply lookup_insert_eq|].
    simpl. rewrite Hempty. reflexivity.
Qed.

(** C6.  For every process record and every sequence of log appends ending
    with the chunk [log]: the appends succeed, the buffer of the record
    holds at most 1000 entries, it is what remains of everything appended
    once the oldest entries are cut off, and its last entry is [log], the
    most recently appended chunk.  For a record whose buffer started
    empty, as a start creates it, the buffer after any sequence of appends
    is the last 1000 chunks at most. *)
Theorem log_buffer_capped (s : State) (r : loc) (p : ElectronProcess.t)
    (earlier : list string) (log : string) :
  heap s !! r = Some p ->
  (exists s' p',
     addLogs r (earlier ++ [log]) s = (Ok tt, s') /\
     heap s' !! r = Some p' /\
     (List.length (ElectronProcess.logs p') <= 1000)%nat /\
     (let appended := (ElectronProcess.logs p ++ earlier ++ [log])%list in
      ElectronProcess.logs p' = List.skipn (List.length appended - 1000) appended) /\
     (exists front, ElectronProcess.logs p' = (front ++ [log])%list)) /\
  (ElectronProcess.logs p = [] ->
   forall chunks,
   exists s' p',
     addLogs r chunks s = (Ok tt, s') /\
     heap s' !! r = Some p' /\
     (List.length (ElectronProcess.logs p') <= 1000)%nat /\
     ElectronProcess.logs p' = List.skipn (List.length chunks - 1000) chunks).
Proof.
  intros Hr. split.
  - destruct (addLogs_run r earlier s p log Hr) as (s' & Hrun & _ & _ & Hheap).
    exists s'. eexists. split; [exact Hrun|].
    split; [rewrite Hheap; apply lookup_insert_eq|].
    simpl. split; [|split].
    + rewrite lastN_length. unfold MAX_LOG_ENTRIES. lia.
    + reflexivity.
    + rewrite List.app_assoc. apply lastN_keeps_last. unfold MAX_LOG_ENTRIES. lia.
  - intros Hempty chunks.
    destruct (addLogs_from_empty r chunks s p Hr Hempty) as (s' & p' & Hrun & Hp' & Hlogs).
    exists s', p'. split; [exact Hrun|]. split; [exact Hp'|].
    rewrite Hlogs. split; [|reflexivity].
    rewrite lastN_length. unfold MAX_LOG_ENTRIES. lia.
Qed.

(** ** Running the primitive commands *)

Lemma alter_at (r : loc) (f : ElectronProcess.t -> ElectronProcess.t)
    (h : gmap loc ElectronProcess.t) (p : ElectronProcess.t) :
  h !! r = Some p -> alter f r h = <[r := f p]> h.
Proof.
  intros Hr. apply map_eq. intros i. rewrite lookup_alter, lookup_insert.
  destruct (decide (r = i)) as [-> | Hne]; [rewrite Hr|]; reflexivity.
Qed.

Lemma assign_run (r : loc) (f : ElectronProcess.t -> ElectronProcess.t)
    (s : State) (p : ElectronProcess.t) :
  heap s !! r = Some p ->
  assign r f s =
    (Ok tt, mkState (<[r := f p]> (heap s)) (electronProcesses s) (clock s) (trace s)).
Proof. intros Hr. unfold assign. rewrite (alter_at r f (heap s) p Hr). reflexivity. Qed.

Lemma deref_run (r : loc) (s : State) (p : ElectronProcess.t) :
  heap s !! r = Some p -> deref r s = (Ok p, s).
Proof. intros Hr. unfold deref. rewrite Hr. reflexivity. Qed.

Lemma state_eta (s : State) :
  mkState (heap s) (electronProcesses s) (clock s) (trace s) = s.
Proof. destruct s. reflexivity. Qed.

(** ** Target registry *)

Lemma updateCDPTargets_run (w : World) (r : loc) (s : State)
    (p : ElectronProcess.t) (port : Z) :
  heap s !! r = Some p ->
  givenNumber (ElectronProcess.debugPort p) = Some port ->
  updateCDPTargets w r s =
    match fetch w (clock s) (discoveryUrl port) with
    | FetchRejected reason => (Throw (DiscoveryRejected reason), afterFetch s port)
    | FetchResponse false statusText _ =>
        (Throw (DiscoveryBadStatus statusText), afterFetch s port)
    | FetchResponse true _ (JsonInvalid reason) =>
        (Throw (DiscoveryInvalidJson reason), afterFetch s port)
    | FetchResponse true _ (JsonTargets targets) =>
        (Ok targets,
         mkState (<[r := ElectronProcess.setTargets targets (clock s) p]> (heap s))
                 (electronProcesses s) (clock s)
                 (trace s ++ [Fetch (discoveryUrl port)]))
    end.
Proof.
  intros Hr Hport. unfold updateCDPTargets, bind.
  rewrite (deref_run r s p Hr), Hport. simpl.
  destruct (fetch w (clock s) (discoveryUrl port)) as [reason | ok statusText body];
    [reflexivity|].
  destruct ok; [|reflexivity].
  destruct body as [targets | reason]; [|reflexivity].
  simpl. unfold ret. rewrite (alter_at r _ (heap s) p Hr). reflexivity.
Qed.

Lemma updateCDPTargets_no_port (w : World) (r : loc) (s : State)
    (p : ElectronProcess.t) :
  heap s !! r = Some p ->
  givenNumber (ElectronProcess.debugPort p) = None ->
  updateCDPTargets w r s = (Throw NoDebugPort, s).
Proof.
  intros Hr Hport. unfold updateCDPTargets, bind.
  rewrite (deref_run r s p Hr), Hport. reflexivity.
Qed.

(** A refresh that throws has written nothing: not to the objects, not to
    the process map, not to the clock. *)
Lemma updateCDPTargets_throw (w : World) (r : loc) (s s' : State) (e : Error) :
  updateCDPTargets w r s = (Throw e, s') ->
  heap s' = heap s /\ electronProcesses s' = electronProcesses s /\ clock s' = clock s.
Proof.
  unfold updateCDPTargets, bind, deref.
  destruct (heap s !! r) as [p|] eqn:Hr.
  - destruct (givenNumber (ElectronProcess.debugPort p)) as [port|].
    + simpl.
      destruct (fetch w (clock s) (discoveryUrl port)) as [reason | ok statusText body].
      * intros [= <- <-]. auto.
      * destruct ok; simpl.
        -- destruct body as [targets | reason]; simpl.
           ++ unfold bind, assign, ret. simpl. discriminate.
           ++ intros [= <- <-]. auto.
        -- intros [= <- <-]. auto.
    + intros [= <- <-]. auto.
  - intros [= <- <-]. auto.
Qed.

Lemma updateCDPTargets_clock (w : World) (r : loc) (s s' : State)
    (result : Result (list CDPTarget.t)) :
  updateCDPTargets w r s = (result, s') -> clock s' = clock s.
Proof.
  unfold updateCDPTargets, bind, deref.
  destruct (heap s !! r) as [p|] eqn:Hr; [|intros [= <- <-]; reflexivity].
  destruct (givenNumber (ElectronProcess.debugPort p)) as [port|];
    [|intros [= <- <-]; reflexivity].
  simpl.
  destruct (fetch w (clock s) (discoveryUrl port)) as [reason | ok statusText body];
    [intros [= <- <-]; reflexivity|].
  destruct ok; simpl; [|intros [= <- <-]; reflexivity].
  destruct body as [targets | reason]; simpl; intros [= <- <-]; reflexivity.
Qed.

(** C5.  A refresh of a record with a debugging port is atomic on failure:
    when the discovery request meets a transport error, a response that is
    not ok, or a body that is not JSON, it throws and the record is what
    it was (cached list and stamp included); when discovery succeeds the
    cached list is the list received, whatever it was before, and the
    stamp is the time of the refresh.  More generally, no refresh that
    throws has changed any record or the process map. *)
Theorem refresh_atomic (w : World) (s : State) (r : loc)
    (p : ElectronProcess.t) (port : Z) :
  heap s !! r = Some p ->
  givenNumber (ElectronProcess.debugPort p) = Some port ->
  exists result s',
    updateCDPTargets w r s = (result, s') /\
    electronProcesses s' = electronProcesses s /\
    (forall e, result = Throw e -> heap s' = heap s) /\
    match fetch w (clock s) (discoveryUrl port) with
    | FetchRejected reason =>
        result = Throw (DiscoveryRejected reason) /\ heap s' !! r = Some p
    | FetchResponse false statusText _ =>
        result = Throw (DiscoveryBadStatus statusText) /\ heap s' !! r = Some p
    | FetchResponse true _ (JsonInvalid reason) =>
        result = Throw (DiscoveryInvalidJson reason) /\ heap s' !! r = Some p
    | FetchResponse true _ (JsonTargets targets) =>
        result = Ok targets /\
        exists p',
          heap s' !! r = Some p' /\
          p' = ElectronProcess.setTargets targets (clock s) p /\
          ElectronProcess.targets p' = Some targets /\
          ElectronProcess.lastTargetUpdate p' = Some (clock s)
    end.
Proof.
  intros Hr Hport.
  destruct (updateCDPTargets w r s) as [result s'] eqn:Hrun.
  exists result, s'. split; [reflexivity|].
  split.
  { rewrite (updateCDPTargets_run w r s p port Hr Hport) in Hrun.
    destruct (fetch w (clock s) (discoveryUrl port)) as [reason | [] statusText [targets | reason]];
      injection Hrun as <- <-; reflexivity. }
  split.
  { intros e ->. apply (updateCDPTargets_throw w r s s' e Hrun). }
  rewrite (updateCDPTargets_run w r s p port Hr Hport) in Hrun.
  destruct (fetch w (clock s) (discoveryUrl port)) as [reason | [] statusText [targets | reason]];
    injection Hrun as <- <-; simpl; try (split; [reflexivity | exact Hr]).
  split; [reflexivity|]. eexists. split; [apply lookup_insert_eq|]. auto.
Qed.

(** ** Session client factory *)

Lemma needsRefresh_stale (p : ElectronProcess.t) (cached : list CDPTarget.t)
    (last now : Z) :
  ElectronProcess.targets p = Some cached ->
  ElectronProcess.lastTargetUpdate p = Some last ->
  now - last > 5000 ->
  needsRefresh p now = true.
Proof.
  intros Hc Hl Hage. unfold needsRefresh. rewrite Hc, Hl.
  apply Z.gtb_lt. lia.
Qed.

(** A connect that has to refresh and whose refresh throws is that throw. *)
Lemma connect_refresh_throw (w : World) (s s' : State) (r : loc)
    (p : ElectronProcess.t) (port : Z) (targetId : string) (e : Error) :
  heap s !! r = Some p ->
  givenNumber (ElectronProcess.debugPort p) = Some port ->
  needsRefresh p (clock s) = true ->
  updateCDPTargets w r s = (Throw e, s') ->
  connectToCDPTarget w r targetId s = (Throw e, s').
Proof.
  intros Hr Hport Hstale Hupd. unfold connectToCDPTarget, bind.
  rewrite (deref_run r s p Hr), Hport. simpl.
  rewrite Hstale. unfold bind. rewrite Hupd. reflexivity.
Qed.

(** C1, as the code has it.  For every process record with a debugging
    port and a cached target list, when connect finds the cache older than
    5000 ms and the refresh it then attempts throws, connect throws that
    same error to its caller, whatever the target asked for: the stale
    cache is not searched, no session is opened (the discovery request is
    the only call made), and the record is left as it was. *)
Theorem connect_propagates_refresh_failure (w : World) (s s' : State) (r : loc)
    (p : ElectronProcess.t) (port : Z) (cached : list CDPTarget.t) (last : Z)
    (targetId : string) (e : Error) :
  heap s !! r = Some p ->
  givenNumber (ElectronProcess.debugPort p) = Some port ->
  ElectronProcess.targets p = Some cached ->
  ElectronProcess.lastTargetUpdate p = Some last ->
  clock s - last > 5000 ->
  updateCDPTargets w r s = (Throw e, s') ->
  connectToCDPTarget w r targetId s = (Throw e, s') /\
  heap s' !! r = Some p /\
  trace s' = (trace s ++ [Fetch (discoveryUrl port)])%list.
Proof.
  intros Hr Hport Hc Hl Hage Hupd.
  split.
  - apply (connect_refresh_throw w s s' r p port targetId e Hr Hport); [|exact Hupd].
    apply (needsRefresh_stale p cached last (clock s) Hc Hl Hage).
  - destruct (updateCDPTargets_throw w r s s' e Hupd) as (Hheap & _ & _).
    split; [rewrite Hheap; exact Hr|].
    rewrite (updateCDPTargets_run w r s p port Hr Hport) in Hupd.
    destruct (fetch w (clock s) (discoveryUrl port)) as [reason | [] statusText [targets | reason]];
      injection Hupd as _ <-; reflexivity || discriminate.
Qed.

(** ** Command executor *)

Lemma sendCommand_run (w : World) (client : CDPClient) (method : string)
    (params : option Params) (s : State) :
  sendCommand w client method params s =
    (sendResult w client method params,
     mkState (heap s) (electronProcesses s) (clock s)
             (trace s ++ [Send client method params])).
Proof.
  unfold sendCommand, sendResult, bind, emit. simpl.
  destruct (send w client method params); reflexivity.
Qed.

Lemma executeCDPCommand_with_session (w : World) (s : State) (r : loc)
    (p : ElectronProcess.t) (client : CDPClient)
    (targetId domain command : string) (params : Params) :
  heap s !! r = Some p ->
  ElectronProcess.cdpClient p = Some client ->
  executeCDPCommand w r targetId domain command params s =
    (sendResult w client (domain ++ "." ++ command) (Some params),
     mkState (heap s) (electronProcesses s) (clock s)
             (trace s ++ [Send client (domain ++ "." ++ command) (Some params)])).
Proof.
  intros Hr Hc. unfold executeCDPCommand, bind.
  rewrite (deref_run r s p Hr), Hc. simpl. apply sendCommand_run.
Qed.

Lemma executeCDPCommand_without_session (w : World) (s : State) (r : loc)
    (p : ElectronProcess.t) (targetId domain command : string) (params : Params) :
  heap s !! r = Some p ->
  ElectronProcess.cdpClient p = None ->
  executeCDPCommand w r targetId domain command params s =
    match connectToCDPTarget w r targetId s with
    | (Ok client, s1) =>
        (sendResult w client (domain ++ "." ++ command) (Some params),
         mkState (heap s1) (electronProcesses s1) (clock s1)
                 (trace s1 ++ [Send client (domain ++ "." ++ command) (Some params)]))
    | (Throw e, s1) => (Throw e, s1)
    end.
Proof.
  intros Hr Hc. unfold executeCDPCommand, bind.
  rewrite (deref_run r s p Hr), Hc.
  destruct (connectToCDPTarget w r targetId s) as [[client | e] s1]; [|reflexivity].
  apply sendCommand_run.
Qed.

(** C9.  For every record, target id, domain, method and params: when the
    record has an active session, execute sends on that session, and
    otherwise on the session that connect returns for the target (a
    connect that throws is the outcome of execute, and nothing is sent).
    In both cases exactly one command goes out, named by the domain, a dot
    and the method, with the params given, and the outcome of execute is
    the reply the session gave, as it gave it. *)
Theorem execute_forwards_command (w : World) (s : State) (r : loc)
    (p : ElectronProcess.t) (targetId domain command : string) (params : Params) :
  heap s !! r = Some p ->
  let method := domain ++ "." ++ command in
  let outcome := executeCDPCommand w r targetId domain command params s in
  match ElectronProcess.cdpClient p with
  | Some client =>
      trace (snd outcome) = (trace s ++ [Send client method (Some params)])%list /\
      heap (snd outcome) = heap s /\
      (forall reply, send w client method (Some params) = inr reply ->
                     fst outcome = Ok reply) /\
      (forall reason, send w client method (Some params) = inl reason ->
                      fst outcome = Throw (SessionError reason))
  | None =>
      match connectToCDPTarget w r targetId s with
      | (Ok client, connected) =>
          trace (snd outcome) =
            (trace connected ++ [Send client method (Some params)])%list /\
          heap (snd outcome) = heap connected /\
          (forall reply, send w client method (Some params) = inr reply ->
                         fst outcome = Ok reply) /\
          (forall reason, send w client method (Some params) = inl reason ->
                          fst outcome = Throw (SessionError reason))
      | (Throw e, failed) => outcome = (Throw e, failed)
      end
  end.
Proof.
  intros Hr method outcome. subst method outcome.
  destruct (ElectronProcess.cdpClient p) as [client|] eqn:Hc.
  - rewrite (executeCDPCommand_with_session w s r p client _ _ _ _ Hr Hc). simpl.
    unfold sendResult. repeat split; intros ? ->; reflexivity.
  - rewrite (executeCDPCommand_without_session w s r p _ _ _ _ Hr Hc).
    destruct (connectToCDPTarget w r targetId s) as [[client | e] s1]; [|reflexivity].
    simpl. unfold sendResult. repeat split; intros ? ->; reflexivity.
Qed.

(** C10.  For every record whose active session is set, execute makes one
    call on the outside world, the send on that session: no discovery
    request, no connect.  Its outcome is what the session answers, is the
    same for every target id, is the same for every record that holds this
    session whatever its cached target list, and is never the
    target-not-found error. *)
Theorem execute_with_session_ignores_target (w : World) (s : State) (r : loc)
    (p : ElectronProcess.t) (client : CDPClient)
    (targetId domain command : string) (params : Params) :
  heap s !! r = Some p ->
  ElectronProcess.cdpClient p = Some client ->
  let method := domain ++ "." ++ command in
  let outcome := executeCDPCommand w r targetId domain command params s in
  fst outcome = sendResult w client method (Some params) /\
  snd outcome = mkState (heap s) (electronProcesses s) (clock s)
                        (trace s ++ [Send client method (Some params)]) /\
  (forall missing, fst outcome <> Throw (TargetNotFound missing)) /\
  (forall otherTarget,
     executeCDPCommand w r otherTarget domain command params s = outcome) /\
  (forall s2 p2,
     heap s2 !! r = Some p2 ->
     ElectronProcess.cdpClient p2 = Some client ->
     fst (executeCDPCommand w r targetId domain command params s2) = fst outcome).
Proof.
  intros Hr Hc method outcome. subst method outcome.
  rewrite (executeCDPCommand_with_session w s r p client _ _ _ _ Hr Hc). simpl.
  split; [reflexivity|]. split; [reflexivity|]. split; [|split].
  - intros missing. unfold sendResult.
    destruct (send w client (domain ++ "." ++ command) (Some params)); discriminate.
  - intros otherTarget.
    apply (executeCDPCommand_with_session w s r p client _ _ _ _ Hr Hc).
  - intros s2 p2 Hr2 Hc2.
    rewrite (executeCDPCommand_with_session w s2 r p2 client _ _ _ _ Hr2 Hc2).
    reflexivity.
Qed.

(** ** Stopping a process *)

Lemma setCdpClient_none (p : ElectronProcess.t) :
  ElectronProcess.cdpClient p = None -> ElectronProcess.setCdpClient None p = p.
Proof. destruct p. simpl. intros ->. reflexivity. Qed.

Lemma closeSession_run (w : World) (r : loc) (s : State) (p : ElectronProcess.t) :
  heap s !! r = Some p ->
  closeSession w r s =
    (Ok tt, mkState (<[r := ElectronProcess.setCdpClient None p]> (heap s))
                    (electronProcesses s) (clock s) (trace s ++ closeCalls p)).
Proof.
  intros Hr. unfold closeSession, closeCalls, bind.
  rewrite (deref_run r s p Hr).
  destruct (ElectronProcess.cdpClient p) as [client|] eqn:Hc.
  - unfold tryCatch, closeClient, bind, emit. simpl.
    destruct (close w client) as [reason|]; simpl;
      unfold assign; simpl; rewrite (alter_at r _ (heap s) p Hr); reflexivity.
  - unfold ret. rewrite List.app_nil_r, (setCdpClient_none p Hc).
    rewrite insert_id by exact Hr. rewrite state_eta. reflexivity.
Qed.

Lemma stopElectronApp_unknown (w : World) (id : string) (s : State) :
  electronProcesses s !! id = None -> stopElectronApp w id s = (Ok false, s).
Proof.
  intros Hnone. unfold stopElectronApp, bind, mapGet. rewrite Hnone. reflexivity.
Qed.

Lemma stopElectronApp_known (w : World) (id : string) (s : State) (r : loc)
    (p : ElectronProcess.t) :
  electronProcesses s !! id = Some r ->
  heap s !! r = Some p ->
  stopElectronApp w id s =
    (Ok true,
     mkState (<[r := ElectronProcess.setStatus stopped
                       (ElectronProcess.setCdpClient None p)]> (heap s))
             (delete id (electronProcesses s)) (clock s)
             (trace s ++ closeCalls p ++ [Kill (ElectronProcess.process p)])).
Proof.
  intros Hid Hr. unfold stopElectronApp, bind, mapGet. rewrite Hid.
  rewrite (closeSession_run w r s p Hr).
  unfold deref. simpl. rewrite lookup_insert_eq. simpl.
  rewrite alter_at with (p := ElectronProcess.setCdpClient None p)
    by apply lookup_insert_eq.
  rewrite insert_insert_eq, <- List.app_assoc. reflexivity.
Qed.

(** C7.  For every identifier, in a state where the process map holds only
    live records: stop does not throw; with no record under the identifier
    it answers false and changes nothing; with a record it answers true
    after closing the session of the record if there is one (whether or
    not the close throws), killing its process and deleting the identifier
    from the map, the record ending up stopped and without session.  In
    both cases the identifier is absent afterwards and a second stop
    answers false. *)
Theorem stop_contract (w : World) (s : State) (id : string) :
  (forall r, electronProcesses s !! id = Some r -> is_Some (heap s !! r)) ->
  exists answer s',
    stopElectronApp w id s = (Ok answer, s') /\
    electronProcesses s' !! id = None /\
    stopElectronApp w id s' = (Ok false, s') /\
    match electronProcesses s !! id with
    | None => answer = false /\ s' = s
    | Some r =>
        answer = true /\
        exists p,
          heap s !! r = Some p /\
          electronProcesses s' = delete id (electronProcesses s) /\
          trace s' =
            (trace s ++ closeCalls p ++ [Kill (ElectronProcess.process p)])%list /\
          heap s' !! r =
            Some (ElectronProcess.setStatus stopped
                    (ElectronProcess.setCdpClient None p))
    end.
Proof.
  intros Hlive.
  destruct (electronProcesses s !! id) as [r|] eqn:Hid.
  - destruct (Hlive r eq_refl) as [p Hr].
    rewrite (stopElectronApp_known w id s r p Hid Hr).
    eexists. eexists. split; [reflexivity|]. simpl.
    split; [apply lookup_delete_eq|].
    split; [apply stopElectronApp_unknown; simpl; apply lookup_delete_eq|].
    split; [reflexivity|]. exists p.
    split; [exact Hr|]. split; [reflexivity|]. split; [reflexivity|].
    apply lookup_insert_eq.
  - rewrite (stopElectronApp_unknown w id s Hid).
    exists false, s. split; [reflexivity|]. split; [exact Hid|].
    split; [apply stopElectronApp_unknown; exact Hid|]. split; reflexivity.
Qed.

(** ** Resource routing *)

Lemma nonEmpty_true (x : string) : Js.nonEmpty x = true <-> x <> "".
Proof. destruct x; simpl; split; congruence. Qed.

Lemma nonEmpty_false (x : string) : Js.nonEmpty x = false <-> x = "".
Proof. destruct x; simpl; split; congruence. Qed.

Lemma parse_cdp_prefix (path : string) :
  parseElectronResourceUri (ELECTRON_RESOURCES.CDP ++ path) = parseCdpPath path.
Proof.
  unfold parseElectronResourceUri, Js.startsWith.
  cbv [String.append ELECTRON_RESOURCES.CDP]. simpl.
  destruct path; reflexivity.
Qed.

Lemma parseCdpPath_invalid (path : string) :
  parseCdpPath path = RouteInvalidCdp <-> ~ hasBothIdentifiers path.
Proof.
  unfold parseCdpPath, hasBothIdentifiers.
  destruct (Js.split "/" path) as [| processId [| targetId rest]].
  - split; [|reflexivity]. intros _ (a & b & c & Heq & _). discriminate.
  - split; [|reflexivity]. intros _ (a & b & c & Heq & _). discriminate.
  - destruct (Js.nonEmpty processId) eqn:Hp; simpl.
    + destruct (Js.nonEmpty targetId) eqn:Ht; simpl.
      * split.
        -- destruct (givenString _); discriminate.
        -- intros Hno. exfalso. apply Hno. exists processId, targetId, rest.
           split; [reflexivity|]. split; apply nonEmpty_true; assumption.
      * split; [|reflexivity]. intros _ (a & b & c & [= <- <- <-] & _ & Hb).
        apply nonEmpty_false in Ht. contradiction.
    + split; [|reflexivity]. intros _ (a & b & c & [= <- <- <-] & Ha & _).
      apply nonEmpty_false in Hp. contradiction.
Qed.

Lemma parseCdpPath_command (path processId targetId commandPath : string) :
  parseCdpPath path = RouteCdp processId targetId (Some commandPath) ->
  commandPath <> "".
Proof.
  unfold parseCdpPath.
  destruct (Js.split "/" path) as [| a [| b rest]]; try discriminate.
  destruct (Js.nonEmpty a && Js.nonEmpty b); [|discriminate].
  destruct (0 <? List.length rest)%nat; simpl.
  - unfold givenString. simpl. destruct (Js.join "/" rest) eqn:Hj; simpl.
    + discriminate.
    + intros [= _ _ <-]. discriminate.
  - discriminate.
Qed.

Lemma parse_command_nonempty (uri processId targetId commandPath : string) :
  parseElectronResourceUri uri = RouteCdp processId targetId (Some commandPath) ->
  commandPath <> "".
Proof.
  unfold parseElectronResourceUri.
  destruct (String.eqb uri ELECTRON_RESOURCES.INFO); [discriminate|].
  destruct (String.eqb uri ELECTRON_RESOURCES.TARGETS); [discriminate|].
  destruct (Js.startsWith uri ELECTRON_RESOURCES.CDP).
  - apply parseCdpPath_command.
  - unfold parseProcessOrLogs.
    repeat match goal with |- context [match ?x with _ => _ end] => destruct x end;
      discriminate.
Qed.

Lemma requireRunning_state (s : State) (processId : string) :
  exists outcome, requireRunningElectronProcess processId s = (outcome, s).
Proof.
  unfold requireRunningElectronProcess, bind, mapGet.
  destruct (electronProcesses s !! processId) as [r|]; [|eexists; reflexivity].
  unfold deref. destruct (heap s !! r) as [p|]; [|eexists; reflexivity].
  destruct (Status_eqb (ElectronProcess.status p) running); eexists; reflexivity.
Qed.

Lemma requireRunning_found (s : State) (processId : string) (r : loc)
    (p : ElectronProcess.t) :
  electronProcesses s !! processId = Some r ->
  heap s !! r = Some p ->
  ElectronProcess.status p = running ->
  requireRunningElectronProcess processId s = (Ok r, s).
Proof.
  intros Hid Hr Hrun. unfold requireRunningElectronProcess, bind, mapGet.
  rewrite Hid. unfold deref. rewrite Hr, Hrun. reflexivity.
Qed.

Lemma requireRunning_missing (s : State) (processId : string) :
  (electronProcesses s !! processId = None \/
   exists r p, electronProcesses s !! processId = Some r /\ heap s !! r = Some p /\
               ElectronProcess.status p <> running) ->
  requireRunningElectronProcess processId s = (Throw (ProcessNotRunning processId), s).
Proof.
  unfold requireRunningElectronProcess, bind, mapGet.
  intros [Hnone | (r & p & Hid & Hr & Hstatus)].
  - rewrite Hnone. reflexivity.
  - rewrite Hid. rewrite (deref_run r s p Hr).
    destruct (ElectronProcess.status p); [contradiction | reflexivity | reflexivity].
Qed.

Lemma readCdp_invalid_command (w : World) (s : State)
    (uri processId targetId commandPath : string) :
  commandPath <> "" ->
  ~ isDomainAndMethod commandPath ->
  (exists e, readCdp w uri processId targetId (Some commandPath) s = (Throw e, s)) /\
  (forall r p,
     electronProcesses s !! processId = Some r ->
     heap s !! r = Some p ->
     ElectronProcess.status p = running ->
     readCdp w uri processId targetId (Some commandPath) s
       = (Throw (InvalidCdpCommand commandPath), s)) /\
  ((electronProcesses s !! processId = None \/
    exists r p, electronProcesses s !! processId = Some r /\ heap s !! r = Some p /\
                ElectronProcess.status p <> running) ->
   readCdp w uri processId targetId (Some commandPath) s
     = (Throw (ProcessNotRunning processId), s)).
Proof.
  intros Hne Hbad.
  assert (Hgiven : givenString (Some commandPath) = Some commandPath).
  { destruct commandPath; [contradiction | reflexivity]. }
  assert (Hcheck : forall r,
    (match Js.split "/" commandPath with
     | [domain; method] =>
         if Js.nonEmpty domain && Js.nonEmpty method then
           tryCatch
             (let* result := executeCDPCommand w r targetId domain method [] in
              ret (jsonResourceResponse uri (ReplyPayload result)))
             (fun error => throw (CdpCommandFailed error))
         else throw (InvalidCdpCommand commandPath)
     | _ => throw (InvalidCdpCommand commandPath)
     end) s = (Throw (InvalidCdpCommand commandPath), s)).
  { intros r.
    destruct (Js.split "/" commandPath) as [| domain [| method [| extra rest]]] eqn:Hsplit;
      try reflexivity.
    destruct (Js.nonEmpty domain) eqn:Hd; [|reflexivity].
    destruct (Js.nonEmpty method) eqn:Hm; [|reflexivity].
    exfalso. apply Hbad. exists domain, method.
    split; [exact Hsplit|]. split; apply nonEmpty_true; assumption. }
  unfold readCdp. rewrite Hgiven. split; [|split].
  - unfold bind at 1.
    destruct (requireRunning_state s processId) as [[r | e] ->].
    + eexists. apply Hcheck.
    + eexists. reflexivity.
  - intros r p Hid Hr Hrun. unfold bind at 1.
    rewrite (requireRunning_found s processId r p Hid Hr Hrun). apply Hcheck.
  - intros Hmissing. unfold bind at 1.
    rewrite (requireRunning_missing s processId Hmissing). reflexivity.
Qed.

(** C8, as the code has it.  A URI made of the cdp prefix "electron://cdp/"
    and a path parses to the invalid-cdp route exactly when the path lacks
    an identifier segment (fewer than two segments, or an empty first or
    second one), as the URI of the process "p1" alone does; the URI
    "electron://cdp", without the slash, parses to the unknown route; the
    URI of the command Page/reload on target "t1" of "p1" parses to the
    cdp route with command path "Page/reload".  Reading a URI whose route
    is a cdp route with a command path that is not exactly two non-empty
    segments throws and does nothing else: the lookup of the process comes
    first, so the error is the command-format error when the process named
    is a registered running record, and the not-found-or-not-running error
    when it is not registered or not running. *)
Theorem cdp_routing :
  (forall path,
     parseElectronResourceUri (ELECTRON_RESOURCES.CDP ++ path) = RouteInvalidCdp
     <-> ~ hasBothIdentifiers path) /\
  parseElectronResourceUri "electron://cdp" = RouteUnknown /\
  parseElectronResourceUri "electron://cdp/p1" = RouteInvalidCdp /\
  parseElectronResourceUri "electron://cdp/p1/t1/Page/reload"
    = RouteCdp "p1" "t1" (Some "Page/reload") /\
  (forall (w : World) (s : State) (uri processId targetId commandPath : string),
     parseElectronResourceUri uri = RouteCdp processId targetId (Some commandPath) ->
     ~ isDomainAndMethod commandPath ->
     (exists e, readResource w uri s = (Throw e, s)) /\
     (forall r p,
        electronProcesses s !! processId = Some r ->
        heap s !! r = Some p ->
        ElectronProcess.status p = running ->
        readResource w uri s = (Throw (InvalidCdpCommand commandPath), s)) /\
     ((electronProcesses s !! processId = None \/
       exists r p, electronProcesses s !! processId = Some r /\ heap s !! r = Some p /\
                   ElectronProcess.status p <> running) ->
      readResource w uri s = (Throw (ProcessNotRunning processId), s))).
Proof.
  split; [intros path; rewrite parse_cdp_prefix; apply parseCdpPath_invalid|].
  split; [reflexivity|]. split; [reflexivity|]. split; [reflexivity|].
  intros w s uri processId targetId commandPath Hparse Hbad.
  pose proof (parse_command_nonempty uri processId targetId commandPath Hparse) as Hne.
  unfold readResource. rewrite Hparse.
  apply readCdp_invalid_command; assumption.
Qed.

(** C8 fails twice.  The URI "electron://cdp" is a cdp URI that lacks both
    identifier segments, and it parses to the unknown route, not to the
    invalid-cdp route.  The command path "Page" has one segment, and the
    read of "electron://cdp/nope/t1/Page", where no process "nope" is
    registered, is rejected with the not-found-or-not-running error, not
    with the command-format error. *)
Lemma cdp_routing_two_failures :
  let uri := "electron://cdp/nope/t1/Page" in
  let s := Scenario.fresh 1000 in
  parseElectronResourceUri "electron://cdp" = RouteUnknown /\
  parseElectronResourceUri "electron://cdp" <> RouteInvalidCdp /\
  parseElectronResourceUri uri = RouteCdp "nope" "t1" (Some "Page") /\
  Js.split "/" "Page" = ["Page"] /\
  readResource Scenario.online uri s = (Throw (ProcessNotRunning "nope"), s) /\
  readResource Scenario.online uri s <> (Throw (InvalidCdpCommand "Page"), s) /\
  message (ProcessNotRunning "nope") = "Process nope not found or not running".
Proof. vm_compute. repeat split; try reflexivity; discriminate. Qed.

(** ** Starting a process *)

Lemma numberToString_inj (a b : Z) :
  Js.numberToString a = Js.numberToString b -> a = b.
Proof.
  unfold Js.numberToString. intros Heq.
  assert (Hnil : forall z, Z.to_int z <> Pos Nil /\ Z.to_int z <> Neg Nil).
  { intros [| q | q]; simpl; split; try discriminate;
      intros [= Hq]; exact (Unsigned.to_uint_nonnil q Hq). }
  destruct (Hnil a) as [Ha1 Ha2]. destruct (Hnil b) as [Hb1 Hb2].
  pose proof (NilZero.isi (Z.to_int a) Ha1 Ha2) as Ia.
  pose proof (NilZero.isi (Z.to_int b) Hb1 Hb2) as Ib.
  rewrite Heq, Ib in Ia. injection Ia as Ia. symmetry. apply to_int_inj. exact Ia.
Qed.

(** Starts that read different times get different identifiers. *)
Lemma processId_inj (t1 t2 : Z) : processId t1 = processId t2 -> t1 = t2.
Proof.
  unfold processId. cbv [String.append]. intros [= Heq].
  apply numberToString_inj. exact Heq.
Qed.

(** C3, at the failing input.  Two starts that read the same clock value
    both succeed, on two different records, and give both records the same
    identifier; the second registration replaces the first in the process
    map, which ends with one entry: the first record, although running, is
    reachable under no identifier.  (Starts reading different clock values
    get different identifiers: [processId_inj].) *)
Theorem start_same_millisecond_collision :
  fst Scenario.firstStart = Ok 0%nat /\
  fst Scenario.secondStart = Ok 1%nat /\
  clock (snd Scenario.firstStart) = 1700000000000 /\
  (let s := snd Scenario.secondStart in
   (ElectronProcess.id <$> heap s !! 0%nat) = Some "electron-1700000000000" /\
   (ElectronProcess.id <$> heap s !! 1%nat) = Some "electron-1700000000000" /\
   (ElectronProcess.status <$> heap s !! 0%nat) = Some running /\
   (ElectronProcess.appPath <$> heap s !! 0%nat) = Some "/apps/a" /\
   (ElectronProcess.appPath <$> heap s !! 1%nat) = Some "/apps/b" /\
   electronProcesses s !! "electron-1700000000000" = Some 1%nat /\
   size (electronProcesses s) = 1%nat).
Proof. vm_compute. repeat split; reflexivity. Qed.

Lemma givenNumber_nonzero (port : Z) : port <> 0 -> givenNumber (Some port) = Some port.
Proof.
  intros Hne. unfold givenNumber, Js.truthyNumber.
  destruct (Z.eqb_spec port 0) as [-> | _]; [contradiction | reflexivity].
Qed.

(** C4, as the code has it.  For every debugPort argument from 1 to
    65535 that is not available, start throws the port-unavailable error
    for that port after probing that port and no other, and leaves the
    process map and every record as they were.  For a debugPort argument
    below 0 or above 65535 the probe itself is refused: start throws the
    range error of [listen], not the port-unavailable error, again after
    that one probe and with nothing else changed. *)
Theorem start_explicit_port_unavailable (w : World) (s : State)
    (appPath : string) (port : Z) (startupTimeout : option Z) :
  (1 <= port <= 65535 ->
   isPortAvailable w port = false ->
   startElectronApp w appPath (Some port) startupTimeout s =
     (Throw (PortUnavailable port),
      mkState (heap s) (electronProcesses s) (clock s) (trace s ++ [Probe port]))) /\
  (port < 0 \/ 65535 < port ->
   startElectronApp w appPath (Some port) startupTimeout s =
     (Throw (SocketBadPort (listenError w port)),
      mkState (heap s) (electronProcesses s) (clock s) (trace s ++ [Probe port]))).
Proof.
  split.
  - intros Hrange Hbusy. unfold startElectronApp, bind, dateNow, choosePort.
    rewrite (givenNumber_nonzero port) by lia.
    assert (Hvalid : validPort port = true).
    { unfold validPort. apply andb_true_intro. split; [apply Z.leb_le | apply Z.ltb_lt]; lia. }
    unfold bind, probe, bind, emit, ret. simpl. rewrite Hvalid, Hbusy. reflexivity.
  - intros Hout. unfold startElectronApp, bind, dateNow, choosePort.
    rewrite (givenNumber_nonzero port) by lia.
    assert (Hvalid : validPort port = false).
    { unfold validPort. apply andb_false_iff.
      destruct Hout; [left; apply Z.leb_gt | right; apply Z.ltb_ge]; lia. }
    unfold bind, probe, bind, emit, throw. simpl. rewrite Hvalid. reflexivity.
Qed.

(** C4 fails for a port that no listener can take: given the port 70000,
    start fails, but with the range error that [listen] throws inside the
    probe, not with the port-unavailable error.  Nothing is scanned and no
    record is registered. *)
Lemma start_port_out_of_range :
  let outcome :=
    startElectronApp Scenario.taken9222 "/app" (Some 70000) None (Scenario.fresh 1000) in
  fst outcome =
    Throw (SocketBadPort
             "options.port should be >= 0 and < 65536. Received type number (70000).") /\
  fst outcome <> Throw (PortUnavailable 70000) /\
  snd outcome = mkState ∅ ∅ 1000 [Probe 70000].
Proof. vm_compute. repeat split; try reflexivity. discriminate. Qed.

(** ** Derived debug info *)

Lemma updateCDPTargets_preserves (w : World) (r : loc) (s s1 : State)
    (p : ElectronProcess.t) (result : Result (list CDPTarget.t)) :
  heap s !! r = Some p ->
  updateCDPTargets w r s = (result, s1) ->
  exists p1,
    heap s1 !! r = Some p1 /\
    ElectronProcess.cdpClient p1 = ElectronProcess.cdpClient p /\
    ElectronProcess.pid p1 = ElectronProcess.pid p.
Proof.
  intros Hr Hupd.
  destruct (givenNumber (ElectronProcess.debugPort p)) as [port|] eqn:Hport.
  - rewrite (updateCDPTargets_run w r s p port Hr Hport) in Hupd.
    destruct (fetch w (clock s) (discoveryUrl port))
      as [reason | [] statusText [targets | reason]];
      injection Hupd as <- <-; simpl;
      try (exists p; split; [exact Hr | split; reflexivity]).
    eexists. split; [apply lookup_insert_eq|]. split; reflexivity.
  - rewrite (updateCDPTargets_no_port w r s p Hr Hport) in Hupd.
    injection Hupd as <- <-. exists p. split; [exact Hr | split; reflexivity].
Qed.

Lemma collectReadings_refused (w : World) (p : ElectronProcess.t)
    (client : CDPClient) (reason : string) (s : State) :
  ElectronProcess.cdpClient p = Some client ->
  send w client "Performance.getMetrics" None = inl reason ->
  fst (collectReadings w p s) = Ok noReadings.
Proof.
  intros Hc Hsend. unfold collectReadings. rewrite Hc.
  unfold tryCatch, bind. rewrite sendCommand_run. unfold sendResult.
  rewrite Hsend. reflexivity.
Qed.

(** For every running record with a session: when the metrics command is
    refused, the debug info comes back with 0 in every CPU and memory
    member. *)
Lemma debug_info_zero_when_refused (w : World) (s : State) (id : string) (r : loc)
    (p : ElectronProcess.t) (client : CDPClient) (reason : string) :
  electronProcesses s !! id = Some r ->
  heap s !! r = Some p ->
  ElectronProcess.status p = running ->
  ElectronProcess.cdpClient p = Some client ->
  send w client "Performance.getMetrics" None = inl reason ->
  exists info,
    fst (getElectronDebugInfo w id s) = Ok (Some info) /\
    cpuUsage (main info) = 0%float /\
    memoryUsage (main info) = 0%float /\
    List.map cpuUsage (renderers info) = [0%float] /\
    List.map memoryUsage (renderers info) = [0%float].
Proof.
  intros Hid Hr Hrun Hc Hsend.
  unfold getElectronDebugInfo. unfold bind at 1. unfold mapGet. rewrite Hid.
  unfold bind at 1. rewrite (deref_run r s p Hr), Hrun.
  change (negb (Status_eqb running running)) with false. cbv beta iota.
  unfold bind at 1. unfold tryCatch. unfold bind at 1.
  destruct (updateCDPTargets w r s) as [result s1] eqn:Hupd.
  destruct (updateCDPTargets_preserves w r s s1 p result Hr Hupd)
    as (p1 & Hr1 & Hc1 & _).
  rewrite Hc in Hc1.
  assert (Hrest : forall s2, heap s2 = heap s1 ->
    exists info,
      fst ((let* p' := deref r in
            let* readings := collectReadings w p' in
            let pid := orZero (ElectronProcess.pid p') in
            ret (Some (mkDebugInfo (webContentsOf p')
                         (mkProcessInfo pid
                            (numberOrZero (mainCpuUsage readings))
                            (numberOrZero (mainMemoryUsage readings))
                            "running")
                         [mkProcessInfo (pid + 1)
                            (numberOrZero (rendererCpuUsage readings))
                            (numberOrZero (rendererMemoryUsage readings))
                            "running"]))) s2) = Ok (Some info) /\
      cpuUsage (main info) = 0%float /\
      memoryUsage (main info) = 0%float /\
      List.map cpuUsage (renderers info) = [0%float] /\
      List.map memoryUsage (renderers info) = [0%float]).
  { intros s2 Hheap. unfold bind at 1. unfold deref. rewrite Hheap, Hr1.
    unfold bind at 1.
    pose proof (collectReadings_refused w p1 client reason s2 Hc1 Hsend) as Hread.
    destruct (collectReadings w p1 s2) as [readings s3]. simpl in Hread. subst readings.
    eexists. split; [reflexivity|]. repeat split; reflexivity. }
  destruct result as [targets | e]; exact (Hrest s1 eq_refl).
Qed.

(** C2, at the failing inputs.  For a running record with a session whose
    metrics command is refused, every CPU and memory member of the debug
    info returned is the number 0; when the reply has a memory entry and
    no CPU entry, the CPU members are the number 0 next to the measured
    memory.  A reading that is unavailable is returned as the same number
    as a measured 0. *)
Theorem debug_info_unavailable_is_zero :
  (exists info,
     fst (getElectronDebugInfo Scenario.online "electron-1000"
            (Scenario.holding Scenario.record1Connected 3000)) = Ok (Some info) /\
     cpuUsage (main info) = 0%float /\
     memoryUsage (main info) = 0%float /\
     List.map cpuUsage (renderers info) = [0%float] /\
     List.map memoryUsage (renderers info) = [0%float]) /\
  (exists info,
     fst (getElectronDebugInfo Scenario.onlinePartialMetrics "electron-1000"
            (Scenario.holding Scenario.record1Connected 3000)) = Ok (Some info) /\
     cpuUsage (main info) = 0%float /\
     memoryUsage (main info) = 52428800%float /\
     List.map cpuUsage (renderers info) = [0%float]) /\
  numberOrZero Unavailable = numberOrZero (Measured 0%float).
Proof.
  split; [|split].
  - eexists. split; [vm_compute; reflexivity|]. repeat split; reflexivity.
  - eexists. split; [vm_compute; reflexivity|]. repeat split; reflexivity.
  - reflexivity.
Qed.

(** C1 fails where the refresh fails: the target asked for is in the stale
    cache, yet connect throws the error of the refresh. *)
Lemma connect_stale_cache_refresh_failure :
  let s := Scenario.holding Scenario.record1 10000 in
  heap s !! 0%nat = Some Scenario.record1 /\
  ElectronProcess.lastTargetUpdate Scenario.record1 = Some 2000 /\
  clock s - 2000 > 5000 /\
  findTarget Scenario.record1 "t1" = Some Scenario.target1 /\
  fst (updateCDPTargets Scenario.offline 0%nat s) = Throw (DiscoveryRejected "fetch failed") /\
  fst (connectToCDPTarget Scenario.offline 0%nat "t1" s)
    = Throw (DiscoveryRejected "fetch failed") /\
  fst (connectToCDPTarget Scenario.offline 0%nat "t1" s) <> Ok (Client 7) /\
  fst (connectToCDPTarget Scenario.offline 0%nat "t1" s) <> Throw (TargetNotFound "t1").
Proof. vm_compute. repeat split; try reflexivity; discriminate. Qed.

(** ** The theorems at concrete inputs *)

(** C6 on a buffer at the cap: two more chunks. *)
Lemma log_buffer_capped_witness :
  let s := Scenario.holding Scenario.recordFull 3000 in
  heap s !! 0%nat = Some Scenario.recordFull /\
  exists s' p',
    addLogs 0%nat (["booting"] ++ ["ready"])%list s = (Ok tt, s') /\
    heap s' !! 0%nat = Some p' /\
    (List.length (ElectronProcess.logs p') <= 1000)%nat /\
    (let appended :=
       (ElectronProcess.logs Scenario.recordFull ++ ["booting"] ++ ["ready"])%list in
     ElectronProcess.logs p' = List.skipn (List.length appended - 1000) appended) /\
    (exists front, ElectronProcess.logs p' = (front ++ ["ready"])%list).
Proof.
  intros s. split; [reflexivity|].
  apply (log_buffer_capped s 0%nat Scenario.recordFull ["booting"] "ready").
  reflexivity.
Defined.

(** C5 on a record with a cache, the debugging port not answering. *)
Lemma refresh_atomic_witness :
  let s := Scenario.holding Scenario.record1 10000 in
  heap s !! 0%nat = Some Scenario.record1 /\
  givenNumber (ElectronProcess.debugPort Scenario.record1) = Some 9222 /\
  exists result s',
    updateCDPTargets Scenario.offline 0%nat s = (result, s') /\
    electronProcesses s' = electronProcesses s /\
    (forall e, result = Throw e -> heap s' = heap s) /\
    result = Throw (DiscoveryRejected "fetch failed") /\
    heap s' !! 0%nat = Some Scenario.record1.
Proof.
  intros s. split; [reflexivity|]. split; [reflexivity|].
  apply (refresh_atomic Scenario.offline s 0%nat Scenario.record1 9222); reflexivity.
Defined.

(** C1, as the code has it, on a cache 8000 ms old, the debugging port not
    answering. *)
Lemma connect_propagates_refresh_failure_witness :
  let s := Scenario.holding Scenario.record1 10000 in
  let s' := mkState (heap s) (electronProcesses s) 10000
                    [Fetch "http://localhost:9222/json/list"] in
  clock s - 2000 > 5000 /\
  updateCDPTargets Scenario.offline 0%nat s = (Throw (DiscoveryRejected "fetch failed"), s') /\
  connectToCDPTarget Scenario.offline 0%nat "t1" s
    = (Throw (DiscoveryRejected "fetch failed"), s') /\
  heap s' !! 0%nat = Some Scenario.record1 /\
  trace s' = (trace s ++ [Fetch (discoveryUrl 9222)])%list.
Proof.
  intros s s'. split; [reflexivity|]. split; [reflexivity|].
  apply (connect_propagates_refresh_failure Scenario.offline s s' 0%nat
           Scenario.record1 9222 [Scenario.target1] 2000 "t1"
           (DiscoveryRejected "fetch failed")); reflexivity.
Defined.

(** C9 on the evaluation of 1+1 over an open session. *)
Lemma execute_forwards_command_witness :
  let s := Scenario.holding Scenario.record1Connected 3000 in
  let params := [("expression", PString "1+1"); ("returnByValue", PBool true)] in
  let outcome :=
    executeCDPCommand Scenario.online 0%nat "t1" "Runtime" "evaluate" params s in
  heap s !! 0%nat = Some Scenario.record1Connected /\
  trace (snd outcome) = [Send (Client 7) "Runtime.evaluate" (Some params)] /\
  heap (snd outcome) = heap s /\
  (forall reply,
     send Scenario.online (Client 7) "Runtime.evaluate" (Some params) = inr reply ->
     fst outcome = Ok reply) /\
  (forall reason,
     send Scenario.online (Client 7) "Runtime.evaluate" (Some params) = inl reason ->
     fst outcome = Throw (SessionError reason)).
Proof.
  intros s params outcome. split; [reflexivity|].
  apply (execute_forwards_command Scenario.online s 0%nat Scenario.record1Connected
           "t1" "Runtime" "evaluate" params).
  reflexivity.
Defined.

(** C10 on a target id that the cache of the record does not hold. *)
Lemma execute_with_session_ignores_target_witness :
  let s := Scenario.holding Scenario.record1Connected 3000 in
  let outcome :=
    executeCDPCommand Scenario.online 0%nat "no-such-target" "Page" "reload" [] s in
  heap s !! 0%nat = Some Scenario.record1Connected /\
  ElectronProcess.cdpClient Scenario.record1Connected = Some (Client 7) /\
  findTarget Scenario.record1Connected "no-such-target" = None /\
  fst outcome = sendResult Scenario.online (Client 7) "Page.reload" (Some []) /\
  snd outcome = mkState (heap s) (electronProcesses s) (clock s)
                        (trace s ++ [Send (Client 7) "Page.reload" (Some [])]) /\
  (forall missing, fst outcome <> Throw (TargetNotFound missing)) /\
  (forall otherTarget,
     executeCDPCommand Scenario.online 0%nat otherTarget "Page" "reload" [] s = outcome) /\
  (forall s2 p2,
     heap s2 !! 0%nat = Some p2 ->
     ElectronProcess.cdpClient p2 = Some (Client 7) ->
     fst (executeCDPCommand Scenario.online 0%nat "no-such-target" "Page" "reload" [] s2)
       = fst outcome).
Proof.
  intros s outcome. split; [reflexivity|]. split; [reflexivity|]. split; [reflexivity|].
  apply (execute_with_session_ignores_target Scenario.online s 0%nat
           Scenario.record1Connected (Client 7) "no-such-target" "Page" "reload" []);
    reflexivity.
Defined.

(** C7 on a running record with an open session. *)
Lemma stop_contract_witness :
  let s := Scenario.holding Scenario.record1Connected 3000 in
  (forall r, electronProcesses s !! "electron-1000" = Some r -> is_Some (heap s !! r)) /\
  exists answer s',
    stopElectronApp Scenario.online "electron-1000" s = (Ok answer, s') /\
    electronProcesses s' !! "electron-1000" = None /\
    stopElectronApp Scenario.online "electron-1000" s' = (Ok false, s') /\
    answer = true /\
    exists p,
      heap s !! 0%nat = Some p /\
      electronProcesses s' = delete "electron-1000" (electronProcesses s) /\
      trace s' = (trace s ++ closeCalls p ++ [Kill (ElectronProcess.process p)])%list /\
      heap s' !! 0%nat =
        Some (ElectronProcess.setStatus stopped (ElectronProcess.setCdpClient None p)).
Proof.
  intros s.
  assert (Hlive : forall r, electronProcesses s !! "electron-1000" = Some r ->
                            is_Some (heap s !! r)).
  { intros r Hr. vm_compute in Hr. injection Hr as <-. eexists. reflexivity. }
  split; [exact Hlive|].
  exact (stop_contract Scenario.online s "electron-1000" Hlive).
Defined.

(** C8 on a command path of one segment, for a running record. *)
Lemma cdp_routing_witness :
  let uri := "electron://cdp/electron-1000/t1/Page" in
  let s := Scenario.holding Scenario.record1 3000 in
  parseElectronResourceUri uri = RouteCdp "electron-1000" "t1" (Some "Page") /\
  ~ isDomainAndMethod "Page" /\
  readResource Scenario.online uri s = (Throw (InvalidCdpCommand "Page"), s).
Proof.
  intros uri s.
  assert (Hparse : parseElectronResourceUri uri
                   = RouteCdp "electron-1000" "t1" (Some "Page")) by reflexivity.
  assert (Hbad : ~ isDomainAndMethod "Page").
  { intros (domain & method & Hsplit & _). vm_compute in Hsplit. discriminate Hsplit. }
  split; [exact Hparse|]. split; [exact Hbad|].
  destruct cdp_routing as (_ & _ & _ & _ & Hdispatch).
  destruct (Hdispatch Scenario.online s uri "electron-1000" "t1" "Page" Hparse Hbad)
    as (_ & Hrunning & _).
  apply (Hrunning 0%nat Scenario.record1); reflexivity.
Defined.

(** C4, as the code has it, on port 9222 given and taken. *)
Lemma start_explicit_port_unavailable_witness :
  1 <= 9222 <= 65535 /\
  isPortAvailable Scenario.taken9222 9222 = false /\
  startElectronApp Scenario.taken9222 "/app" (Some 9222) None (Scenario.fresh 1000) =
    (Throw (PortUnavailable 9222), mkState ∅ ∅ 1000 [Probe 9222]).
Proof.
  split; [lia|]. split; [reflexivity|].
  apply (proj1 (start_explicit_port_unavailable Scenario.taken9222 (Scenario.fresh 1000)
                  "/app" 9222 None)); [lia | reflexivity].
Defined.

(** * Further properties *)

(** ** Choosing the debugging port *)

Lemma withCalls_nil (s : State) : withCalls s [] = s.
Proof. unfold withCalls. rewrite List.app_nil_r. apply state_eta. Qed.

Lemma withCalls_app (s : State) (a b : list Event) :
  withCalls (withCalls s a) b = withCalls s (a ++ b).
Proof. unfold withCalls. simpl. rewrite <- List.app_assoc. reflexivity. Qed.

Lemma validPort_range (port : Z) : validPort port = true <-> 0 <= port <= 65535.
Proof.
  unfold validPort. rewrite andb_true_iff, Z.leb_le, Z.ltb_lt. lia.
Qed.

Lemma probe_run (w : World) (port : Z) (s : State) :
  0 <= port <= 65535 ->
  probe w port s = (Ok (isPortAvailable w port), withCalls s [Probe port]).
Proof.
  intros Hrange. apply validPort_range in Hrange.
  unfold probe, bind, emit. simpl. rewrite Hrange. reflexivity.
Qed.

(** A scan stops at the first free port of its list. *)
Lemma scanPorts_found (w : World) (before : list Z) (port : Z) (after : list Z) :
  forall s,
    List.Forall (fun q => 0 <= q <= 65535 /\ isPortAvailable w q = false) before ->
    0 <= port <= 65535 ->
    isPortAvailable w port = true ->
    scanPorts w (before ++ port :: after) s =
      (Ok (Some port), withCalls s (List.map Probe (before ++ [port]))).
Proof.
  induction before as [| q before IH]; intros s Hbusy Hrange Hfree.
  - simpl. unfold bind. rewrite probe_run by exact Hrange. rewrite Hfree. reflexivity.
  - apply List.Forall_cons_iff in Hbusy as [[Hq Hqbusy] Hrest].
    simpl. unfold bind. rewrite probe_run by exact Hq. rewrite Hqbusy.
    rewrite (IH (withCalls s [Probe q]) Hrest Hrange Hfree), withCalls_app. reflexivity.
Qed.

(** A scan over taken ports probes them all and finds nothing. *)
Lemma scanPorts_none (w : World) (ports : list Z) :
  forall s,
    List.Forall (fun q => 0 <= q <= 65535 /\ isPortAvailable w q = false) ports ->
    scanPorts w ports s = (Ok None, withCalls s (List.map Probe ports)).
Proof.
  induction ports as [| q ports IH]; intros s Hbusy.
  - simpl. rewrite withCalls_nil. reflexivity.
  - apply List.Forall_cons_iff in Hbusy as [[Hq Hqbusy] Hrest].
    simpl. unfold bind. rewrite probe_run by exact Hq. rewrite Hqbusy.
    rewrite (IH (withCalls s [Probe q]) Hrest), withCalls_app. reflexivity.
Qed.

Lemma portRange_In (q : Z) : List.In q portRange <-> 9222 <= q <= 9999.
Proof.
  unfold portRange. rewrite List.in_map_iff. split.
  - intros (i & <- & Hi). apply List.in_seq in Hi. lia.
  - intros Hq. exists (Z.to_nat (q - 9222)). split; [lia|].
    apply List.in_seq. lia.
Qed.

Lemma portsBelow_In (port q : Z) : List.In q (portsBelow port) -> 9222 <= q < port.
Proof.
  unfold portsBelow. rewrite List.in_map_iff.
  intros (i & <- & Hi). apply List.in_seq in Hi. lia.
Qed.

(** The range, cut at one of its ports. *)
Lemma portRange_split (port : Z) :
  9222 <= port <= 9999 ->
  exists after, portRange = (portsBelow port ++ port :: after)%list.
Proof.
  intros Hport. unfold portRange, portsBelow.
  set (k := Z.to_nat (port - 9222)).
  replace 778%nat with (k + S (777 - k))%nat by lia.
  rewrite List.seq_app, List.map_app. simpl.
  eexists. f_equal. f_equal. lia.
Qed.

Lemma choosePort_scans (w : World) (debugPort : option Z) (port : Z) (s : State) :
  givenNumber debugPort = None ->
  9222 <= port <= 9999 ->
  isPortAvailable w port = true ->
  (forall q, 9222 <= q < port -> isPortAvailable w q = false) ->
  choosePort w debugPort s =
    (Ok port, withCalls s (List.map Probe (portsBelow port ++ [port]))).
Proof.
  intros Hnone Hrange Hfree Hbusy. unfold choosePort. rewrite Hnone.
  destruct (portRange_split port Hrange) as [after ->].
  unfold bind. rewrite scanPorts_found; [reflexivity | | lia | exact Hfree].
  apply List.Forall_forall. intros q Hq. apply portsBelow_In in Hq.
  split; [lia | apply Hbusy; exact Hq].
Qed.

Lemma choosePort_given (w : World) (debugPort : option Z) (port : Z) (s : State) :
  givenNumber debugPort = Some port ->
  0 <= port <= 65535 ->
  isPortAvailable w port = true ->
  choosePort w debugPort s = (Ok port, withCalls s [Probe port]).
Proof.
  intros Hgiven Hrange Hfree. unfold choosePort. rewrite Hgiven.
  unfold bind. rewrite probe_run by exact Hrange. rewrite Hfree. reflexivity.
Qed.

Lemma givenNumber_truthy (n : option Z) (port : Z) :
  givenNumber n = Some port -> n = Some port /\ port <> 0.
Proof.
  destruct n as [z|]; [|discriminate]. unfold givenNumber, Js.truthyNumber.
  destruct (Z.eqb_spec z 0) as [-> | Hne]; [discriminate|].
  intros [= <-]. split; [reflexivity | exact Hne].
Qed.

(** X1.  When no debugging port is given (none, or the number 0) and no
    port from 9222 to 9999 is available, start throws the no-port error
    after probing each of the 778 ports once, in increasing order; nothing
    is spawned and no record is created or registered. *)
Theorem start_no_port_available (w : World) (s : State) (appPath : string)
    (debugPort startupTimeout : option Z) :
  givenNumber debugPort = None ->
  (forall q, 9222 <= q <= 9999 -> isPortAvailable w q = false) ->
  startElectronApp w appPath debugPort startupTimeout s =
    (Throw NoPortAvailable, withCalls s (List.map Probe portRange)) /\
  List.length portRange = 778%nat /\
  (forall i, (i < 778)%nat -> List.nth_error portRange i = Some (9222 + Z.of_nat i)).
Proof.
  intros Hnone Hbusy. split; [|split; [reflexivity|]].
  - unfold startElectronApp, bind, dateNow, choosePort. rewrite Hnone.
    unfold bind. rewrite scanPorts_none.
    + reflexivity.
    + apply List.Forall_forall. intros q Hq. apply portRange_In in Hq.
      split; [lia | apply Hbusy; exact Hq].
  - intros i Hi. unfold portRange. rewrite List.nth_error_map.
    rewrite List.nth_error_nth' with (d := 0%nat) by (rewrite List.length_seq; lia).
    rewrite List.seq_nth by lia. reflexivity.
Qed.

(** ** The handlers of the child *)

Lemma onExit_run (w : World) (id : string) (r : loc) (code : option Z) (s : State)
    (p : ElectronProcess.t) :
  heap s !! r = Some p ->
  onExit w id r code s =
    (Ok tt,
     mkState (<[r := ElectronProcess.setCdpClient None
                       (ElectronProcess.setStatus (exitStatus code) p)]> (heap s))
             (delete id (electronProcesses s)) (clock s)
             (trace s ++ closeCalls p)).
Proof.
  intros Hr. unfold onExit. fold (exitStatus code). unfold bind at 1.
  rewrite (assign_run r _ s p Hr). unfold bind at 1.
  rewrite (closeSession_run w r _ (ElectronProcess.setStatus (exitStatus code) p))
    by (simpl; apply lookup_insert_eq).
  unfold mapDelete. simpl. rewrite insert_insert_eq. reflexivity.
Qed.

Lemma sameMembers_refl (p : ElectronProcess.t) : sameMembers p p.
Proof. unfold sameMembers. repeat split. Qed.

Lemma sameMembers_trans (p q t : ElectronProcess.t) :
  sameMembers p q -> sameMembers q t -> sameMembers p t.
Proof. unfold sameMembers. intuition congruence. Qed.

Lemma afterEvents_members (events : list ChildEvent) :
  forall p,
    sameMembers p (afterEvents p events) /\
    ElectronProcess.targets (afterEvents p events) = ElectronProcess.targets p.
Proof.
  unfold afterEvents.
  induction events as [| e events IH]; intros p; simpl.
  - split; [apply sameMembers_refl | reflexivity].
  - destruct (IH (afterEvent p e)) as [Hmembers Htargets].
    split.
    + apply (sameMembers_trans p (afterEvent p e)); [|exact Hmembers].
      destruct e; unfold sameMembers; repeat split.
    + rewrite Htargets. destruct e; reflexivity.
Qed.

Lemma afterEvents_no_session (events : list ChildEvent) :
  forall p,
    ElectronProcess.cdpClient p = None ->
    ElectronProcess.cdpClient (afterEvents p events) = None.
Proof.
  unfold afterEvents.
  induction events as [| e events IH]; intros p Hclient; simpl; [exact Hclient|].
  apply IH. destruct e; [exact Hclient | reflexivity].
Qed.

Lemma afterEvents_alive (events : list ChildEvent) :
  forall p,
    List.existsb isExit events = false ->
    ElectronProcess.status (afterEvents p events) = ElectronProcess.status p.
Proof.
  unfold afterEvents.
  induction events as [| e events IH]; intros p Halive; simpl; [reflexivity|].
  simpl in Halive. apply orb_false_elim in Halive as [He Hrest].
  destruct e; [|discriminate]. rewrite (IH _ Hrest). reflexivity.
Qed.

(** The handlers never throw on a record without session, make no call
    and leave the clock alone; an exit among the events takes the
    identifier out of the process map. *)
Lemma handleEvents_run (w : World) (id : string) (r : loc) (events : list ChildEvent) :
  forall s p,
    heap s !! r = Some p ->
    ElectronProcess.cdpClient p = None ->
    handleEvents w id r events s =
      (Ok tt,
       mkState (<[r := afterEvents p events]> (heap s))
               (if List.existsb isExit events
                then delete id (electronProcesses s)
                else electronProcesses s)
               (clock s) (trace s)).
Proof.
  induction events as [| e events IH]; intros s p Hr Hclient.
  - simpl. unfold ret, afterEvents. simpl.
    rewrite insert_id by exact Hr. rewrite state_eta. reflexivity.
  - simpl handleEvents. unfold bind at 1. destruct e as [chunk | code]; simpl onChildEvent.
    + rewrite (addLog_run r chunk s p Hr).
      rewrite (IH _ (afterEvent p (Output chunk)));
        [| simpl; apply lookup_insert_eq | exact Hclient].
      simpl. rewrite insert_insert_eq. reflexivity.
    + rewrite (onExit_run w id r code s p Hr).
      rewrite (IH _ (afterEvent p (Exited code)));
        [| simpl; apply lookup_insert_eq | reflexivity].
      simpl. rewrite insert_insert_eq. unfold closeCalls. rewrite Hclient, List.app_nil_r.
      destruct (List.existsb isExit events); [rewrite delete_delete_eq|]; reflexivity.
Qed.

Lemma whileWaiting_run (w : World) (id : string) (r : loc) (s : State)
    (p : ElectronProcess.t) :
  heap s !! r = Some p ->
  ElectronProcess.cdpClient p = None ->
  let events := arrivals w (ElectronProcess.process p) (List.length (trace s)) in
  whileWaiting w id r s =
    (Ok tt,
     mkState (<[r := afterEvents p events]> (heap s))
             (if List.existsb isExit events
              then delete id (electronProcesses s)
              else electronProcesses s)
             (clock s) (trace s)).
Proof.
  intros Hr Hclient events. unfold whileWaiting. unfold bind at 1.
  rewrite (deref_run r s p Hr). unfold bind at 1. unfold callsMade.
  apply handleEvents_run; assumption.
Qed.

(** ** What a start finds after it has waited *)

Lemma Waited_calls (w : World) (url id : string) (r : loc) (s : State)
    (p : ElectronProcess.t) (now : Z) (calls : list Event) :
  heap s !! r = Some p ->
  ElectronProcess.cdpClient p = None ->
  clock s <= now ->
  List.Forall (isPollCall url) calls ->
  Waited w url id r s
    (mkState (heap s) (electronProcesses s) now (trace s ++ calls)).
Proof.
  intros Hr Hclient Hnow Hcalls. exists p, p, calls. simpl.
  split; [exact Hr|]. split; [exact Hr|]. split; [apply sameMembers_refl|].
  split; [exact Hclient|]. split; [reflexivity|]. split; [reflexivity|].
  split; [reflexivity|]. split; [exact Hcalls|]. split; [exact Hnow|].
  split; [intros _; split; reflexivity|]. split; intros _; reflexivity.
Qed.

Lemma Waited_refl (w : World) (url id : string) (r : loc) (s : State)
    (p : ElectronProcess.t) :
  heap s !! r = Some p ->
  ElectronProcess.cdpClient p = None ->
  Waited w url id r s s.
Proof.
  intros Hr Hclient.
  pose proof (Waited_calls w url id r s p (clock s) [] Hr Hclient
                ltac:(lia) ltac:(constructor)) as Hsame.
  rewrite List.app_nil_r, state_eta in Hsame. exact Hsame.
Qed.

Lemma Waited_trans (w : World) (url id : string) (r : loc) (s s1 s2 : State) :
  Waited w url id r s s1 -> Waited w url id r s1 s2 -> Waited w url id r s s2.
Proof.
  intros (p & p1 & calls1 & Hp & Hp1 & Hm1 & _ & Hheap1 & Hmap1 & Htrace1 & Hcalls1
          & Hclock1 & Halive1 & Hquiet1 & Hdown1)
         (p1' & p2 & calls2 & Hp1' & Hp2 & Hm2 & Hclient2 & Hheap2 & Hmap2 & Htrace2
          & Hcalls2 & Hclock2 & Halive2 & Hquiet2 & Hdown2).
  rewrite Hp1 in Hp1'. injection Hp1' as <-.
  assert (Hchild : ElectronProcess.process p1 = ElectronProcess.process p)
    by (destruct Hm1 as (_ & Hproc & _); exact Hproc).
  rewrite Hchild in Halive2, Hquiet2.
  exists p, p2, (calls1 ++ calls2)%list.
  split; [exact Hp|]. split; [exact Hp2|].
  split; [exact (sameMembers_trans p p1 p2 Hm1 Hm2)|].
  split; [exact Hclient2|].
  split; [intros r' Hne; rewrite (Hheap2 r' Hne); apply Hheap1; exact Hne|].
  split; [intros id' Hne; rewrite (Hmap2 id' Hne); apply Hmap1; exact Hne|].
  split; [rewrite Htrace2, Htrace1, <- List.app_assoc; reflexivity|].
  split; [apply List.Forall_app; split; assumption|].
  split; [lia|].
  split.
  { intros Halive. destruct (Halive1 Halive) as [Ha1 Hb1].
    destruct (Halive2 Halive) as [Ha2 Hb2]. split; congruence. }
  split.
  { intros Hquiet. rewrite (Hquiet2 Hquiet). apply Hquiet1. exact Hquiet. }
  intros Hdown. rewrite (Hdown2 Hdown). apply Hdown1. exact Hdown.
Qed.

(** The record of a start, after a wait. *)
Lemma Waited_record (w : World) (url id : string) (r : loc) (s s' : State)
    (p : ElectronProcess.t) :
  Waited w url id r s s' ->
  heap s !! r = Some p ->
  exists p',
    heap s' !! r = Some p' /\
    ElectronProcess.cdpClient p' = None /\
    sameMembers p p'.
Proof.
  intros (p0 & p' & calls & Hp0 & Hp' & Hm & Hclient & _) Hr.
  rewrite Hr in Hp0. injection Hp0 as <-.
  exists p'. split; [exact Hp'|]. split; [exact Hclient | exact Hm].
Qed.

Lemma whileWaiting_Waited (w : World) (url id : string) (r : loc) (s : State)
    (p : ElectronProcess.t) :
  heap s !! r = Some p ->
  ElectronProcess.cdpClient p = None ->
  exists s',
    whileWaiting w id r s = (Ok tt, s') /\
    Waited w url id r s s' /\
    trace s' = trace s /\
    clock s' = clock s.
Proof.
  intros Hr Hclient. rewrite (whileWaiting_run w id r s p Hr Hclient). cbv zeta.
  set (events := arrivals w (ElectronProcess.process p) (List.length (trace s))).
  eexists. split; [reflexivity|]. split; [|split; reflexivity].
  destruct (afterEvents_members events p) as [Hmembers Htargets].
  exists p, (afterEvents p events), []. simpl.
  split; [exact Hr|]. split; [apply lookup_insert_eq|]. split; [exact Hmembers|].
  split; [apply afterEvents_no_session; exact Hclient|].
  split; [intros r' Hne; apply lookup_insert_ne; congruence|].
  split.
  { intros id' Hne. destruct (List.existsb isExit events); [|reflexivity].
    apply lookup_delete_ne. congruence. }
  split; [rewrite List.app_nil_r; reflexivity|]. split; [constructor|].
  split; [lia|].
  split.
  { intros Halive. subst events. rewrite (Halive _).
    split; [reflexivity | apply afterEvents_alive; apply Halive]. }
  split.
  { intros Hquiet. subst events. rewrite (Hquiet _). reflexivity. }
  intros _. exact Htargets.
Qed.

Lemma updateCDPTargets_down (w : World) (r : loc) (s : State)
    (p : ElectronProcess.t) (port : Z) :
  heap s !! r = Some p ->
  givenNumber (ElectronProcess.debugPort p) = Some port ->
  discoveryDown w (discoveryUrl port) ->
  exists e, updateCDPTargets w r s = (Throw e, afterFetch s port).
Proof.
  intros Hr Hport Hdown. rewrite (updateCDPTargets_run w r s p port Hr Hport).
  pose proof (Hdown (clock s)) as Hno.
  destruct (fetch w (clock s) (discoveryUrl port))
    as [reason | [] statusText [targets | reason]]; try (eexists; reflexivity).
  exfalso. apply (Hno targets statusText). reflexivity.
Qed.

Lemma updateCDPTargets_cases (w : World) (r : loc) (s : State)
    (p : ElectronProcess.t) (port : Z) :
  heap s !! r = Some p ->
  givenNumber (ElectronProcess.debugPort p) = Some port ->
  (exists targets,
     updateCDPTargets w r s =
       (Ok targets,
        mkState (<[r := ElectronProcess.setTargets targets (clock s) p]> (heap s))
                (electronProcesses s) (clock s)
                (trace s ++ [Fetch (discoveryUrl port)]))) \/
  (exists e, updateCDPTargets w r s = (Throw e, afterFetch s port)).
Proof.
  intros Hr Hport. rewrite (updateCDPTargets_run w r s p port Hr Hport).
  destruct (fetch w (clock s) (discoveryUrl port))
    as [reason | [] statusText [targets | reason]];
    try (right; eexists; reflexivity).
  left. eexists. reflexivity.
Qed.

(** A refresh, as the polling loop sees it. *)
Lemma updateCDPTargets_Waited (w : World) (id : string) (r : loc) (s : State)
    (p : ElectronProcess.t) (port : Z) :
  heap s !! r = Some p ->
  ElectronProcess.cdpClient p = None ->
  givenNumber (ElectronProcess.debugPort p) = Some port ->
  exists result s',
    updateCDPTargets w r s = (result, s') /\
    Waited w (discoveryUrl port) id r s s' /\
    trace s' = (trace s ++ [Fetch (discoveryUrl port)])%list /\
    clock s' = clock s /\
    (discoveryDown w (discoveryUrl port) -> exists e, result = Throw e).
Proof.
  intros Hr Hclient Hport.
  assert (Hfetch : List.Forall (isPollCall (discoveryUrl port)) [Fetch (discoveryUrl port)])
    by (constructor; [left; reflexivity | constructor]).
  rewrite (updateCDPTargets_run w r s p port Hr Hport).
  destruct (fetch w (clock s) (discoveryUrl port))
    as [reason | [] statusText [targets | reason]] eqn:Hanswer;
    eexists; eexists; (split; [reflexivity|]);
    try (split; [apply (Waited_calls w _ id r s p (clock s) _ Hr Hclient); [lia | exact Hfetch]|];
         split; [reflexivity|]; split; [reflexivity|]; intros _; eexists; reflexivity).
  split.
  { exists p, (ElectronProcess.setTargets targets (clock s) p), [Fetch (discoveryUrl port)].
    simpl. split; [exact Hr|]. split; [apply lookup_insert_eq|].
    split; [unfold sameMembers; repeat split|]. split; [exact Hclient|].
    split; [intros r' Hne; apply lookup_insert_ne; congruence|].
    split; [reflexivity|]. split; [reflexivity|]. split; [exact Hfetch|].
    split; [lia|]. split; [intros _; split; reflexivity|].
    split; [intros _; reflexivity|].
    intros Hdown. exfalso. apply (Hdown (clock s) targets statusText). exact Hanswer. }
  split; [reflexivity|]. split; [reflexivity|].
  intros Hdown. exfalso. apply (Hdown (clock s) targets statusText). exact Hanswer.
Qed.

(** ** The polling loop *)

Lemma pollTargets_step (w : World) (id : string) (r : loc)
    (startTime startupTimeout : Z) (fuel : nat) (s : State) :
  pollTargets w (S fuel) id r startTime startupTimeout s =
    if clock s - startTime <? startupTimeout then
      match updateCDPTargets w r s with
      | (Ok _, s1) =>
          match whileWaiting w id r s1 with
          | (Ok _, s2) => (Ok true, s2)
          | (Throw e, s2) => (Throw e, s2)
          end
      | (Throw _, s1) =>
          match whileWaiting w id r s1 with
          | (Ok _, s2) =>
              match whileWaiting w id r
                      (mkState (heap s2) (electronProcesses s2) (clock s2 + 500)
                               (trace s2 ++ [Sleep 500])) with
              | (Ok _, s3) => pollTargets w fuel id r startTime startupTimeout s3
              | (Throw e, s3) => (Throw e, s3)
              end
          | (Throw e, s2) => (Throw e, s2)
          end
      end
    else (Ok false, s).
Proof.
  simpl. unfold bind at 1. unfold dateNow.
  destruct (clock s - startTime <? startupTimeout); [|reflexivity].
  unfold bind at 1. unfold tryCatch, bind at 1.
  destruct (updateCDPTargets w r s) as [[targets | e] s1].
  - unfold ret at 1. unfold bind at 1.
    destruct (whileWaiting w id r s1) as [[[] | e] s2]; reflexivity.
  - unfold ret at 1. unfold bind at 1.
    destruct (whileWaiting w id r s1) as [[[] | e'] s2]; [|reflexivity].
    unfold bind at 1. unfold sleep at 1. unfold bind at 1.
    destruct (whileWaiting w id r _) as [[[] | e'] s3]; reflexivity.
Qed.

(** One pass of the loop whose refresh throws: the handlers run, the loop
    waits 500 ms, the handlers run again. *)
Lemma poll_retry (w : World) (id : string) (r : loc) (s : State)
    (p : ElectronProcess.t) (port : Z) :
  heap s !! r = Some p ->
  ElectronProcess.cdpClient p = None ->
  exists s2 s3,
    whileWaiting w id r s = (Ok tt, s2) /\
    whileWaiting w id r
      (mkState (heap s2) (electronProcesses s2) (clock s2 + 500)
               (trace s2 ++ [Sleep 500])) = (Ok tt, s3) /\
    Waited w (discoveryUrl port) id r s s3 /\
    clock s3 = clock s + 500.
Proof.
  intros Hr Hclient.
  destruct (whileWaiting_Waited w (discoveryUrl port) id r s p Hr Hclient)
    as (s2 & Hrun2 & Hwaited2 & _ & Hclock2).
  destruct (Waited_record w _ id r s s2 p Hwaited2 Hr) as (p2 & Hp2 & Hclient2 & _).
  set (slept := mkState (heap s2) (electronProcesses s2) (clock s2 + 500)
                        (trace s2 ++ [Sleep 500])).
  assert (Hslept : Waited w (discoveryUrl port) id r s2 slept).
  { apply (Waited_calls w _ id r s2 p2); [exact Hp2 | exact Hclient2 | lia|].
    constructor; [right; reflexivity | constructor]. }
  destruct (whileWaiting_Waited w (discoveryUrl port) id r slept p2 Hp2 Hclient2)
    as (s3 & Hrun3 & Hwaited3 & _ & Hclock3).
  exists s2, s3. split; [exact Hrun2|]. split; [exact Hrun3|].
  split.
  { apply (Waited_trans w _ id r s s2 s3 Hwaited2).
    apply (Waited_trans w _ id r s2 slept s3 Hslept Hwaited3). }
  rewrite Hclock3. subst slept. simpl. lia.
Qed.

(** The loop never throws.  With discovery down it answers false, and with
    fuel enough it gives up only once the deadline has passed. *)
Lemma pollTargets_Waited (w : World) (id : string) (r : loc)
    (startTime startupTimeout : Z) (port : Z) :
  forall (fuel : nat) (s : State) (p : ElectronProcess.t),
    heap s !! r = Some p ->
    ElectronProcess.cdpClient p = None ->
    givenNumber (ElectronProcess.debugPort p) = Some port ->
    exists connected s',
      pollTargets w fuel id r startTime startupTimeout s = (Ok connected, s') /\
      Waited w (discoveryUrl port) id r s s' /\
      (discoveryDown w (discoveryUrl port) ->
       connected = false /\
       (startupTimeout - (clock s - startTime) <= 500 * Z.of_nat fuel ->
        startupTimeout <= clock s' - startTime)).
Proof.
  induction fuel as [| fuel IH]; intros s p Hr Hclient Hport.
  - exists false, s. split; [reflexivity|].
    split; [apply (Waited_refl w _ id r s p Hr Hclient)|].
    intros _. split; [reflexivity | lia].
  - rewrite pollTargets_step.
    destruct (Z.ltb_spec (clock s - startTime) startupTimeout) as [Hlt | Hge].
    + destruct (updateCDPTargets_Waited w id r s p port Hr Hclient Hport)
        as (result & s1 & Hupdate & Hwaited1 & _ & Hclock1 & Hdown1).
      rewrite Hupdate.
      destruct (Waited_record w _ id r s s1 p Hwaited1 Hr) as (p1 & Hp1 & Hclient1 & Hm1).
      destruct result as [targets | e].
      * destruct (whileWaiting_Waited w (discoveryUrl port) id r s1 p1 Hp1 Hclient1)
          as (s2 & -> & Hwaited2 & _).
        exists true, s2. split; [reflexivity|].
        split; [apply (Waited_trans w _ id r s s1 s2 Hwaited1 Hwaited2)|].
        intros Hdown. destruct (Hdown1 Hdown) as [e He]. discriminate He.
      * destruct (poll_retry w id r s1 p1 port Hp1 Hclient1)
          as (s2 & s3 & -> & -> & Hwaited3 & Hclock3).
        destruct (Waited_record w _ id r s1 s3 p1 Hwaited3 Hp1)
          as (p3 & Hp3 & Hclient3 & Hm3).
        assert (Hport3 : givenNumber (ElectronProcess.debugPort p3) = Some port).
        { destruct Hm3 as (_ & _ & _ & _ & -> & _).
          destruct Hm1 as (_ & _ & _ & _ & -> & _). exact Hport. }
        destruct (IH s3 p3 Hp3 Hclient3 Hport3) as (connected & s' & Hrun & Hwaited & Hdown).
        exists connected, s'. split; [exact Hrun|].
        split.
        { apply (Waited_trans w _ id r s s1 s' Hwaited1).
          apply (Waited_trans w _ id r s1 s3 s' Hwaited3 Hwaited). }
        intros Hno. destruct (Hdown Hno) as [Hfalse Hbound].
        split; [exact Hfalse|]. intros Hfuel. apply Hbound. lia.
    + exists false, s. split; [reflexivity|].
      split; [apply (Waited_refl w _ id r s p Hr Hclient)|].
      intros _. split; [reflexivity | lia].
Qed.

(** Once the fuel covers the time left before the deadline, more fuel
    changes nothing: the loop ends on its own condition. *)
Lemma pollTargets_fuel (w : World) (id : string) (r : loc)
    (startTime startupTimeout : Z) (port : Z) :
  forall (fuel extra : nat) (s : State) (p : ElectronProcess.t),
    heap s !! r = Some p ->
    ElectronProcess.cdpClient p = None ->
    givenNumber (ElectronProcess.debugPort p) = Some port ->
    startupTimeout - (clock s - startTime) <= 500 * Z.of_nat fuel ->
    pollTargets w (fuel + extra) id r startTime startupTimeout s
      = pollTargets w fuel id r startTime startupTimeout s.
Proof.
  induction fuel as [| fuel IH]; intros extra s p Hr Hclient Hport Hleft.
  - assert (Hover : (clock s - startTime <? startupTimeout) = false)
      by (apply Z.ltb_ge; lia).
    destruct extra as [| extra]; [reflexivity|].
    simpl Nat.add. rewrite pollTargets_step, Hover. reflexivity.
  - simpl Nat.add. rewrite !pollTargets_step.
    destruct (clock s - startTime <? startupTimeout); [|reflexivity].
    destruct (updateCDPTargets_Waited w id r s p port Hr Hclient Hport)
      as (result & s1 & Hupdate & Hwaited1 & _ & Hclock1 & _).
    rewrite Hupdate.
    destruct result as [targets | e]; [reflexivity|].
    destruct (Waited_record w _ id r s s1 p Hwaited1 Hr) as (p1 & Hp1 & Hclient1 & Hm1).
    destruct (poll_retry w id r s1 p1 port Hp1 Hclient1)
      as (s2 & s3 & -> & -> & Hwaited3 & Hclock3).
    destruct (Waited_record w _ id r s1 s3 p1 Hwaited3 Hp1)
      as (p3 & Hp3 & Hclient3 & Hm3).
    apply (IH extra s3 p3 Hp3 Hclient3).
    + destruct Hm3 as (_ & _ & _ & _ & -> & _).
      destruct Hm1 as (_ & _ & _ & _ & -> & _). exact Hport.
    + lia.
Qed.

Lemma pollFuel_covers (startupTimeout : Z) :
  startupTimeout <= 500 * Z.of_nat (pollFuel startupTimeout).
Proof.
  unfold pollFuel.
  destruct (Z.le_gt_cases startupTimeout 0) as [Hle | Hgt]; [lia|].
  rewrite Z2Nat.id by (apply Z.div_pos; lia).
  pose proof (Z.div_mod (startupTimeout + 499) 500 ltac:(lia)) as Hdiv.
  pose proof (Z.mod_pos_bound (startupTimeout + 499) 500 ltac:(lia)) as Hmod.
  lia.
Qed.

Lemma pollFuel_enough (w : World) (id : string) (r : loc) (startupTimeout : Z)
    (extra : nat) (s : State) (p : ElectronProcess.t) (port : Z) :
  heap s !! r = Some p ->
  ElectronProcess.cdpClient p = None ->
  givenNumber (ElectronProcess.debugPort p) = Some port ->
  pollTargets w (pollFuel startupTimeout + extra) id r (clock s) startupTimeout s
    = pollTargets w (pollFuel startupTimeout) id r (clock s) startupTimeout s.
Proof.
  intros Hr Hclient Hport.
  apply (pollTargets_fuel w id r (clock s) startupTimeout port _ extra s p Hr Hclient Hport).
  pose proof (pollFuel_covers startupTimeout). lia.
Qed.

(** ** A start *)

Lemma fresh_not_in_heap (h : gmap loc ElectronProcess.t) : h !! fresh (dom h) = None.
Proof. apply not_elem_of_dom. apply is_fresh. Qed.

(** A start, from the port it has chosen on. *)
Lemma start_from_port (w : World) (s : State) (appPath : string)
    (debugPort startupTimeout : option Z) (port : Z) (probes : list Event) :
  choosePort w debugPort s = (Ok port, withCalls s probes) ->
  startElectronApp w appPath debugPort startupTimeout s =
    let r := fresh (dom (heap s)) in
    let created := createdRecord w (clock s) appPath port in
    let registered :=
      mkState (<[r := created]> (heap s))
              (<[processId (clock s) := r]> (electronProcesses s))
              (clock s)
              (trace s ++ probes
                 ++ [Spawn (getElectronExecutablePath w) (startArgs appPath port)]) in
    match pollTargets w (pollFuel (default 30000 startupTimeout)) (processId (clock s)) r
            (clock s) (default 30000 startupTimeout) registered with
    | (Ok _, s') => (Ok r, s')
    | (Throw e, s') => (Throw e, s')
    end.
Proof.
  intros Hport. unfold startElectronApp. unfold bind at 1. unfold dateNow at 1.
  unfold bind at 1. rewrite Hport.
  unfold bind at 1. unfold emit at 1. unfold bind at 1. unfold dateNow at 1.
  unfold bind at 1. unfold alloc at 1. unfold bind at 1. unfold mapSet at 1.
  unfold bind at 1. unfold dateNow at 1. unfold bind at 1. simpl.
  unfold createdRecord, startArgs. rewrite <- List.app_assoc.
  destruct (pollTargets _ _ _ _ _ _ _) as [[connected | e] s']; reflexivity.
Qed.

(** What a start that has obtained [port] does next: it never throws, and
    returns the record it has created and registered, as the handlers of
    the child and the polling loop have left it. *)
Lemma start_registers (w : World) (s : State) (appPath : string)
    (debugPort startupTimeout : option Z) (port : Z) (probes : list Event) :
  choosePort w debugPort s = (Ok port, withCalls s probes) ->
  port <> 0 ->
  let r := fresh (dom (heap s)) in
  let id := processId (clock s) in
  let child := spawn w (getElectronExecutablePath w) (startArgs appPath port) in
  exists s' p' calls,
    startElectronApp w appPath debugPort startupTimeout s = (Ok r, s') /\
    heap s !! r = None /\
    heap s' !! r = Some p' /\
    sameMembers (createdRecord w (clock s) appPath port) p' /\
    ElectronProcess.cdpClient p' = None /\
    (forall r', r' <> r -> heap s' !! r' = heap s !! r') /\
    (forall id', id' <> id -> electronProcesses s' !! id' = electronProcesses s !! id') /\
    trace s' =
      (trace s ++ probes
         ++ [Spawn (getElectronExecutablePath w) (startArgs appPath port)]
         ++ calls)%list /\
    List.Forall (isPollCall (discoveryUrl port)) calls /\
    (staysAlive w child ->
     electronProcesses s' = <[id := r]> (electronProcesses s) /\
     ElectronProcess.status p' = running) /\
    (staysQuiet w child -> ElectronProcess.logs p' = []) /\
    (discoveryDown w (discoveryUrl port) ->
     ElectronProcess.targets p' = None /\
     default 30000 startupTimeout <= clock s' - clock s).
Proof.
  intros Hport Hne r id child.
  rewrite (start_from_port w s appPath debugPort startupTimeout port probes Hport).
  cbv zeta. fold r. fold id.
  set (created := createdRecord w (clock s) appPath port).
  set (registered := mkState _ _ _ _).
  assert (Hcreated : heap registered !! r = Some created)
    by (subst registered; simpl; apply lookup_insert_eq).
  destruct (pollTargets_Waited w id r (clock s) (default 30000 startupTimeout) port
              (pollFuel (default 30000 startupTimeout)) registered created
              Hcreated eq_refl (givenNumber_nonzero port Hne))
    as (connected & s' & Hrun & Hwaited & Hdown).
  rewrite Hrun.
  destruct Hwaited as (p0 & p' & calls & Hp0 & Hp' & Hmembers & Hclient & Hheap & Hmap
                       & Htrace & Hcalls & Hclock & Halive & Hquiet & Hcache).
  rewrite Hcreated in Hp0. injection Hp0 as <-.
  exists s', p', calls. subst registered. simpl in *.
  split; [reflexivity|]. split; [apply fresh_not_in_heap|]. split; [exact Hp'|].
  split; [exact Hmembers|]. split; [exact Hclient|].
  split.
  { intros r' Hr'. rewrite (Hheap r' Hr'). apply lookup_insert_ne. congruence. }
  split.
  { intros id' Hid'. rewrite (Hmap id' Hid'). apply lookup_insert_ne. congruence. }
  split; [rewrite Htrace, <- !List.app_assoc; reflexivity|].
  split; [exact Hcalls|].
  split; [exact Halive|]. split; [exact Hquiet|].
  intros Hno. split; [exact (Hcache Hno)|].
  destruct (Hdown Hno) as [_ Hbound]. apply Hbound.
  pose proof (pollFuel_covers (default 30000 startupTimeout)). lia.
Qed.

(** A start whose child dies while it waits still answers its record:
    crashed, with the output of the child in its buffer, and registered
    under no identifier. *)
Lemma start_child_exits_while_waiting :
  let outcome :=
    startElectronApp Cases.dying "/app" (Some 9222) (Some 1000) (Scenario.fresh 1000) in
  fst outcome = Ok 0%nat /\
  (ElectronProcess.status <$> heap (snd outcome) !! 0%nat) = Some crashed /\
  (ElectronProcess.logs <$> heap (snd outcome) !! 0%nat) = Some ["boom"] /\
  electronProcesses (snd outcome) !! "electron-1000" = None /\
  clock (snd outcome) = 2000.
Proof. vm_compute. repeat split; reflexivity. Qed.

(** X2.  When no debugging port is given and [port] is the lowest
    available port of 9222..9999, start probes 9222, 9223, ... up to that
    port and no further, and spawns the executable with the logging flag,
    the remote-debugging flag for that port and the application path.
    When the spawn yields a child with a pid, start succeeds with a record
    on that port that carries that pid; whatever follows the spawn is
    discovery requests and waits of 500 ms. *)
Theorem start_scans_to_lowest_free_port (w : World) (s : State) (appPath : string)
    (debugPort startupTimeout : option Z) (port pid : Z) :
  givenNumber debugPort = None ->
  9222 <= port <= 9999 ->
  isPortAvailable w port = true ->
  (forall q, 9222 <= q < port -> isPortAvailable w q = false) ->
  childPid (spawn w (getElectronExecutablePath w) (startArgs appPath port)) = Some pid ->
  exists r s' p' calls,
    startElectronApp w appPath debugPort startupTimeout s = (Ok r, s') /\
    heap s' !! r = Some p' /\
    ElectronProcess.debugPort p' = Some port /\
    ElectronProcess.pid p' = Some pid /\
    trace s' =
      (trace s ++ List.map Probe (portsBelow port ++ [port])
         ++ [Spawn (getElectronExecutablePath w) (startArgs appPath port)]
         ++ calls)%list /\
    List.Forall (isPollCall (discoveryUrl port)) calls.
Proof.
  intros Hnone Hrange Hfree Hbusy Hpid.
  destruct (start_registers w s appPath debugPort startupTimeout port
              (List.map Probe (portsBelow port ++ [port])))
    as (s' & p' & calls & Hrun & _ & Hp' & Hmembers & _ & _ & _ & Htrace & Hcalls & _).
  { apply choosePort_scans; assumption. }
  { lia. }
  destruct Hmembers as (_ & _ & _ & Hpid' & Hdebug & _).
  exists (fresh (dom (heap s))), s', p', calls.
  split; [exact Hrun|]. split; [exact Hp'|]. split; [exact Hdebug|].
  split; [rewrite Hpid'; exact Hpid|].
  split; [exact Htrace | exact Hcalls].
Qed.

(** X3.  When the debugging port given, from 1 to 65535, is available and
    the spawn yields a child with a pid, start succeeds: it probes that
    port only, creates a new record object and returns it.  The record
    has the identifier made of the time the call began, the port given,
    the child spawned and its pid, the application path, the base name of
    the path as its name, and no session; no other record is touched and
    no other entry of the process map changes.  When the child has not
    exited while the start waited, the record is registered under its
    identifier and running; when the child has been quiet, its log buffer
    is empty.  This holds whether or not discovery ever answers. *)
Theorem start_registers_running_record (w : World) (s : State) (appPath : string)
    (port : Z) (startupTimeout : option Z) (pid : Z) :
  1 <= port <= 65535 ->
  isPortAvailable w port = true ->
  childPid (spawn w (getElectronExecutablePath w) (startArgs appPath port)) = Some pid ->
  exists r s' p' calls,
    startElectronApp w appPath (Some port) startupTimeout s = (Ok r, s') /\
    heap s !! r = None /\
    heap s' !! r = Some p' /\
    ElectronProcess.id p' = processId (clock s) /\
    ElectronProcess.debugPort p' = Some port /\
    ElectronProcess.process p'
      = spawn w (getElectronExecutablePath w) (startArgs appPath port) /\
    ElectronProcess.pid p' = Some pid /\
    ElectronProcess.name p' = basename w appPath /\
    ElectronProcess.appPath p' = appPath /\
    ElectronProcess.cdpClient p' = None /\
    (forall r', r' <> r -> heap s' !! r' = heap s !! r') /\
    (forall id', id' <> processId (clock s) ->
                 electronProcesses s' !! id' = electronProcesses s !! id') /\
    trace s' =
      (trace s ++ [Probe port; Spawn (getElectronExecutablePath w) (startArgs appPath port)]
         ++ calls)%list /\
    List.Forall (isPollCall (discoveryUrl port)) calls /\
    (staysAlive w (ElectronProcess.process p') ->
     electronProcesses s' = <[processId (clock s) := r]> (electronProcesses s) /\
     ElectronProcess.status p' = running) /\
    (staysQuiet w (ElectronProcess.process p') -> ElectronProcess.logs p' = []).
Proof.
  intros Hrange Hfree Hpid.
  destruct (start_registers w s appPath (Some port) startupTimeout port [Probe port])
    as (s' & p' & calls & Hrun & Hfresh & Hp' & Hmembers & Hclient & Hheap & Hmap
        & Htrace & Hcalls & Halive & Hquiet & _).
  { apply choosePort_given; [apply givenNumber_nonzero | | exact Hfree]; lia. }
  { lia. }
  destruct Hmembers as (Hid & Hproc & Hname & Hpid' & Hdebug & _ & Happ).
  simpl in Hid, Hproc, Hname, Hpid', Hdebug, Happ.
  exists (fresh (dom (heap s))), s', p', calls.
  split; [exact Hrun|]. split; [exact Hfresh|]. split; [exact Hp'|].
  split; [exact Hid|]. split; [exact Hdebug|]. split; [exact Hproc|].
  split; [rewrite Hpid'; exact Hpid|].
  split; [exact Hname|]. split; [exact Happ|]. split; [exact Hclient|].
  split; [exact Hheap|]. split; [exact Hmap|].
  split; [exact Htrace|]. split; [exact Hcalls|].
  rewrite Hproc. split; [exact Halive | exact Hquiet].
Qed.

(** X4.  When discovery gives no target list for as long as the start
    waits, start still succeeds, provided the port given, from 1 to 65535,
    is available and the spawn yields a child with a pid: it returns the
    record, with no cached target list, and not before the timeout (30000
    ms when none is given) has elapsed since the call began.  When the
    child has not exited in the meantime, the record is registered and
    running. *)
Theorem start_survives_discovery_timeout (w : World) (s : State) (appPath : string)
    (port : Z) (startupTimeout : option Z) (pid : Z) :
  1 <= port <= 65535 ->
  isPortAvailable w port = true ->
  discoveryDown w (discoveryUrl port) ->
  childPid (spawn w (getElectronExecutablePath w) (startArgs appPath port)) = Some pid ->
  exists r s' p',
    startElectronApp w appPath (Some port) startupTimeout s = (Ok r, s') /\
    heap s' !! r = Some p' /\
    ElectronProcess.pid p' = Some pid /\
    ElectronProcess.targets p' = None /\
    default 30000 startupTimeout <= clock s' - clock s /\
    (staysAlive w (ElectronProcess.process p') ->
     electronProcesses s' !! processId (clock s) = Some r /\
     ElectronProcess.status p' = running).
Proof.
  intros Hrange Hfree Hdown Hpid.
  destruct (start_registers w s appPath (Some port) startupTimeout port [Probe port])
    as (s' & p' & calls & Hrun & _ & Hp' & Hmembers & _ & _ & _ & _ & _ & Halive & _
        & Hcache).
  { apply choosePort_given; [apply givenNumber_nonzero | | exact Hfree]; lia. }
  { lia. }
  destruct Hmembers as (_ & Hproc & _ & Hpid' & _).
  simpl in Hproc, Hpid'.
  destruct (Hcache Hdown) as [Htargets Hlate].
  exists (fresh (dom (heap s))), s', p'.
  split; [exact Hrun|]. split; [exact Hp'|].
  split; [rewrite Hpid'; exact Hpid|].
  split; [exact Htargets|]. split; [exact Hlate|].
  rewrite Hproc. intros Hstays. destruct (Halive Hstays) as [Hmap Hstatus].
  split; [rewrite Hmap; apply lookup_insert_eq | exact Hstatus].
Qed.

(** X5.  When discovery answers the first request of a start with a
    target list (the port given, from 1 to 65535, being available, the
    timeout positive and the spawn yielding a child with a pid), the start
    returns without waiting: one discovery request is made and no wait,
    and the record returned holds that list as its cache.  When the child
    has not exited in the meantime, the record is registered and
    running. *)
Theorem start_caches_first_discovery (w : World) (s : State) (appPath : string)
    (port : Z) (startupTimeout : option Z) (statusText : string)
    (targets : list CDPTarget.t) (pid : Z) :
  1 <= port <= 65535 ->
  isPortAvailable w port = true ->
  fetch w (clock s) (discoveryUrl port) = FetchResponse true statusText (JsonTargets targets) ->
  0 < default 30000 startupTimeout ->
  childPid (spawn w (getElectronExecutablePath w) (startArgs appPath port)) = Some pid ->
  exists r s' p',
    startElectronApp w appPath (Some port) startupTimeout s = (Ok r, s') /\
    heap s' !! r = Some p' /\
    ElectronProcess.pid p' = Some pid /\
    ElectronProcess.targets p' = Some targets /\
    trace s' =
      (trace s ++ [Probe port;
                   Spawn (getElectronExecutablePath w) (startArgs appPath port);
                   Fetch (discoveryUrl port)])%list /\
    (staysAlive w (ElectronProcess.process p') ->
     electronProcesses s' !! processId (clock s) = Some r /\
     ElectronProcess.status p' = running).
Proof.
  intros Hrange Hfree Hfetch Hpos Hpid.
  assert (Hne : port <> 0) by lia.
  pose proof (choosePort_given w (Some port) port s
                (givenNumber_nonzero port Hne) ltac:(lia) Hfree) as Hport.
  rewrite (start_from_port w s appPath (Some port) startupTimeout port
             [Probe port] Hport).
  cbv zeta. set (r := fresh (dom (heap s))).
  set (created := createdRecord w (clock s) appPath port).
  set (registered := mkState _ _ _ _).
  assert (Hfuel : exists fuel, pollFuel (default 30000 startupTimeout) = S fuel).
  { pose proof (pollFuel_covers (default 30000 startupTimeout)).
    destruct (pollFuel (default 30000 startupTimeout)) as [| fuel]; [lia|].
    exists fuel. reflexivity. }
  destruct Hfuel as [fuel ->]. rewrite pollTargets_step.
  assert (Hcond : (clock registered - clock s <? default 30000 startupTimeout) = true).
  { subst registered. simpl. apply Z.ltb_lt. lia. }
  rewrite Hcond.
  rewrite (updateCDPTargets_run w r registered created port);
    [| subst registered; simpl; apply lookup_insert_eq
     | apply givenNumber_nonzero; exact Hne].
  subst registered. simpl clock. rewrite Hfetch.
  set (cached := ElectronProcess.setTargets targets (clock s) created).
  rewrite (whileWaiting_run w (processId (clock s)) r _ cached);
    [| simpl; apply lookup_insert_eq | reflexivity].
  cbv zeta. simpl.
  set (events := arrivals w _ _).
  destruct (afterEvents_members events cached) as [Hmembers Htargets].
  destruct Hmembers as (_ & Hproc & _ & Hpid' & _).
  exists r. eexists. exists (afterEvents cached events).
  split; [reflexivity|]. simpl.
  split; [apply lookup_insert_eq|].
  split; [rewrite Hpid'; exact Hpid|].
  split; [exact Htargets|].
  split; [rewrite <- List.app_assoc; reflexivity|].
  rewrite Hproc. intros Hstays. subst events.
  change (ElectronProcess.process cached)
    with (spawn w (getElectronExecutablePath w) (startArgs appPath port)) in Hstays |- *.
  rewrite (Hstays _).
  split; [apply lookup_insert_eq|].
  rewrite afterEvents_alive by apply Hstays. reflexivity.
Qed.

(** X6.  Stopping the process that a start has just registered undoes
    the registration.  When the port given, from 1 to 65535, is available,
    the spawn yields a child with a pid, the child has not exited while
    the start waited and the identifier of the start was not registered
    before, stop answers true, the process map is again what it was before
    the start, the last call made is the kill of the child spawned, and
    the record, no longer reachable from the map, is stopped. *)
Theorem stop_after_start (w : World) (s : State) (appPath : string)
    (port : Z) (startupTimeout : option Z) (pid : Z) :
  1 <= port <= 65535 ->
  isPortAvailable w port = true ->
  childPid (spawn w (getElectronExecutablePath w) (startArgs appPath port)) = Some pid ->
  staysAlive w (spawn w (getElectronExecutablePath w) (startArgs appPath port)) ->
  electronProcesses s !! processId (clock s) = None ->
  exists r s1 s2 p2 calls,
    startElectronApp w appPath (Some port) startupTimeout s = (Ok r, s1) /\
    stopElectronApp w (processId (clock s)) s1 = (Ok true, s2) /\
    electronProcesses s2 = electronProcesses s /\
    trace s2 =
      (calls ++ [Kill (spawn w (getElectronExecutablePath w) (startArgs appPath port))])%list /\
    heap s2 !! r = Some p2 /\
    ElectronProcess.status p2 = stopped.
Proof.
  intros Hrange Hfree Hpid Hstays Hunused.
  destruct (start_registers w s appPath (Some port) startupTimeout port [Probe port])
    as (s1 & p1 & calls & Hrun & _ & Hp1 & Hmembers & Hclient & _ & _ & _ & _ & Halive & _).
  { apply choosePort_given; [apply givenNumber_nonzero | | exact Hfree]; lia. }
  { lia. }
  set (r := fresh (dom (heap s))) in *.
  destruct Hmembers as (_ & Hproc & _). simpl in Hproc.
  destruct (Halive Hstays) as [Hmap _].
  assert (Hid : electronProcesses s1 !! processId (clock s) = Some r).
  { rewrite Hmap. apply lookup_insert_eq. }
  exists r, s1. eexists. eexists. exists (trace s1).
  split; [exact Hrun|].
  split; [apply (stopElectronApp_known w _ s1 r p1 Hid Hp1)|]. simpl.
  split; [rewrite Hmap; apply delete_insert_id; exact Hunused|].
  split.
  { unfold closeCalls. rewrite Hclient, Hproc. reflexivity. }
  split; [apply lookup_insert_eq | reflexivity].
Qed.

(** ** The exit handler *)

(** X7.  The exit handler of a registered record never throws.  It marks
    the record stopped when the exit code is 0 and crashed for any other
    code or none, closes the session of the record if there is one
    (making no other call, whether or not the close throws), clears the
    session and deletes the identifier from the process map; afterwards
    the check made before every command on that identifier throws the
    not-found-or-not-running error. *)
Theorem exit_handler_contract (w : World) (s : State) (id : string) (r : loc)
    (p : ElectronProcess.t) (code : option Z) :
  heap s !! r = Some p ->
  exists s' p',
    onExit w id r code s = (Ok tt, s') /\
    electronProcesses s' = delete id (electronProcesses s) /\
    trace s' = (trace s ++ closeCalls p)%list /\
    heap s' !! r = Some p' /\
    (ElectronProcess.status p' = stopped <-> code = Some 0) /\
    (ElectronProcess.status p' = crashed <-> code <> Some 0) /\
    ElectronProcess.cdpClient p' = None /\
    ElectronProcess.logs p' = ElectronProcess.logs p /\
    requireRunningElectronProcess id s' = (Throw (ProcessNotRunning id), s').
Proof.
  intros Hr. rewrite (onExit_run w id r code s p Hr).
  eexists. eexists. split; [reflexivity|]. simpl.
  split; [reflexivity|]. split; [reflexivity|].
  split; [apply lookup_insert_eq|]. simpl.
  split; [|split; [|split; [reflexivity|split; [reflexivity|]]]].
  - destruct code as [[| c | c]|]; simpl; split; congruence.
  - destruct code as [[| c | c]|]; simpl; split; congruence.
  - unfold requireRunningElectronProcess, bind, mapGet. simpl.
    rewrite lookup_delete_eq. reflexivity.
Qed.

(** X8.  Stop and the exit handler of the same record, in either order:
    the session is closed once, by the first of the two; the second makes
    no call and leaves the process map as the first left it, without the
    identifier.  A stop that comes second answers false and changes
    nothing; an exit handler that comes second sets the status by its exit
    code, so a stopped record whose exit carries no code ends up
    crashed. *)
Theorem stop_and_exit_compose (w : World) (s : State) (id : string) (r : loc)
    (p : ElectronProcess.t) (code : option Z) :
  electronProcesses s !! id = Some r ->
  heap s !! r = Some p ->
  (exists s1 s2 p2,
     stopElectronApp w id s = (Ok true, s1) /\
     onExit w id r code s1 = (Ok tt, s2) /\
     trace s1 = (trace s ++ closeCalls p ++ [Kill (ElectronProcess.process p)])%list /\
     trace s2 = trace s1 /\
     electronProcesses s2 = electronProcesses s1 /\
     electronProcesses s2 !! id = None /\
     heap s2 !! r = Some p2 /\
     ElectronProcess.status p2 = exitStatus code) /\
  (exists s1,
     onExit w id r code s = (Ok tt, s1) /\
     trace s1 = (trace s ++ closeCalls p)%list /\
     stopElectronApp w id s1 = (Ok false, s1)).
Proof.
  intros Hid Hr. split.
  - rewrite (stopElectronApp_known w id s r p Hid Hr).
    eexists. eexists. eexists. split; [reflexivity|].
    rewrite (onExit_run w id r code _
               (ElectronProcess.setStatus stopped (ElectronProcess.setCdpClient None p)))
      by (simpl; apply lookup_insert_eq).
    split; [reflexivity|]. simpl.
    split; [reflexivity|].
    split; [unfold closeCalls; simpl; apply List.app_nil_r|].
    split; [apply delete_delete_eq|].
    split; [rewrite delete_delete_eq; apply lookup_delete_eq|].
    split; [apply lookup_insert_eq | reflexivity].
  - rewrite (onExit_run w id r code s p Hr).
    eexists. split; [reflexivity|]. split; [reflexivity|].
    apply stopElectronApp_unknown. simpl. apply lookup_delete_eq.
Qed.

(** ** Connecting to a target *)

(** Connect, once the cache needs no refresh. *)
Lemma connect_on_cache (w : World) (r : loc) (targetId : string) (s : State)
    (p : ElectronProcess.t) (port : Z) :
  heap s !! r = Some p ->
  givenNumber (ElectronProcess.debugPort p) = Some port ->
  needsRefresh p (clock s) = false ->
  connectToCDPTarget w r targetId s =
    match findTarget p targetId with
    | None => (Throw (TargetNotFound targetId), s)
    | Some _ =>
        match CDP w targetId port with
        | inl reason =>
            (Throw (ConnectRejected reason), withCalls s [Connect targetId port])
        | inr client =>
            (Ok client,
             mkState (<[r := ElectronProcess.setCdpClient (Some client) p]> (heap s))
                     (electronProcesses s) (clock s)
                     (trace s ++ [Connect targetId port]))
        end
    end.
Proof.
  intros Hr Hport Hfresh. unfold connectToCDPTarget. unfold bind at 1.
  rewrite (deref_run r s p Hr), Hport. unfold bind at 1. unfold dateNow at 1.
  rewrite Hfresh. unfold bind at 1. unfold ret at 1. unfold bind at 1.
  rewrite (deref_run r s p Hr).
  destruct (findTarget p targetId) as [target|]; [|reflexivity].
  unfold bind at 1. unfold emit at 1.
  destruct (CDP w targetId port) as [reason | client]; [reflexivity|].
  unfold bind at 1. unfold assign. simpl.
  rewrite (alter_at r _ (heap s) p Hr). reflexivity.
Qed.

(** Connect, when it has to refresh first and the refresh succeeds. *)
Lemma connect_after_refresh (w : World) (r : loc) (targetId : string) (s : State)
    (p : ElectronProcess.t) (port : Z) (statusText : string)
    (targets : list CDPTarget.t) :
  heap s !! r = Some p ->
  givenNumber (ElectronProcess.debugPort p) = Some port ->
  needsRefresh p (clock s) = true ->
  fetch w (clock s) (discoveryUrl port) = FetchResponse true statusText (JsonTargets targets) ->
  let refreshed := ElectronProcess.setTargets targets (clock s) p in
  connectToCDPTarget w r targetId s =
    match findTarget refreshed targetId with
    | None =>
        (Throw (TargetNotFound targetId),
         mkState (<[r := refreshed]> (heap s)) (electronProcesses s) (clock s)
                 (trace s ++ [Fetch (discoveryUrl port)]))
    | Some _ =>
        match CDP w targetId port with
        | inl reason =>
            (Throw (ConnectRejected reason),
             mkState (<[r := refreshed]> (heap s)) (electronProcesses s) (clock s)
                     (trace s ++ [Fetch (discoveryUrl port); Connect targetId port]))
        | inr client =>
            (Ok client,
             mkState (<[r := ElectronProcess.setCdpClient (Some client) refreshed]> (heap s))
                     (electronProcesses s) (clock s)
                     (trace s ++ [Fetch (discoveryUrl port); Connect targetId port]))
        end
    end.
Proof.
  intros Hr Hport Hstale Hfetch refreshed. unfold connectToCDPTarget. unfold bind at 1.
  rewrite (deref_run r s p Hr), Hport. unfold bind at 1. unfold dateNow at 1.
  rewrite Hstale. unfold bind at 1. unfold bind at 1.
  rewrite (updateCDPTargets_run w r s p port Hr Hport), Hfetch.
  unfold ret at 1. unfold bind at 1. unfold deref at 1. simpl heap.
  rewrite lookup_insert_eq. fold refreshed.
  destruct (findTarget refreshed targetId) as [target|]; [|reflexivity].
  unfold bind at 1. unfold emit at 1. simpl.
  destruct (CDP w targetId port) as [reason | client].
  - rewrite <- List.app_assoc. reflexivity.
  - unfold bind at 1. unfold assign. simpl.
    rewrite (alter_at r _ _ refreshed) by apply lookup_insert_eq.
    rewrite insert_insert_eq, <- List.app_assoc. reflexivity.
Qed.

Lemma needsRefresh_fresh (p : ElectronProcess.t) (cached : list CDPTarget.t)
    (last now : Z) :
  ElectronProcess.targets p = Some cached ->
  ElectronProcess.lastTargetUpdate p = Some last ->
  now - last <= 5000 ->
  needsRefresh p now = false.
Proof.
  intros Hc Hl Hage. unfold needsRefresh. rewrite Hc, Hl.
  destruct (Z.gtb_spec (now - last) 5000); [lia | reflexivity].
Qed.

(** X9.  Connect on a cache at most 5000 ms old that holds the target:
    no discovery request is made; the only call is the opening of a
    session for that target on the debugging port of the record.  When it
    resolves, the client is returned and becomes the session of the
    record, every other member staying as it was; a session that the
    record held before is replaced without being closed. *)
Theorem connect_on_fresh_cache (w : World) (s : State) (r : loc)
    (p : ElectronProcess.t) (port : Z) (cached : list CDPTarget.t) (last : Z)
    (targetId : string) (target : CDPTarget.t) (client : CDPClient) :
  heap s !! r = Some p ->
  givenNumber (ElectronProcess.debugPort p) = Some port ->
  ElectronProcess.targets p = Some cached ->
  ElectronProcess.lastTargetUpdate p = Some last ->
  clock s - last <= 5000 ->
  Js.find (fun t => String.eqb (CDPTarget.id t) targetId) cached = Some target ->
  CDP w targetId port = inr client ->
  exists s',
    connectToCDPTarget w r targetId s = (Ok client, s') /\
    trace s' = (trace s ++ [Connect targetId port])%list /\
    heap s' !! r = Some (ElectronProcess.setCdpClient (Some client) p) /\
    (forall r', r' <> r -> heap s' !! r' = heap s !! r') /\
    electronProcesses s' = electronProcesses s.
Proof.
  intros Hr Hport Hc Hl Hage Hfind Hcdp.
  rewrite (connect_on_cache w r targetId s p port Hr Hport
             (needsRefresh_fresh p cached last (clock s) Hc Hl Hage)).
  unfold findTarget. rewrite Hc, Hfind, Hcdp.
  eexists. split; [reflexivity|]. simpl.
  split; [reflexivity|]. split; [apply lookup_insert_eq|].
  split; [|reflexivity]. intros r' Hne. apply lookup_insert_ne. congruence.
Qed.

(** X10.  Connect on a cache at most 5000 ms old fails without touching
    the record: when the cache does not hold the target it throws the
    target-not-found error and makes no call at all; when the opening of
    the session is rejected it throws that rejection, the opening being
    the only call made.  In both cases the session the record held, if
    any, is still its session. *)
Theorem connect_failure_keeps_record (w : World) (s : State) (r : loc)
    (p : ElectronProcess.t) (port : Z) (cached : list CDPTarget.t) (last : Z)
    (targetId : string) :
  heap s !! r = Some p ->
  givenNumber (ElectronProcess.debugPort p) = Some port ->
  ElectronProcess.targets p = Some cached ->
  ElectronProcess.lastTargetUpdate p = Some last ->
  clock s - last <= 5000 ->
  (Js.find (fun t => String.eqb (CDPTarget.id t) targetId) cached = None ->
   connectToCDPTarget w r targetId s = (Throw (TargetNotFound targetId), s)) /\
  (forall target reason,
     Js.find (fun t => String.eqb (CDPTarget.id t) targetId) cached = Some target ->
     CDP w targetId port = inl reason ->
     connectToCDPTarget w r targetId s
       = (Throw (ConnectRejected reason), withCalls s [Connect targetId port])).
Proof.
  intros Hr Hport Hc Hl Hage.
  pose proof (connect_on_cache w r targetId s p port Hr Hport
                (needsRefresh_fresh p cached last (clock s) Hc Hl Hage)) as Hrun.
  unfold findTarget in Hrun. rewrite Hc in Hrun. split.
  - intros Hfind. rewrite Hfind in Hrun. exact Hrun.
  - intros target reason Hfind Hcdp. rewrite Hfind, Hcdp in Hrun. exact Hrun.
Qed.

(** X11.  Connect on a record that has no cached list, or whose cache is
    older than 5000 ms, refreshes first and searches the list just
    received, not the old one: when discovery answers with a list that
    holds the target, the session is opened after the one discovery
    request, and the record ends with the new list, the stamp of the
    refresh and the new session; when the list received does not hold the
    target, connect throws the target-not-found error and the record keeps
    the new list. *)
Theorem connect_refreshes_first (w : World) (s : State) (r : loc)
    (p : ElectronProcess.t) (port : Z) (targetId statusText : string)
    (targets : list CDPTarget.t) :
  heap s !! r = Some p ->
  givenNumber (ElectronProcess.debugPort p) = Some port ->
  needsRefresh p (clock s) = true ->
  fetch w (clock s) (discoveryUrl port) = FetchResponse true statusText (JsonTargets targets) ->
  (forall target client,
     Js.find (fun t => String.eqb (CDPTarget.id t) targetId) targets = Some target ->
     CDP w targetId port = inr client ->
     exists s',
       connectToCDPTarget w r targetId s = (Ok client, s') /\
       trace s' = (trace s ++ [Fetch (discoveryUrl port); Connect targetId port])%list /\
       heap s' !! r =
         Some (ElectronProcess.setCdpClient (Some client)
                 (ElectronProcess.setTargets targets (clock s) p))) /\
  (Js.find (fun t => String.eqb (CDPTarget.id t) targetId) targets = None ->
   exists s',
     connectToCDPTarget w r targetId s = (Throw (TargetNotFound targetId), s') /\
     trace s' = (trace s ++ [Fetch (discoveryUrl port)])%list /\
     heap s' !! r = Some (ElectronProcess.setTargets targets (clock s) p)).
Proof.
  intros Hr Hport Hstale Hfetch.
  pose proof (connect_after_refresh w r targetId s p port statusText targets
                Hr Hport Hstale Hfetch) as Hrun.
  cbv zeta in Hrun. unfold findTarget in Hrun. simpl in Hrun. split.
  - intros target client Hfind Hcdp. rewrite Hfind, Hcdp in Hrun.
    eexists. split; [exact Hrun|]. simpl.
    split; [reflexivity | apply lookup_insert_eq].
  - intros Hfind. rewrite Hfind in Hrun.
    eexists. split; [exact Hrun|]. simpl.
    split; [reflexivity | apply lookup_insert_eq].
Qed.

(** A connect that succeeds has made its client the session of the record. *)
Lemma connect_ok_session (w : World) (r : loc) (targetId : string) (s s1 : State)
    (p : ElectronProcess.t) (client : CDPClient) :
  heap s !! r = Some p ->
  connectToCDPTarget w r targetId s = (Ok client, s1) ->
  exists p1, heap s1 !! r = Some p1 /\ ElectronProcess.cdpClient p1 = Some client.
Proof.
  intros Hr. unfold connectToCDPTarget. unfold bind at 1.
  rewrite (deref_run r s p Hr).
  destruct (givenNumber (ElectronProcess.debugPort p)) as [port|]; [|discriminate].
  unfold bind at 1. unfold dateNow at 1. unfold bind at 1.
  assert (Hstep : exists outcome s0 p0,
    (if needsRefresh p (clock s)
     then let* _ := updateCDPTargets w r in ret tt
     else ret tt) s = (outcome, s0) /\ heap s0 !! r = Some p0).
  { destruct (needsRefresh p (clock s)).
    - unfold bind. destruct (updateCDPTargets w r s) as [result s0] eqn:Hupd.
      destruct (updateCDPTargets_preserves w r s s0 p result Hr Hupd) as (p0 & Hp0 & _).
      destruct result; eexists; exists s0, p0; split; try reflexivity; exact Hp0.
    - exists (Ok tt), s, p. split; [reflexivity | exact Hr]. }
  destruct Hstep as (outcome & s0 & p0 & -> & Hp0).
  destruct outcome as [[] | e]; [|discriminate].
  unfold bind at 1. rewrite (deref_run r s0 p0 Hp0).
  destruct (findTarget p0 targetId) as [target|]; [|discriminate].
  unfold bind at 1. unfold emit at 1.
  destruct (CDP w targetId port) as [reason | c]; [discriminate|].
  unfold bind at 1. unfold assign, ret. simpl. intros [= <- <-]. simpl.
  rewrite (alter_at r _ (heap s0) p0 Hp0).
  eexists. split; [apply lookup_insert_eq | reflexivity].
Qed.

(** X12.  The session opened by the first command of a record carries
    every later one.  When a record without session executes a command
    for a target and the connect succeeds, the command goes out on the
    new client; any command executed afterwards, for whatever target,
    goes out on that same client with no discovery request and no new
    connect, and its outcome is what that client answers. *)
Theorem first_session_carries_later_commands (w : World) (s s1 : State) (r : loc)
    (p : ElectronProcess.t) (client : CDPClient)
    (target1 domain1 command1 : string) (params1 : Params)
    (target2 domain2 command2 : string) (params2 : Params) :
  heap s !! r = Some p ->
  ElectronProcess.cdpClient p = None ->
  connectToCDPTarget w r target1 s = (Ok client, s1) ->
  let first := executeCDPCommand w r target1 domain1 command1 params1 s in
  let second := executeCDPCommand w r target2 domain2 command2 params2 (snd first) in
  fst first = sendResult w client (domain1 ++ "." ++ command1) (Some params1) /\
  trace (snd first)
    = (trace s1 ++ [Send client (domain1 ++ "." ++ command1) (Some params1)])%list /\
  fst second = sendResult w client (domain2 ++ "." ++ command2) (Some params2) /\
  trace (snd second)
    = (trace (snd first) ++ [Send client (domain2 ++ "." ++ command2) (Some params2)])%list /\
  heap (snd second) = heap s1.
Proof.
  intros Hr Hnone Hconnect first second. subst second first.
  rewrite (executeCDPCommand_without_session w s r p _ _ _ _ Hr Hnone), Hconnect.
  destruct (connect_ok_session w r target1 s s1 p client Hr Hconnect) as (p1 & Hp1 & Hc1).
  simpl.
  rewrite (executeCDPCommand_with_session w _ r p1 client target2 domain2 command2 params2)
    by (simpl; assumption).
  simpl. repeat split; reflexivity.
Qed.

(** X13.  On a record without a debugging port (none, or the number 0),
    refresh and connect throw the no-debug-port error, and so does a
    command executed while the record has no session; none of them makes
    a call or changes anything. *)
Theorem no_debug_port_no_call (w : World) (s : State) (r : loc)
    (p : ElectronProcess.t) (targetId domain command : string) (params : Params) :
  heap s !! r = Some p ->
  givenNumber (ElectronProcess.debugPort p) = None ->
  updateCDPTargets w r s = (Throw NoDebugPort, s) /\
  connectToCDPTarget w r targetId s = (Throw NoDebugPort, s) /\
  (ElectronProcess.cdpClient p = None ->
   executeCDPCommand w r targetId domain command params s = (Throw NoDebugPort, s)).
Proof.
  intros Hr Hport.
  assert (Hconnect : connectToCDPTarget w r targetId s = (Throw NoDebugPort, s)).
  { unfold connectToCDPTarget, bind. rewrite (deref_run r s p Hr), Hport. reflexivity. }
  split; [apply (updateCDPTargets_no_port w r s p Hr Hport)|].
  split; [exact Hconnect|].
  intros Hnone.
  rewrite (executeCDPCommand_without_session w s r p _ _ _ _ Hr Hnone), Hconnect.
  reflexivity.
Qed.

(** ** Parsing the URIs of processes and logs *)

Lemma givenString_nonempty (x : string) : x <> "" -> givenString (Some x) = Some x.
Proof. destruct x; [contradiction | reflexivity]. Qed.

Lemma parse_process_prefix (id : string) :
  id <> "" ->
  parseElectronResourceUri (ELECTRON_RESOURCES.PROCESS ++ id) = RouteProcess id.
Proof.
  intros Hne. unfold parseElectronResourceUri, parseProcessOrLogs, Js.startsWith.
  cbv [String.append ELECTRON_RESOURCES.PROCESS]. simpl.
  assert (Hp : String.prefix "" id = true) by (destruct id; reflexivity).
  rewrite Hp, (givenString_nonempty id Hne). reflexivity.
Qed.

Lemma parse_logs_prefix (id : string) :
  id <> "" ->
  parseElectronResourceUri (ELECTRON_RESOURCES.LOGS ++ id) = RouteLogs id.
Proof.
  intros Hne. unfold parseElectronResourceUri, parseProcessOrLogs, Js.startsWith.
  cbv [String.append ELECTRON_RESOURCES.LOGS]. simpl.
  assert (Hp : String.prefix "" id = true) by (destruct id; reflexivity).
  rewrite Hp, (givenString_nonempty id Hne). reflexivity.
Qed.

(** ** Derived debug info, for every record *)

Lemma getElectronDebugInfo_absent (w : World) (id : string) (s : State) :
  electronProcesses s !! id = None ->
  getElectronDebugInfo w id s = (Ok None, s).
Proof.
  intros Hnone. unfold getElectronDebugInfo, bind, mapGet. rewrite Hnone. reflexivity.
Qed.

Lemma getElectronDebugInfo_not_running (w : World) (id : string) (s : State)
    (r : loc) (p : ElectronProcess.t) :
  electronProcesses s !! id = Some r ->
  heap s !! r = Some p ->
  ElectronProcess.status p <> running ->
  getElectronDebugInfo w id s = (Ok None, s).
Proof.
  intros Hid Hr Hstatus. unfold getElectronDebugInfo. unfold bind at 1.
  unfold mapGet. rewrite Hid. unfold bind at 1. rewrite (deref_run r s p Hr).
  destruct (ElectronProcess.status p); [contradiction | reflexivity | reflexivity].
Qed.

(** X14.  Reading the process resource of an identifier (not empty) that
    is not registered, or whose record is not running, throws the
    not-found-or-not-running error; the debug-info query answers null for
    it, and no discovery request or command is made. *)
Theorem process_resource_of_missing_process (w : World) (s : State) (id : string) :
  id <> "" ->
  (electronProcesses s !! id = None \/
   exists r p, electronProcesses s !! id = Some r /\ heap s !! r = Some p /\
               ElectronProcess.status p <> running) ->
  getElectronDebugInfo w id s = (Ok None, s) /\
  readResource w (ELECTRON_RESOURCES.PROCESS ++ id) s = (Throw (ProcessNotRunning id), s).
Proof.
  intros Hne Hmissing.
  assert (Hnull : getElectronDebugInfo w id s = (Ok None, s)).
  { destruct Hmissing as [Hnone | (r & p & Hid & Hr & Hstatus)].
    - apply getElectronDebugInfo_absent. exact Hnone.
    - apply (getElectronDebugInfo_not_running w id s r p Hid Hr Hstatus). }
  split; [exact Hnull|].
  unfold readResource. rewrite (parse_process_prefix id Hne).
  unfold bind. rewrite Hnull. reflexivity.
Qed.

(** Collecting the readings never throws and writes nothing. *)
Lemma collectReadings_ok (w : World) (p : ElectronProcess.t) (s : State) :
  exists readings,
    collectReadings w p s =
      (Ok readings,
       withCalls s match ElectronProcess.cdpClient p with
                   | Some client => [Send client "Performance.getMetrics" None]
                   | None => []
                   end).
Proof.
  unfold collectReadings.
  destruct (ElectronProcess.cdpClient p) as [client|].
  - unfold tryCatch, bind. rewrite sendCommand_run. unfold sendResult.
    destruct (send w client "Performance.getMetrics" None) as [reason | reply];
      eexists; reflexivity.
  - exists noReadings. rewrite withCalls_nil. reflexivity.
Qed.

(** X15.  For a registered running record the debug-info query always
    answers: it never throws and never answers null, whether or not
    discovery and the metrics command succeed.  The answer has one main
    entry with the pid of the record (0 when it has none) and exactly one
    renderer entry with that pid plus 1, both marked running; its web
    contents are those of the record after the refresh attempt: one per
    cached target, or a single placeholder when there is no cache.  The
    process map is not changed and the session of the record is kept. *)
Theorem debug_info_always_answers (w : World) (s : State) (id : string) (r : loc)
    (p : ElectronProcess.t) :
  electronProcesses s !! id = Some r ->
  heap s !! r = Some p ->
  ElectronProcess.status p = running ->
  exists info s' p1 renderer,
    getElectronDebugInfo w id s = (Ok (Some info), s') /\
    electronProcesses s' = electronProcesses s /\
    heap s' !! r = Some p1 /\
    ElectronProcess.cdpClient p1 = ElectronProcess.cdpClient p /\
    webContents info = webContentsOf p1 /\
    List.length (webContents info) =
      match ElectronProcess.targets p1 with
      | Some targets => List.length targets
      | None => 1%nat
      end /\
    info_pid (main info) = orZero (ElectronProcess.pid p) /\
    info_status (main info) = "running" /\
    renderers info = [renderer] /\
    info_pid renderer = orZero (ElectronProcess.pid p) + 1 /\
    info_status renderer = "running".
Proof.
  intros Hid Hr Hrun.
  unfold getElectronDebugInfo. unfold bind at 1. unfold mapGet. rewrite Hid.
  unfold bind at 1. rewrite (deref_run r s p Hr), Hrun.
  change (negb (Status_eqb running running)) with false. cbv beta iota.
  unfold bind at 1. unfold tryCatch. unfold bind at 1.
  destruct (updateCDPTargets w r s) as [result s1] eqn:Hupd.
  destruct (updateCDPTargets_preserves w r s s1 p result Hr Hupd)
    as (p1 & Hr1 & Hc1 & Hpid1).
  assert (Hmap1 : electronProcesses s1 = electronProcesses s).
  { destruct (givenNumber (ElectronProcess.debugPort p)) as [port|] eqn:Hport.
    - rewrite (updateCDPTargets_run w r s p port Hr Hport) in Hupd.
      destruct (fetch w (clock s) (discoveryUrl port))
        as [reason | [] statusText [targets | reason]];
        injection Hupd as _ <-; reflexivity.
    - rewrite (updateCDPTargets_no_port w r s p Hr Hport) in Hupd.
      injection Hupd as _ <-. reflexivity. }
  assert (Hrest : exists info s' renderer,
    (let* p' := deref r in
     let* readings := collectReadings w p' in
     let pid := orZero (ElectronProcess.pid p') in
     ret (Some (mkDebugInfo (webContentsOf p')
                  (mkProcessInfo pid
                     (numberOrZero (mainCpuUsage readings))
                     (numberOrZero (mainMemoryUsage readings))
                     "running")
                  [mkProcessInfo (pid + 1)
                     (numberOrZero (rendererCpuUsage readings))
                     (numberOrZero (rendererMemoryUsage readings))
                     "running"]))) s1 = (Ok (Some info), s') /\
    electronProcesses s' = electronProcesses s1 /\
    heap s' = heap s1 /\
    webContents info = webContentsOf p1 /\
    info_pid (main info) = orZero (ElectronProcess.pid p1) /\
    info_status (main info) = "running" /\
    renderers info = [renderer] /\
    info_pid renderer = orZero (ElectronProcess.pid p1) + 1 /\
    info_status renderer = "running").
  { unfold bind at 1. rewrite (deref_run r s1 p1 Hr1). unfold bind at 1.
    destruct (collectReadings_ok w p1 s1) as [readings ->].
    eexists. eexists. eexists. split; [reflexivity|]. simpl.
    repeat split; reflexivity. }
  destruct Hrest as (info & s' & renderer & Hrun' & Hmap' & Hheap' & Hwc & Hmain
                     & Hmains & Hrend & Hrpid & Hrs).
  exists info, s', p1, renderer.
  split.
  { destruct result as [targets | e]; exact Hrun'. }
  split; [rewrite Hmap'; exact Hmap1|].
  split; [rewrite Hheap'; exact Hr1|].
  split; [exact Hc1|]. split; [exact Hwc|].
  split.
  { rewrite Hwc. unfold webContentsOf.
    destruct (ElectronProcess.targets p1) as [targets|]; [|reflexivity].
    apply length_imap. }
  rewrite Hpid1 in Hmain, Hrpid.
  split; [exact Hmain|]. split; [exact Hmains|]. split; [exact Hrend|].
  split; [exact Hrpid | exact Hrs].
Qed.

(** ** Segments *)

Lemma append_cons (c : ascii) (a b : string) :
  (String c a ++ b)%string = String c (a ++ b)%string.
Proof. reflexivity. Qed.

Lemma append_nil (b : string) : ("" ++ b)%string = b.
Proof. reflexivity. Qed.

Lemma split_not_nil (s : string) : Js.split "/" s <> [].
Proof.
  induction s as [| c s IH]; simpl; [discriminate|].
  destruct (Ascii.eqb c "/"); [discriminate|].
  destruct (Js.split "/" s); [contradiction | discriminate].
Qed.

(** A string without slash is its own single segment. *)
Lemma split_slashFree (a : string) : slashFree a = true -> Js.split "/" a = [a].
Proof.
  induction a as [| c a IH]; simpl; [reflexivity|].
  intros Hfree. apply andb_true_iff in Hfree as [Hc Ha].
  apply negb_true_iff in Hc. rewrite Hc, (IH Ha). reflexivity.
Qed.

(** Splitting cuts at the first slash. *)
Lemma split_append (a rest : string) :
  slashFree a = true ->
  Js.split "/" (a ++ String "/" rest) = a :: Js.split "/" rest.
Proof.
  induction a as [| c a IH]; intros Hfree.
  - rewrite append_nil. reflexivity.
  - simpl in Hfree. apply andb_true_iff in Hfree as [Hc Ha].
    apply negb_true_iff in Hc. rewrite append_cons. simpl.
    rewrite Hc, (IH Ha). reflexivity.
Qed.

(** ** Reading logs and targets through the handler *)

(** X16.  Reading the logs resource of an identifier (not empty): for a
    registered record, whatever its status, the answer is the text of its
    log buffer, the chunks joined by a line feed, and the state is not
    changed (no call is made); for an identifier that is not registered
    the read throws the process-not-found error. *)
Theorem logs_resource (w : World) (s : State) (id : string) :
  id <> "" ->
  let uri := (ELECTRON_RESOURCES.LOGS ++ id)%string in
  (electronProcesses s !! id = None ->
   readResource w uri s = (Throw (ProcessNotFound id), s)) /\
  (forall r p,
     electronProcesses s !! id = Some r ->
     heap s !! r = Some p ->
     readResource w uri s =
       (Ok (textResourceResponse uri
              (Js.join (String (ascii_of_nat 10) "") (ElectronProcess.logs p))), s)).
Proof.
  intros Hne uri. subst uri. unfold readResource.
  rewrite (parse_logs_prefix id Hne). split.
  - intros Hnone. unfold bind, mapGet. rewrite Hnone. reflexivity.
  - intros r p Hid Hr. unfold bind, mapGet. rewrite Hid.
    rewrite (deref_run r s p Hr). reflexivity.
Qed.

Lemma hasTarget_findTarget (p : ElectronProcess.t) (targetId : string) :
  hasTarget p targetId = match findTarget p targetId with
                         | Some _ => true
                         | None => false
                         end.
Proof.
  unfold hasTarget, findTarget, Js.some, Js.find.
  destruct (ElectronProcess.targets p) as [targets|]; [|reflexivity].
  induction targets as [| t targets IH]; simpl; [reflexivity|].
  destruct (String.eqb (CDPTarget.id t) targetId); [reflexivity | exact IH].
Qed.

(** X17.  Reading the metadata of a target (a cdp route without command
    path) of a registered running record.  A target that the cache holds
    is answered from the cache, with no call.  Otherwise one discovery
    request is made on the debugging port, and its failure is not the
    failure of the read: when discovery gives no list the read throws the
    target-not-in-process error, and when it gives a list the target is
    looked up in that list, which is now the cache of the record. *)
Theorem cdp_metadata_read (w : World) (s : State)
    (uri processId targetId : string) (r : loc) (p : ElectronProcess.t) :
  electronProcesses s !! processId = Some r ->
  heap s !! r = Some p ->
  ElectronProcess.status p = running ->
  (forall target,
     findTarget p targetId = Some target ->
     readCdp w uri processId targetId None s
       = (Ok (jsonResourceResponse uri (TargetPayload target)), s)) /\
  (forall port,
     findTarget p targetId = None ->
     givenNumber (ElectronProcess.debugPort p) = Some port ->
     match fetch w (clock s) (discoveryUrl port) with
     | FetchResponse true _ (JsonTargets targets) =>
         let refreshed := ElectronProcess.setTargets targets (clock s) p in
         let s' := mkState (<[r := refreshed]> (heap s)) (electronProcesses s)
                           (clock s) (trace s ++ [Fetch (discoveryUrl port)]) in
         readCdp w uri processId targetId None s =
           match findTarget refreshed targetId with
           | Some target => (Ok (jsonResourceResponse uri (TargetPayload target)), s')
           | None => (Throw (TargetNotInProcess targetId processId), s')
           end
     | _ =>
         readCdp w uri processId targetId None s
           = (Throw (TargetNotInProcess targetId processId), afterFetch s port)
     end).
Proof.
  intros Hid Hr Hrun.
  assert (Hstart : readCdp w uri processId targetId None s =
    (let* p0 := deref r in
     let* _ := (if negb (hasTarget p0 targetId)
                   && Js.truthyNumber (ElectronProcess.debugPort p0)
                then tryCatch (let* _ := updateCDPTargets w r in ret tt)
                              (fun _ => ret tt)
                else ret tt) in
     let* p' := deref r in
     match findTarget p' targetId with
     | None => throw (TargetNotInProcess targetId processId)
     | Some target => ret (jsonResourceResponse uri (TargetPayload target))
     end) s).
  { unfold readCdp. unfold bind at 1.
    rewrite (requireRunning_found s processId r p Hid Hr Hrun). reflexivity. }
  split.
  - intros target Hfind. rewrite Hstart. unfold bind at 1.
    rewrite (deref_run r s p Hr), hasTarget_findTarget, Hfind. simpl.
    unfold bind at 1. unfold ret at 1.
    unfold bind at 1. rewrite (deref_run r s p Hr), Hfind. reflexivity.
  - intros port Hfind Hport.
    destruct (givenNumber_truthy _ _ Hport) as [Hsome Hne].
    assert (Htruthy : Js.truthyNumber (ElectronProcess.debugPort p) = true).
    { rewrite Hsome. unfold Js.truthyNumber.
      destruct (Z.eqb_spec port 0); [contradiction | reflexivity]. }
    assert (Hgo : readCdp w uri processId targetId None s =
      match updateCDPTargets w r s with
      | (_, s1) =>
          (let* p' := deref r in
           match findTarget p' targetId with
           | None => throw (TargetNotInProcess targetId processId)
           | Some target => ret (jsonResourceResponse uri (TargetPayload target))
           end) s1
      end).
    { rewrite Hstart. unfold bind at 1.
      rewrite (deref_run r s p Hr), hasTarget_findTarget, Hfind, Htruthy.
      simpl negb. simpl andb. cbv iota.
      unfold bind at 1. unfold tryCatch. unfold bind at 1.
      destruct (updateCDPTargets w r s) as [[targets | e] s1]; reflexivity. }
    rewrite (updateCDPTargets_run w r s p port Hr Hport) in Hgo.
    destruct (fetch w (clock s) (discoveryUrl port))
      as [reason | [] statusText [targets | reason]]; cbv zeta; rewrite Hgo.
    2: { unfold bind at 1. unfold deref. simpl heap. rewrite lookup_insert_eq.
         destruct (findTarget (ElectronProcess.setTargets targets (clock s) p) targetId);
           reflexivity. }
    all: unfold bind at 1; unfold deref, afterFetch; simpl heap;
      rewrite Hr, Hfind; reflexivity.
Qed.

(** X18.  Reading a cdp route whose command path is a domain and a method
    (two segments without slash, not empty) on a registered running
    record that has a session: exactly one command goes out on that
    session, named by the domain, a dot and the method, with an empty
    params object; the answer carries the reply as it came, and a send
    that is rejected is thrown as the command-failed error whose message
    is that of the rejection after a fixed prefix. *)
Theorem cdp_command_read (w : World) (s : State)
    (uri processId targetId domain method : string) (r : loc)
    (p : ElectronProcess.t) (client : CDPClient) :
  electronProcesses s !! processId = Some r ->
  heap s !! r = Some p ->
  ElectronProcess.status p = running ->
  ElectronProcess.cdpClient p = Some client ->
  isSegment domain ->
  isSegment method ->
  let sent := withCalls s [Send client (domain ++ "." ++ method)%string (Some [])] in
  match send w client (domain ++ "." ++ method)%string (Some []) with
  | inr reply =>
      readCdp w uri processId targetId (Some (domain ++ "/" ++ method)%string) s
        = (Ok (jsonResourceResponse uri (ReplyPayload reply)), sent)
  | inl reason =>
      readCdp w uri processId targetId (Some (domain ++ "/" ++ method)%string) s
        = (Throw (CdpCommandFailed (SessionError reason)), sent) /\
      message (CdpCommandFailed (SessionError reason))
        = ("Error executing CDP command: " ++ reason)%string
  end.
Proof.
  intros Hid Hr Hrun Hc [Hd Hdfree] [Hm Hmfree] sent.
  assert (Hpath : (domain ++ "/" ++ method)%string <> "").
  { destruct domain; [contradiction|]. rewrite append_cons. discriminate. }
  assert (Hsplit : Js.split "/" (domain ++ "/" ++ method) = [domain; method]).
  { change ("/" ++ method)%string with (String "/" method).
    rewrite (split_append domain method Hdfree), (split_slashFree method Hmfree).
    reflexivity. }
  assert (Hrun' : readCdp w uri processId targetId (Some (domain ++ "/" ++ method)%string) s =
    tryCatch
      (let* result := executeCDPCommand w r targetId domain method [] in
       ret (jsonResourceResponse uri (ReplyPayload result)))
      (fun error => throw (CdpCommandFailed error)) s).
  { unfold readCdp. unfold bind at 1.
    rewrite (requireRunning_found s processId r p Hid Hr Hrun).
    rewrite (givenString_nonempty _ Hpath), Hsplit.
    apply nonEmpty_true in Hd. apply nonEmpty_true in Hm. rewrite Hd, Hm.
    reflexivity. }
  unfold tryCatch in Hrun'. unfold bind at 1 in Hrun'.
  rewrite (executeCDPCommand_with_session w s r p client _ _ _ _ Hr Hc) in Hrun'.
  unfold sendResult in Hrun'. subst sent. unfold withCalls.
  change (@Some Params) with (@Some (list (string * ParamValue))) in Hrun'.
  revert Hrun'.
  destruct (send w client (domain ++ "." ++ method) (Some [])) as [reason | reply];
    intros ->.
  - split; reflexivity.
  - reflexivity.
Qed.

(** ** Listings over the process map *)

(** A loop whose body reads without writing. *)
Lemma forEach_pure {A B : Type} (f : A -> M (list B)) (g : A -> list B)
    (l : list A) (s : State) :
  (forall a, List.In a l -> f a s = (Ok (g a), s)) ->
  forEach f l s = (Ok (List.concat (List.map g l)), s).
Proof.
  induction l as [| a l IH]; intros Hbody; [reflexivity|].
  simpl. unfold bind at 1. rewrite (Hbody a (or_introl eq_refl)).
  unfold bind at 1. rewrite IH by (intros b Hb; apply Hbody; right; exact Hb).
  reflexivity.
Qed.

Lemma mapEntries_In (s : State) (id : string) (r : loc) :
  List.In (id, r) (map_to_list (electronProcesses s)) <-> electronProcesses s !! id = Some r.
Proof. rewrite <- list_elem_of_In. apply elem_of_map_to_list. Qed.

Lemma readInfo_run (w : World) (uri : string) (s : State) :
  mapLive s ->
  readInfo uri s =
    (Ok (jsonResourceResponse uri
           (InfoPayload
              (List.concat
                 (List.map (fun entry : string * loc =>
                              match heap s !! entry.2 with
                              | Some proc =>
                                  [mkSummary entry.1 (ElectronProcess.name proc)
                                     (ElectronProcess.status proc)
                                     (ElectronProcess.pid proc)
                                     (ElectronProcess.startTime proc)]
                              | None => []
                              end)
                           (map_to_list (electronProcesses s)))))), s).
Proof.
  intros Hlive. unfold readInfo. unfold bind at 1. unfold mapEntries.
  unfold bind at 1.
  rewrite (forEach_pure _ (fun entry : string * loc =>
                             match heap s !! entry.2 with
                             | Some proc =>
                                 [mkSummary entry.1 (ElectronProcess.name proc)
                                    (ElectronProcess.status proc)
                                    (ElectronProcess.pid proc)
                                    (ElectronProcess.startTime proc)]
                             | None => []
                             end)).
  - reflexivity.
  - intros [id r] Hin. apply mapEntries_In in Hin.
    destruct (Hlive id r Hin) as [proc Hproc]. simpl.
    unfold bind. rewrite (deref_run r s proc Hproc), Hproc. reflexivity.
Qed.

(** What a listing of a live map holds: one entry per identifier, made
    from the identifier and its record. *)
Lemma listing_spec {B : Type} (make : string -> ElectronProcess.t -> B) (s : State) :
  mapLive s ->
  let listed :=
    List.concat
      (List.map (fun entry : string * loc =>
                   match heap s !! entry.2 with
                   | Some proc => [make entry.1 proc]
                   | None => []
                   end)
                (map_to_list (electronProcesses s))) in
  List.length listed = size (electronProcesses s) /\
  (forall x, List.In x listed <->
             exists id r proc,
               electronProcesses s !! id = Some r /\ heap s !! r = Some proc /\
               x = make id proc).
Proof.
  intros Hlive listed. subst listed. split.
  - rewrite <- length_map_to_list.
    assert (Hall : forall entry, List.In entry (map_to_list (electronProcesses s)) ->
                                 is_Some (heap s !! entry.2)).
    { intros [id r] Hin. apply mapEntries_In in Hin. apply (Hlive id r Hin). }
    induction (map_to_list (electronProcesses s)) as [| entry l IH]; [reflexivity|].
    simpl. rewrite List.length_app, IH by (intros e He; apply Hall; right; exact He).
    destruct (Hall entry (or_introl eq_refl)) as [proc ->]. reflexivity.
  - intros x. rewrite List.in_concat. split.
    + intros (chunk & Hchunk & Hx). apply List.in_map_iff in Hchunk.
      destruct Hchunk as ([id r] & <- & Hin). apply mapEntries_In in Hin.
      simpl in Hx. destruct (heap s !! r) as [proc|] eqn:Hr; [|contradiction].
      destruct Hx as [<- | []]. exists id, r, proc. auto.
    + intros (id & r & proc & Hid & Hr & ->).
      exists [make id proc]. split; [|left; reflexivity].
      apply List.in_map_iff. exists (id, r). simpl. rewrite Hr.
      split; [reflexivity|]. apply mapEntries_In. exact Hid.
Qed.

Lemma parse_info : parseElectronResourceUri ELECTRON_RESOURCES.INFO = RouteInfo.
Proof. reflexivity. Qed.

Lemma parse_targets : parseElectronResourceUri ELECTRON_RESOURCES.TARGETS = RouteTargets.
Proof. reflexivity. Qed.

(** X19.  The info resource and the list tool report the same processes
    and make no call.  In a state whose process map holds only live
    records, both succeed without changing anything; each reports exactly
    one entry per registered identifier, made of that identifier and of
    the name, status, pid and start time of its record (the list tool
    adding the application path and the debugging port), and nothing
    else. *)
Theorem info_and_list_agree (w : World) (s : State) :
  mapLive s ->
  exists summaries listings,
    readResource w ELECTRON_RESOURCES.INFO s
      = (Ok (jsonResourceResponse ELECTRON_RESOURCES.INFO (InfoPayload summaries)), s) /\
    callTool w electron_list s
      = (Ok (mkToolResult (ListedPayload listings) false), s) /\
    List.length summaries = size (electronProcesses s) /\
    List.length listings = size (electronProcesses s) /\
    (forall x, List.In x summaries <->
               exists id r proc,
                 electronProcesses s !! id = Some r /\ heap s !! r = Some proc /\
                 x = mkSummary id (ElectronProcess.name proc)
                       (ElectronProcess.status proc) (ElectronProcess.pid proc)
                       (ElectronProcess.startTime proc)) /\
    (forall x, List.In x listings <->
               exists id r proc,
                 electronProcesses s !! id = Some r /\ heap s !! r = Some proc /\
                 x = mkListing id (ElectronProcess.name proc)
                       (ElectronProcess.status proc) (ElectronProcess.pid proc)
                       (ElectronProcess.startTime proc)
                       (ElectronProcess.appPath proc)
                       (ElectronProcess.debugPort proc)).
Proof.
  intros Hlive.
  pose proof (listing_spec
                (fun id proc => mkSummary id (ElectronProcess.name proc)
                                  (ElectronProcess.status proc) (ElectronProcess.pid proc)
                                  (ElectronProcess.startTime proc)) s Hlive)
    as [Hlen1 Hin1].
  pose proof (listing_spec
                (fun id proc => mkListing id (ElectronProcess.name proc)
                                  (ElectronProcess.status proc) (ElectronProcess.pid proc)
                                  (ElectronProcess.startTime proc)
                                  (ElectronProcess.appPath proc)
                                  (ElectronProcess.debugPort proc)) s Hlive)
    as [Hlen2 Hin2].
  eexists. eexists.
  split.
  { unfold readResource. rewrite parse_info. apply (readInfo_run w _ s Hlive). }
  split.
  { unfold callTool, tryCatch, runTool. unfold bind at 1. unfold bind at 1.
    unfold mapEntries. unfold bind at 1.
    rewrite (forEach_pure _ (fun entry : string * loc =>
               match heap s !! entry.2 with
               | Some proc =>
                   [mkListing entry.1 (ElectronProcess.name proc)
                      (ElectronProcess.status proc) (ElectronProcess.pid proc)
                      (ElectronProcess.startTime proc)
                      (ElectronProcess.appPath proc)
                      (ElectronProcess.debugPort proc)]
               | None => []
               end)).
    - reflexivity.
    - intros [id r] Hin. apply mapEntries_In in Hin.
      destruct (Hlive id r Hin) as [proc Hproc]. simpl.
      unfold bind. rewrite (deref_run r s proc Hproc), Hproc. reflexivity. }
  split; [exact Hlen1|]. split; [exact Hlen2|]. split; [exact Hin1 | exact Hin2].
Qed.

(** ** The targets resource *)

(** What one entry contributes to the targets listing. *)
Lemma readTargets_entry (w : World) (id : string) (r : loc) (s : State) :
  is_Some (heap s !! r) ->
  exists found s' calls,
    (let* p := deref r in
     if Status_eqb (ElectronProcess.status p) running
        && Js.truthyNumber (ElectronProcess.debugPort p)
     then
       tryCatch
         (let* _ := updateCDPTargets w r in
          let* p' := deref r in
          ret (List.map (fun target => (id, target))
                 (default [] (ElectronProcess.targets p'))))
         (fun _ => ret [])
     else ret []) s = (Ok found, s') /\
    electronProcesses s' = electronProcesses s /\
    clock s' = clock s /\
    trace s' = (trace s ++ calls)%list /\
    List.Forall isFetch calls /\
    (forall r', is_Some (heap s !! r') -> is_Some (heap s' !! r')) /\
    (forall x, List.In x found -> x.1 = id).
Proof.
  intros [p Hr]. unfold bind at 1. rewrite (deref_run r s p Hr).
  assert (Hskip : exists found s' calls,
    ret [] s = (Ok found, s') /\
    electronProcesses s' = electronProcesses s /\ clock s' = clock s /\
    trace s' = (trace s ++ calls)%list /\ List.Forall isFetch calls /\
    (forall r', is_Some (heap s !! r') -> is_Some (heap s' !! r')) /\
    (forall x : string * CDPTarget.t, List.In x found -> x.1 = id)).
  { exists [], s, []. rewrite List.app_nil_r.
    split; [reflexivity|]. split; [reflexivity|]. split; [reflexivity|].
    split; [reflexivity|]. split; [constructor|]. split; [auto|]. intros x []. }
  destruct (Status_eqb (ElectronProcess.status p) running); [|exact Hskip].
  destruct (Js.truthyNumber (ElectronProcess.debugPort p)) eqn:Htruthy; [|exact Hskip].
  assert (Hport : exists port, givenNumber (ElectronProcess.debugPort p) = Some port).
  { unfold givenNumber. destruct (ElectronProcess.debugPort p) as [z|]; [|discriminate].
    rewrite Htruthy. eexists. reflexivity. }
  destruct Hport as [port Hport].
  change (true && true) with true. cbv beta iota.
  unfold tryCatch. unfold bind at 1.
  destruct (updateCDPTargets_cases w r s p port Hr Hport) as [[targets ->] | [e ->]].
  - unfold bind at 1. unfold deref. simpl heap. rewrite lookup_insert_eq.
    eexists. eexists. exists [Fetch (discoveryUrl port)].
    split; [reflexivity|]. simpl.
    split; [reflexivity|]. split; [reflexivity|]. split; [reflexivity|].
    split; [constructor; [eexists; reflexivity | constructor]|].
    split.
    + intros r' [p' Hr']. destruct (decide (r = r')) as [<- | Hne].
      * rewrite lookup_insert_eq. eexists. reflexivity.
      * rewrite lookup_insert_ne by exact Hne. eexists. exact Hr'.
    + intros x Hx. apply List.in_map_iff in Hx. destruct Hx as (t & <- & _). reflexivity.
  - exists [], (afterFetch s port), [Fetch (discoveryUrl port)].
    split; [reflexivity|]. simpl.
    split; [reflexivity|]. split; [reflexivity|]. split; [reflexivity|].
    split; [constructor; [eexists; reflexivity | constructor]|].
    split; [auto|]. intros x [].
Qed.

(** X20.  The targets resource never fails on a process.  In a state
    whose process map holds only live records the read succeeds whatever
    discovery does for each record: a refresh that throws is not the
    failure of the read.  The calls made are discovery requests only, the
    process map and the clock are not changed, every reference of the map
    still designates a record, and every target listed is listed under a
    registered identifier. *)
Theorem targets_resource_never_fails (w : World) (s : State) :
  mapLive s ->
  exists allTargets s' calls,
    readResource w ELECTRON_RESOURCES.TARGETS s
      = (Ok (jsonResourceResponse ELECTRON_RESOURCES.TARGETS (TargetsPayload allTargets)),
         s') /\
    electronProcesses s' = electronProcesses s /\
    clock s' = clock s /\
    trace s' = (trace s ++ calls)%list /\
    List.Forall isFetch calls /\
    mapLive s' /\
    (forall x, List.In x allTargets -> is_Some (electronProcesses s !! x.1)).
Proof.
  intros Hlive. unfold readResource. rewrite parse_targets.
  unfold readTargets. unfold bind at 1. unfold mapEntries. unfold bind at 1.
  set (body := fun entry : string * loc => _).
  assert (Hloop : forall (entries : list (string * loc)) (s1 : State),
    (forall e, List.In e entries ->
               electronProcesses s !! e.1 = Some e.2 /\ is_Some (heap s1 !! e.2)) ->
    exists found s2 calls,
      forEach body entries s1 = (Ok found, s2) /\
      electronProcesses s2 = electronProcesses s1 /\
      clock s2 = clock s1 /\
      trace s2 = (trace s1 ++ calls)%list /\
      List.Forall isFetch calls /\
      (forall r', is_Some (heap s1 !! r') -> is_Some (heap s2 !! r')) /\
      (forall x, List.In x found -> is_Some (electronProcesses s !! x.1))).
  { induction entries as [| [id r] entries IH]; intros s1 Hentries.
    - exists [], s1, []. rewrite List.app_nil_r.
      split; [reflexivity|]. split; [reflexivity|]. split; [reflexivity|].
      split; [reflexivity|]. split; [constructor|]. split; [auto|]. intros x [].
    - destruct (Hentries (id, r) (or_introl eq_refl)) as [Hid Hr]. simpl in Hid, Hr.
      destruct (readTargets_entry w id r s1 Hr)
        as (found1 & sa & calls1 & Hrun1 & Hmap1 & Hclock1 & Htrace1 & Hcalls1
            & Hlive1 & Hids1).
      destruct (IH sa) as (found2 & sb & calls2 & Hrun2 & Hmap2 & Hclock2 & Htrace2
                           & Hcalls2 & Hlive2 & Hids2).
      { intros e He. destruct (Hentries e (or_intror He)) as [He1 He2].
        split; [exact He1 | apply Hlive1; exact He2]. }
      exists (found1 ++ found2)%list, sb, (calls1 ++ calls2)%list.
      split.
      { simpl. unfold bind at 1. subst body. cbv beta. rewrite Hrun1.
        unfold bind at 1. rewrite Hrun2. reflexivity. }
      split; [congruence|]. split; [congruence|].
      split; [rewrite Htrace2, Htrace1, List.app_assoc; reflexivity|].
      split; [apply List.Forall_app; split; assumption|].
      split; [intros r' Hr'; apply Hlive2, Hlive1; exact Hr'|].
      intros x Hx. apply List.in_app_or in Hx. destruct Hx as [Hx | Hx].
      + rewrite (Hids1 x Hx). rewrite Hid. eexists. reflexivity.
      + apply Hids2. exact Hx. }
  destruct (Hloop (map_to_list (electronProcesses s)) s)
    as (found & s' & calls & Hrun & Hmap & Hclock & Htrace & Hcalls & Hkeep & Hids).
  { intros [id r] He. apply mapEntries_In in He. split; [exact He|].
    apply (Hlive id r He). }
  rewrite Hrun. exists found, s', calls.
  split; [reflexivity|]. split; [exact Hmap|]. split; [exact Hclock|].
  split; [exact Htrace|]. split; [exact Hcalls|]. split; [|exact Hids].
  intros id r Hid. rewrite Hmap in Hid. apply Hkeep. apply (Hlive id r Hid).
Qed.

(** ** Tool calls *)

(** The loop of a reload of all targets never throws. *)
Lemma reloadEach_ok (w : World) (r : loc) (targets : list CDPTarget.t) :
  forall s, exists s', reloadEach w r targets s = (Ok tt, s').
Proof.
  induction targets as [| target targets IH]; intros s.
  - exists s. reflexivity.
  - simpl. unfold bind at 1. unfold tryCatch. unfold bind at 1.
    destruct (executeCDPCommand w r (CDPTarget.id target) "Page" "reload" [] s)
      as [[reply | e] s1]; apply IH.
Qed.

(** X21.  A reload of all targets is best effort.  For a registered
    running record, when the target id is omitted or empty, the reload
    tool always answers success with the target id "all" and no error
    flag, whatever happens to the reload of each cached target. *)
Theorem reload_all_always_succeeds (w : World) (s : State) (processId : string)
    (targetId : option string) (r : loc) (p : ElectronProcess.t) :
  electronProcesses s !! processId = Some r ->
  heap s !! r = Some p ->
  ElectronProcess.status p = running ->
  givenString targetId = None ->
  exists s',
    callTool w (electron_reload processId targetId) s
      = (Ok (mkToolResult (ReloadedPayload processId "all") false), s').
Proof.
  intros Hid Hr Hrun Hall. unfold callTool, tryCatch, runTool.
  unfold bind at 1. unfold bind at 1.
  rewrite (requireRunning_found s processId r p Hid Hr Hrun).
  unfold bind at 1. rewrite (deref_run r s p Hr). rewrite Hall.
  unfold bind at 1.
  destruct (ElectronProcess.targets p) as [targets|].
  - destruct (reloadEach_ok w r targets s) as [s' ->]. exists s'. reflexivity.
  - exists s. reflexivity.
Qed.

Lemma reloadEach_session (w : World) (r : loc) (p : ElectronProcess.t)
    (client : CDPClient) (targets : list CDPTarget.t) :
  ElectronProcess.cdpClient p = Some client ->
  forall s,
    heap s !! r = Some p ->
    reloadEach w r targets s =
      (Ok tt,
       withCalls s (List.repeat (Send client "Page.reload" (Some [])) (List.length targets))).
Proof.
  intros Hc. induction targets as [| target targets IH]; intros s Hr.
  - simpl. rewrite withCalls_nil. reflexivity.
  - simpl. unfold bind at 1. unfold tryCatch. unfold bind at 1.
    rewrite (executeCDPCommand_with_session w s r p client _ _ _ _ Hr Hc).
    assert (Hnext : forall result : Result Reply,
      (let (r0, s') :=
         match result with
         | Ok _ => ret tt (withCalls s [Send client "Page.reload" (Some [])])
         | Throw e => (Throw e, withCalls s [Send client "Page.reload" (Some [])])
         end in
       match r0 with
       | Ok a => (Ok a, s')
       | Throw _ => ret tt s'
       end) = (Ok tt, withCalls s [Send client "Page.reload" (Some [])])).
    { intros [reply | e]; reflexivity. }
    unfold withCalls in Hnext at 1 2. rewrite Hnext.
    rewrite IH by exact Hr. rewrite withCalls_app. reflexivity.
Qed.

(** X22.  A reload of all targets of a record that has a session sends
    one page reload per cached target, all of them on that one session,
    with empty params: the target ids play no part.  No other call is
    made and neither the record nor the process map changes. *)
Theorem reload_all_uses_one_session (w : World) (s : State) (processId : string)
    (targetId : option string) (r : loc) (p : ElectronProcess.t)
    (client : CDPClient) (targets : list CDPTarget.t) :
  electronProcesses s !! processId = Some r ->
  heap s !! r = Some p ->
  ElectronProcess.status p = running ->
  ElectronProcess.cdpClient p = Some client ->
  ElectronProcess.targets p = Some targets ->
  givenString targetId = None ->
  callTool w (electron_reload processId targetId) s
    = (Ok (mkToolResult (ReloadedPayload processId "all") false),
       withCalls s (List.repeat (Send client "Page.reload" (Some []))
                                (List.length targets))).
Proof.
  intros Hid Hr Hrun Hc Htargets Hall. unfold callTool, tryCatch, runTool.
  unfold bind at 1. unfold bind at 1.
  rewrite (requireRunning_found s processId r p Hid Hr Hrun).
  unfold bind at 1. rewrite (deref_run r s p Hr). rewrite Hall, Htargets.
  unfold bind at 1.
  rewrite (reloadEach_session w r p client targets Hc s Hr). reflexivity.
Qed.

(** X23.  The evaluate tool on a registered running record that has a
    session sends one runtime evaluation on that session, whose params are
    the expression and the return-by-value flag, the flag being true when
    it is omitted.  The result carries the reply as it came, with the
    process and target ids of the request and no error flag; a rejected
    send gives a result flagged as an error that carries the message of
    the rejection. *)
Theorem evaluate_tool_with_session (w : World) (s : State)
    (processId targetId expression : string) (returnByValue : option bool)
    (r : loc) (p : ElectronProcess.t) (client : CDPClient) :
  electronProcesses s !! processId = Some r ->
  heap s !! r = Some p ->
  ElectronProcess.status p = running ->
  ElectronProcess.cdpClient p = Some client ->
  let params : Params :=
    [("expression", PString expression);
     ("returnByValue", PBool (match returnByValue with
                              | Some flag => flag
                              | None => true
                              end))] in
  callTool w (electron_evaluate processId targetId expression returnByValue) s =
    (Ok match send w client "Runtime.evaluate" (Some params) with
        | inr reply => mkToolResult (EvaluatedPayload reply processId targetId) false
        | inl reason => mkToolResult (ErrorPayload reason) true
        end,
     withCalls s [Send client "Runtime.evaluate" (Some params)]).
Proof.
  intros Hid Hr Hrun Hc params.
  unfold callTool, tryCatch, runTool.
  unfold bind at 1. unfold bind at 1.
  rewrite (requireRunning_found s processId r p Hid Hr Hrun).
  unfold bind at 1.
  rewrite (executeCDPCommand_with_session w s r p client _ _ _ _ Hr Hc).
  subst params. unfold withCalls, sendResult.
  destruct returnByValue as [flag|]; simpl default;
    change (@Some (list (string * ParamValue))) with (@Some Params);
    change ("Runtime" ++ "." ++ "evaluate")%string with "Runtime.evaluate";
    match goal with
    | |- context [send w client ?m ?ps] => destruct (send w client m ps)
    end; reflexivity.
Qed.

(** X24.  The tools that act on a process answer an error result, and do
    nothing else, when the process is missing: for an identifier that is
    not registered or whose record is not running, reload, evaluate, pause
    and resume each make no call, change nothing and answer a result
    flagged as an error whose message names the identifier. *)
Theorem tools_on_missing_process (w : World) (s : State)
    (processId targetId expression : string) (optionalTarget : option string)
    (returnByValue : option bool) :
  (electronProcesses s !! processId = None \/
   exists r p, electronProcesses s !! processId = Some r /\ heap s !! r = Some p /\
               ElectronProcess.status p <> running) ->
  let refused :=
    (Ok (mkToolResult
           (ErrorPayload ("Process " ++ processId ++ " not found or not running")%string)
           true), s) in
  callTool w (electron_reload processId optionalTarget) s = refused /\
  callTool w (electron_evaluate processId targetId expression returnByValue) s = refused /\
  callTool w (electron_pause processId targetId) s = refused /\
  callTool w (electron_resume processId targetId) s = refused.
Proof.
  intros Hmissing refused. subst refused.
  pose proof (requireRunning_missing s processId Hmissing) as Hreq.
  repeat split; unfold callTool, tryCatch, runTool;
    unfold bind at 1; unfold bind at 1; rewrite Hreq; reflexivity.
Qed.

Lemma bind_ok {A B : Type} (m : M A) (k : A -> M B) (s s' : State) (b : B) :
  bind m k s = (Ok b, s') ->
  exists a s1, m s = (Ok a, s1) /\ k a s1 = (Ok b, s').
Proof.
  unfold bind. destruct (m s) as [[a | e] s1]; [|discriminate].
  intros Hk. exists a, s1. split; [reflexivity | exact Hk].
Qed.

(** What a case of the switch returns is never the payload of an error. *)
Lemma runTool_payload (w : World) (call : ToolCall) (s s' : State)
    (payload : ToolPayload) :
  (forall name, call <> otherTool name) ->
  runTool w call s = (Ok payload, s') ->
  forall error, payload <> ErrorPayload error.
Proof.
  intros Hcase Hrun error.
  destruct call; simpl in Hrun;
    try (exfalso; eapply Hcase; reflexivity);
    repeat (apply bind_ok in Hrun; destruct Hrun as (? & ? & _ & Hrun));
    unfold ret in Hrun; injection Hrun as <- _; discriminate.
Qed.

Lemma callTool_known (w : World) (call : ToolCall) (s : State) :
  (forall name, call <> otherTool name) ->
  callTool w call s =
    match runTool w call s with
    | (Ok payload, s1) => (Ok (mkToolResult payload false), s1)
    | (Throw e, s1) => (Ok (mkToolResult (ErrorPayload (message e)) true), s1)
    end.
Proof.
  intros Hcase.
  assert (Hgo : callTool w call s =
    tryCatch (let* payload := runTool w call in ret (mkToolResult payload false))
             (fun error => ret (mkToolResult (ErrorPayload (message error)) true)) s).
  { destruct call; try reflexivity. exfalso. eapply Hcase. reflexivity. }
  rewrite Hgo. unfold tryCatch. unfold bind at 1.
  destruct (runTool w call s) as [[payload | e] s1]; reflexivity.
Qed.

(** X25.  The tool handler never throws.  Every call that leaves the
    server running (a start whose spawn fails does not), for a tool known
    or not, in every state, yields a result; and the result is flagged as
    an error exactly when its payload is an error message: no case of the
    switch returns an error message, and whatever a case throws is turned
    into one. *)
Theorem call_tool_never_throws (w : World) (call : ToolCall) (s : State) :
  serverSurvives w call ->
  exists result s',
    callTool w call s = (Ok result, s') /\
    (isError result = true <-> exists error, tool_payload result = ErrorPayload error).
Proof.
  intros _.
  assert (Hcases : (exists name, call = otherTool name) \/
                   (forall name, call <> otherTool name)).
  { destruct call; try (right; intros name; discriminate). left. eexists. reflexivity. }
  destruct Hcases as [[name ->] | Hcase].
  - exists (mkToolResult (ErrorPayload ("Unknown tool: " ++ name)%string) true), s.
    split; [reflexivity|].
    split; [intros _; eexists; reflexivity | reflexivity].
  - rewrite (callTool_known w call s Hcase).
    destruct (runTool w call s) as [[payload | e] s1] eqn:Hrun.
    + exists (mkToolResult payload false), s1.
      split; [reflexivity|].
      split; [discriminate|]. intros [error Herr]. simpl in Herr.
      exfalso. exact (runTool_payload w call s s1 payload Hcase Hrun error Herr).
    + exists (mkToolResult (ErrorPayload (message e)) true), s1.
      split; [reflexivity|].
      split; [intros _; eexists; reflexivity | reflexivity].
Qed.

(** ** The URIs listed and the URIs parsed *)

Lemma slashFree_append (a b : string) :
  slashFree a = true -> slashFree b = true -> slashFree (a ++ b) = true.
Proof.
  induction a as [| c a IH]; intros Ha Hb; [exact Hb|].
  rewrite append_cons. simpl in *. apply andb_true_iff in Ha as [Hc Ha].
  rewrite Hc, (IH Ha Hb). reflexivity.
Qed.

Lemma slashFree_uint (d : Decimal.uint) : slashFree (NilEmpty.string_of_uint d) = true.
Proof. induction d; simpl; try rewrite IHd; reflexivity. Qed.

Lemma slashFree_number (n : Z) : slashFree (Js.numberToString n) = true.
Proof.
  unfold Js.numberToString, NilZero.string_of_int, NilZero.string_of_uint.
  destruct (Z.to_int n) as [d | d]; destruct d; simpl;
    try reflexivity; try apply slashFree_uint.
Qed.

(** The identifier of a start is fit to be a URI segment. *)
Lemma processId_isSegment (now : Z) : isSegment (processId now).
Proof.
  unfold isSegment, processId. split.
  - cbv [String.append]. discriminate.
  - apply slashFree_append; [reflexivity | apply slashFree_number].
Qed.

Lemma parse_cdp_segments (processId targetId : string) :
  isSegment processId ->
  isSegment targetId ->
  parseElectronResourceUri (ELECTRON_RESOURCES.CDP ++ processId ++ "/" ++ targetId)
    = RouteCdp processId targetId None.
Proof.
  intros [Hp Hpfree] [Ht Htfree]. rewrite parse_cdp_prefix. unfold parseCdpPath.
  change ("/" ++ targetId)%string with (String "/" targetId).
  rewrite (split_append processId targetId Hpfree), (split_slashFree targetId Htfree).
  apply nonEmpty_true in Hp. apply nonEmpty_true in Ht. rewrite Hp, Ht. reflexivity.
Qed.

Lemma listResources_run (s : State) :
  mapLive s ->
  listResources s =
    (Ok (staticResources
           ++ List.concat
                (List.map (fun entry : string * loc =>
                             match heap s !! entry.2 with
                             | Some p => processResources entry.1 p
                             | None => []
                             end)
                          (map_to_list (electronProcesses s))))%list, s).
Proof.
  intros Hlive. unfold listResources. unfold bind at 1. unfold mapEntries.
  unfold bind at 1.
  rewrite (forEach_pure _ (fun entry : string * loc =>
                             match heap s !! entry.2 with
                             | Some p => processResources entry.1 p
                             | None => []
                             end)).
  - reflexivity.
  - intros [id r] Hin. apply mapEntries_In in Hin.
    destruct (Hlive id r Hin) as [p Hp]. simpl.
    unfold bind. rewrite (deref_run r s p Hp), Hp. reflexivity.
Qed.

(** X26.  The URIs that the resource listing hands out are URIs that the
    parser takes back.  In a state whose process map holds only live
    records, whose identifiers are segments (not empty, without slash, as
    every identifier made by a start is) and whose cached target ids are
    segments, the listing succeeds without any call, and every URI listed
    parses to the route it was listed for: info, targets, the process or
    the logs of a registered identifier, or the metadata of a cached
    target of a registered identifier; and the process and logs URIs of
    every registered identifier, and the cdp URI of each of its cached
    targets, are listed. *)
Theorem listed_uris_parse_back (s : State) :
  mapLive s ->
  (forall id r, electronProcesses s !! id = Some r -> isSegment id) ->
  (forall r p targets target,
     heap s !! r = Some p -> ElectronProcess.targets p = Some targets ->
     List.In target targets -> isSegment (CDPTarget.id target)) ->
  (forall now, isSegment (processId now)) /\
  exists listed,
    listResources s = (Ok listed, s) /\
    (forall res, List.In res listed ->
       parseElectronResourceUri (listed_uri res) = RouteInfo \/
       parseElectronResourceUri (listed_uri res) = RouteTargets \/
       exists id r p,
         electronProcesses s !! id = Some r /\ heap s !! r = Some p /\
         (parseElectronResourceUri (listed_uri res) = RouteProcess id \/
          parseElectronResourceUri (listed_uri res) = RouteLogs id \/
          exists targets target,
            ElectronProcess.targets p = Some targets /\ List.In target targets /\
            parseElectronResourceUri (listed_uri res)
              = RouteCdp id (CDPTarget.id target) None)) /\
    (forall id r p,
       electronProcesses s !! id = Some r -> heap s !! r = Some p ->
       List.In (ELECTRON_RESOURCES.PROCESS ++ id)%string (List.map listed_uri listed) /\
       List.In (ELECTRON_RESOURCES.LOGS ++ id)%string (List.map listed_uri listed) /\
       (forall targets target,
          ElectronProcess.targets p = Some targets -> List.In target targets ->
          List.In (ELECTRON_RESOURCES.CDP ++ id ++ "/" ++ CDPTarget.id target)%string
                  (List.map listed_uri listed))).
Proof.
  intros Hlive Hids Htargets. split; [exact processId_isSegment|].
  eexists. split; [apply (listResources_run s Hlive)|]. split.
  - intros res Hres. apply List.in_app_or in Hres. destruct Hres as [Hres | Hres].
    + destruct Hres as [<- | [<- | []]]; [left | right; left]; reflexivity.
    + right. right. apply List.in_concat in Hres.
      destruct Hres as (chunk & Hchunk & Hres). apply List.in_map_iff in Hchunk.
      destruct Hchunk as ([id r] & <- & Hin). apply mapEntries_In in Hin.
      simpl in Hres. destruct (heap s !! r) as [p|] eqn:Hp; [|contradiction].
      exists id, r, p. split; [exact Hin|]. split; [exact Hp|].
      pose proof (Hids id r Hin) as Hseg.
      unfold processResources in Hres. apply List.in_app_or in Hres.
      destruct Hres as [[<- | [<- | []]] | Hres].
      * left. simpl. apply parse_process_prefix. apply Hseg.
      * right. left. simpl. apply parse_logs_prefix. apply Hseg.
      * right. right.
        destruct (ElectronProcess.targets p) as [targets|] eqn:Hcache; [|contradiction].
        apply List.in_map_iff in Hres. destruct Hres as (target & <- & Htarget).
        exists targets, target. split; [reflexivity|]. split; [exact Htarget|].
        simpl. apply parse_cdp_segments; [exact Hseg|].
        apply (Htargets r p targets target Hp Hcache Htarget).
  - intros id r p Hid Hp.
    assert (Hchunk : forall res, List.In res (processResources id p) ->
              List.In (listed_uri res)
                (List.map listed_uri
                   (staticResources
                      ++ List.concat
                           (List.map (fun entry : string * loc =>
                                        match heap s !! entry.2 with
                                        | Some p0 => processResources entry.1 p0
                                        | None => []
                                        end)
                                     (map_to_list (electronProcesses s))))%list)).
    { intros res Hres. apply List.in_map. apply List.in_or_app. right.
      apply List.in_concat. exists (processResources id p). split; [|exact Hres].
      apply List.in_map_iff. exists (id, r). simpl. rewrite Hp.
      split; [reflexivity|]. apply mapEntries_In. exact Hid. }
    assert (Hsub : forall u, List.In u (List.map listed_uri (processResources id p)) ->
              List.In u
                (List.map listed_uri
                   (staticResources
                      ++ List.concat
                           (List.map (fun entry : string * loc =>
                                        match heap s !! entry.2 with
                                        | Some p0 => processResources entry.1 p0
                                        | None => []
                                        end)
                                     (map_to_list (electronProcesses s))))%list)).
    { intros u Hu. apply List.in_map_iff in Hu. destruct Hu as (res & <- & Hres).
      apply Hchunk. exact Hres. }
    split; [|split].
    + apply Hsub. unfold processResources. simpl. left. reflexivity.
    + apply Hsub. unfold processResources. simpl. right. left. reflexivity.
    + intros targets target Hcache Htarget.
      apply Hsub. unfold processResources. rewrite List.map_app, Hcache.
      apply List.in_or_app. right. rewrite List.map_map.
      apply List.in_map_iff. exists target. split; [reflexivity | exact Htarget].
Qed.

(** ** The parser, read backwards *)

Lemma prefix_slice (p s : string) :
  String.prefix p s = true -> s = (p ++ Js.slice (String.length p) s)%string.
Proof.
  revert s. induction p as [| a p IH]; intros s Hpre.
  - rewrite append_nil. reflexivity.
  - destruct s as [| b s]; [discriminate|]. simpl in Hpre.
    destruct (ascii_dec a b) as [-> | _]; [|discriminate].
    rewrite append_cons. simpl. f_equal. apply IH. exact Hpre.
Qed.

Lemma join_split (s : string) : Js.join "/" (Js.split "/" s) = s.
Proof.
  unfold Js.join. induction s as [| c s IH]; [reflexivity|].
  simpl. destruct (Ascii.eqb_spec c "/") as [-> | Hne].
  - destruct (Js.split "/" s) as [| seg segs] eqn:Hsplit.
    + exfalso. exact (split_not_nil s Hsplit).
    + change (String.concat "/" ("" :: seg :: segs))
        with ("" ++ "/" ++ String.concat "/" (seg :: segs))%string.
      rewrite IH. reflexivity.
  - destruct (Js.split "/" s) as [| seg segs] eqn:Hsplit.
    + exfalso. exact (split_not_nil s Hsplit).
    + destruct segs as [| seg' segs].
      * simpl in *. rewrite IH. reflexivity.
      * change (String.concat "/" (String c seg :: seg' :: segs))
          with (String c seg ++ "/" ++ String.concat "/" (seg' :: segs))%string.
        change (String.concat "/" (seg :: seg' :: segs))
          with (seg ++ "/" ++ String.concat "/" (seg' :: segs))%string in IH.
        rewrite append_cons, IH. reflexivity.
Qed.

Lemma split_segments (s : string) :
  List.Forall (fun seg => slashFree seg = true) (Js.split "/" s).
Proof.
  induction s as [| c s IH]; simpl.
  - constructor; [reflexivity | constructor].
  - destruct (Ascii.eqb c "/") eqn:Hc.
    + constructor; [reflexivity | exact IH].
    + destruct (Js.split "/" s) as [| seg segs]; [constructor; [simpl|constructor]|].
      * rewrite Hc. reflexivity.
      * inversion IH as [| ? ? Hseg Hsegs]; subst.
        constructor; [simpl; rewrite Hc, Hseg; reflexivity | exact Hsegs].
Qed.

Lemma parseCdpPath_not_other (path : string) :
  parseCdpPath path <> RouteInfo /\ parseCdpPath path <> RouteTargets /\
  (forall id, parseCdpPath path <> RouteProcess id) /\
  (forall id, parseCdpPath path <> RouteLogs id).
Proof.
  unfold parseCdpPath.
  destruct (Js.split "/" path) as [| a [| b rest]];
    try (repeat split; intros; discriminate).
  destruct (Js.nonEmpty a && Js.nonEmpty b);
    [destruct (givenString _)|]; repeat split; intros; discriminate.
Qed.

(** X27.  The four simple routes, read backwards.  A URI parses to the
    info route exactly when it is the info URI, to the
    targets route exactly when it is the targets URI, and to the process
    (or logs) route of an identifier exactly when it is the process (or
    logs) prefix followed by that identifier, which is not empty. *)
Theorem parse_inverse_simple_routes (uri id : string) :
  (parseElectronResourceUri uri = RouteInfo <-> uri = ELECTRON_RESOURCES.INFO) /\
  (parseElectronResourceUri uri = RouteTargets <-> uri = ELECTRON_RESOURCES.TARGETS) /\
  (parseElectronResourceUri uri = RouteProcess id <->
   uri = (ELECTRON_RESOURCES.PROCESS ++ id)%string /\ id <> "") /\
  (parseElectronResourceUri uri = RouteLogs id <->
   uri = (ELECTRON_RESOURCES.LOGS ++ id)%string /\ id <> "").
Proof.
  assert (Hgiven : forall x y, givenString (Some x) = Some y -> x = y /\ y <> "").
  { intros x y. destruct x; [discriminate|]. intros [= <-]. split; [reflexivity | discriminate]. }
  split; [|split; [|split]].
  - split; [|intros ->; reflexivity].
    unfold parseElectronResourceUri.
    destruct (String.eqb_spec uri ELECTRON_RESOURCES.INFO) as [-> | _]; [reflexivity|].
    destruct (String.eqb uri ELECTRON_RESOURCES.TARGETS); [discriminate|].
    destruct (Js.startsWith uri ELECTRON_RESOURCES.CDP).
    + intros H. exfalso. exact (proj1 (parseCdpPath_not_other _) H).
    + unfold parseProcessOrLogs.
      repeat match goal with |- context [match ?x with _ => _ end] => destruct x end;
        discriminate.
  - split; [|intros ->; reflexivity].
    unfold parseElectronResourceUri.
    destruct (String.eqb uri ELECTRON_RESOURCES.INFO); [discriminate|].
    destruct (String.eqb_spec uri ELECTRON_RESOURCES.TARGETS) as [-> | _]; [reflexivity|].
    destruct (Js.startsWith uri ELECTRON_RESOURCES.CDP).
    + intros H. exfalso. exact (proj1 (proj2 (parseCdpPath_not_other _)) H).
    + unfold parseProcessOrLogs.
      repeat match goal with |- context [match ?x with _ => _ end] => destruct x end;
        discriminate.
  - split; [|intros [-> Hne]; apply parse_process_prefix; exact Hne].
    unfold parseElectronResourceUri.
    destruct (String.eqb uri ELECTRON_RESOURCES.INFO); [discriminate|].
    destruct (String.eqb uri ELECTRON_RESOURCES.TARGETS); [discriminate|].
    destruct (Js.startsWith uri ELECTRON_RESOURCES.CDP).
    + intros H. exfalso. exact (proj1 (proj2 (proj2 (parseCdpPath_not_other _))) id H).
    + unfold parseProcessOrLogs, Js.startsWith.
      destruct (String.prefix ELECTRON_RESOURCES.PROCESS uri) eqn:Hpre.
      * destruct (givenString (Some (Js.slice _ uri))) as [x|] eqn:Hx.
        -- intros [= <-]. apply Hgiven in Hx as [Hx Hne]. split; [|exact Hne].
           rewrite <- Hx. apply prefix_slice. exact Hpre.
        -- clear Hx. destruct (String.prefix ELECTRON_RESOURCES.LOGS uri);
             [destruct (givenString _)|]; cbv beta iota; discriminate.
      * destruct (String.prefix ELECTRON_RESOURCES.LOGS uri);
          [destruct (givenString _)|]; cbv beta iota; discriminate.
  - split; [|intros [-> Hne]; apply parse_logs_prefix; exact Hne].
    unfold parseElectronResourceUri.
    destruct (String.eqb uri ELECTRON_RESOURCES.INFO); [discriminate|].
    destruct (String.eqb uri ELECTRON_RESOURCES.TARGETS); [discriminate|].
    destruct (Js.startsWith uri ELECTRON_RESOURCES.CDP).
    + intros H. exfalso. exact (proj2 (proj2 (proj2 (parseCdpPath_not_other _))) id H).
    + unfold parseProcessOrLogs, Js.startsWith.
      destruct (String.prefix ELECTRON_RESOURCES.LOGS uri) eqn:Hpre.
      * destruct (givenString (Some (Js.slice (String.length ELECTRON_RESOURCES.LOGS) uri)))
          as [x|] eqn:Hx.
        -- destruct (String.prefix ELECTRON_RESOURCES.PROCESS uri);
             [destruct (givenString (Some (Js.slice (String.length ELECTRON_RESOURCES.PROCESS) uri)))|];
             cbv beta iota; try discriminate;
             intros [= <-]; apply Hgiven in Hx as [Hx Hne]; (split; [|exact Hne]);
             rewrite <- Hx; apply prefix_slice; exact Hpre.
        -- clear Hx. destruct (String.prefix ELECTRON_RESOURCES.PROCESS uri);
             [destruct (givenString _)|]; cbv beta iota; discriminate.
      * destruct (String.prefix ELECTRON_RESOURCES.PROCESS uri);
          [destruct (givenString _)|]; cbv beta iota; discriminate.
Qed.


Lemma parseProcessOrLogs_not_cdp (uri processId targetId : string)
    (commandPath : option string) :
  parseProcessOrLogs uri <> RouteCdp processId targetId commandPath.
Proof.
  unfold parseProcessOrLogs.
  repeat match goal with |- context [match ?x with _ => _ end] => destruct x end;
    discriminate.
Qed.

Lemma concat_cons2 (sep a b : string) (rest : list string) :
  String.concat sep (a :: b :: rest) = (a ++ sep ++ String.concat sep (b :: rest))%string.
Proof. reflexivity. Qed.

(** X28.  A URI parses to a cdp route only when it is the cdp prefix, the
    process identifier, a slash and the target identifier, followed by a
    slash and the command path when there is one.  Both identifiers are
    not empty and hold no slash, and a command path is never the empty
    string: a URI that ends in a slash right after the target identifier
    parses to the route without a command path. *)
Theorem parse_cdp_inverse (uri processId targetId : string)
    (commandPath : option string) :
  parseElectronResourceUri uri = RouteCdp processId targetId commandPath ->
  isSegment processId /\ isSegment targetId /\
  match commandPath with
  | Some command =>
      command <> "" /\
      uri = (ELECTRON_RESOURCES.CDP ++ processId ++ "/" ++ targetId ++ "/" ++ command)%string
  | None =>
      uri = (ELECTRON_RESOURCES.CDP ++ processId ++ "/" ++ targetId)%string \/
      uri = (ELECTRON_RESOURCES.CDP ++ processId ++ "/" ++ targetId ++ "/")%string
  end.
Proof.
  unfold parseElectronResourceUri.
  destruct (String.eqb uri ELECTRON_RESOURCES.INFO); [discriminate|].
  destruct (String.eqb uri ELECTRON_RESOURCES.TARGETS); [discriminate|].
  unfold Js.startsWith.
  destruct (String.prefix ELECTRON_RESOURCES.CDP uri) eqn:Hpre;
    [|intros H; exfalso; exact (parseProcessOrLogs_not_cdp _ _ _ _ H)].
  apply prefix_slice in Hpre.
  remember (Js.slice (String.length ELECTRON_RESOURCES.CDP) uri) as path eqn:Hpath.
  clear Hpath.
  pose proof (join_split path) as Hjoin.
  pose proof (split_segments path) as Hfree.
  unfold parseCdpPath, Js.join in *.
  destruct (Js.split "/" path) as [| a [| b rest]]; try discriminate.
  apply List.Forall_cons_iff in Hfree as [Ha Hrest].
  apply List.Forall_cons_iff in Hrest as [Hb _].
  destruct (Js.nonEmpty a) eqn:Hna; [|discriminate].
  destruct (Js.nonEmpty b) eqn:Hnb; [|discriminate].
  apply nonEmpty_true in Hna. apply nonEmpty_true in Hnb.
  cbv beta iota zeta. change (true && true) with true. cbv beta iota.
  rewrite concat_cons2 in Hjoin.
  destruct rest as [| c rest].
  - simpl. intros [= <- <- <-].
    split; [split; assumption|]. split; [split; assumption|].
    left. rewrite Hpre at 1. rewrite <- Hjoin. reflexivity.
  - rewrite concat_cons2 in Hjoin.
    change (0 <? List.length (c :: rest))%nat with true. cbv beta iota.
    unfold givenString, Js.truthyString.
    destruct (String.concat "/" (c :: rest)) as [| ch tail] eqn:Hcommand.
    + intros [= <- <- <-].
      split; [split; assumption|]. split; [split; assumption|].
      right. rewrite Hpre at 1. rewrite <- Hjoin. reflexivity.
    + intros [= <- <- <-].
      split; [split; assumption|]. split; [split; assumption|].
      split; [discriminate|].
      rewrite Hpre at 1. rewrite <- Hjoin. reflexivity.
Qed.

(** ** The lookup of the executable *)

Lemma firstExisting_spec (m : Executable.Machine) (paths : list string) :
  match Executable.firstExisting m paths with
  | Some found =>
      exists before after,
        paths = (before ++ found :: after)%list /\
        Executable.existsSync m found = true /\
        List.Forall (fun candidate => Executable.existsSync m candidate = false) before
  | None =>
      List.Forall (fun candidate => Executable.existsSync m candidate = false) paths
  end.
Proof.
  induction paths as [| candidate rest IH]; simpl.
  - constructor.
  - destruct (Executable.existsSync m candidate) eqn:Hexists.
    + exists [], rest. split; [reflexivity|]. split; [exact Hexists | constructor].
    + destruct (Executable.firstExisting m rest) as [found|].
      * destruct IH as (before & after & -> & Hfound & Hbefore).
        exists (candidate :: before), after.
        split; [reflexivity|]. split; [exact Hfound|].
        constructor; assumption.
      * constructor; assumption.
Qed.

(** X29.  The lookup of the Electron executable answers the first
    candidate path of the platform that exists, in the order the
    candidates are listed; when none of them exists it answers the bare
    command name, whatever the platform.  Every platform has at least
    three candidates, and on a platform other than Windows the
    [node_modules/.bin/electron] entry of the working directory is the
    answer whenever it exists. *)
Theorem executable_is_first_existing_candidate (m : Executable.Machine) :
  ((exists before after,
      Executable.possiblePaths m
        = (before ++ Executable.getElectronExecutablePath m :: after)%list /\
      Executable.existsSync m (Executable.getElectronExecutablePath m) = true /\
      List.Forall (fun candidate => Executable.existsSync m candidate = false) before)
   \/
   (List.Forall (fun candidate => Executable.existsSync m candidate = false)
      (Executable.possiblePaths m) /\
    Executable.getElectronExecutablePath m = "electron")) /\
  (3 <= List.length (Executable.possiblePaths m))%nat /\
  (Executable.existsSync m
     (Executable.pathResolve m
        [Executable.cwd m; "node_modules"; ".bin"; "electron"]) = true ->
   Executable.platform m <> Executable.win32 ->
   Executable.getElectronExecutablePath m
     = Executable.pathResolve m [Executable.cwd m; "node_modules"; ".bin"; "electron"]).
Proof.
  split; [|split].
  - unfold Executable.getElectronExecutablePath.
    pose proof (firstExisting_spec m (Executable.possiblePaths m)) as Hspec.
    destruct (Executable.firstExisting m (Executable.possiblePaths m)) as [found|].
    + left. exact Hspec.
    + right. split; [exact Hspec | reflexivity].
  - unfold Executable.possiblePaths. destruct (Executable.platform m); simpl; lia.
  - unfold Executable.getElectronExecutablePath, Executable.possiblePaths.
    destruct (Executable.platform m); intros Hexists Hplatform;
      [congruence| |]; simpl; rewrite Hexists; reflexivity.
Qed.

(** ** The figures of the debug info *)

(** X30.  When the record has a session and the metrics command answers a
    list of metrics, the debug info reports, for the main process, the
    value of the first metric named [CPUUsage] as CPU usage and of the
    first named [JSHeapUsedSize] as memory usage, and for the one renderer
    entry half of each of these values; a figure whose metric is missing
    from the list is reported as 0 in both entries.  The metrics command
    is the last call made. *)
Theorem debug_info_reports_metrics (w : World) (s : State) (id : string) (r : loc)
    (p : ElectronProcess.t) (client : CDPClient) (metrics : list Metric) :
  electronProcesses s !! id = Some r ->
  heap s !! r = Some p ->
  ElectronProcess.status p = running ->
  ElectronProcess.cdpClient p = Some client ->
  send w client "Performance.getMetrics" None = inr (ReplyMetrics metrics) ->
  exists info s' renderer earlier,
    getElectronDebugInfo w id s = (Ok (Some info), s') /\
    renderers info = [renderer] /\
    trace s' = (earlier ++ [Send client "Performance.getMetrics" None])%list /\
    match findMetric "CPUUsage" metrics with
    | Some metric =>
        cpuUsage (main info) = metric_value metric /\
        cpuUsage renderer = half (metric_value metric)
    | None =>
        cpuUsage (main info) = 0%float /\ cpuUsage renderer = 0%float
    end /\
    match findMetric "JSHeapUsedSize" metrics with
    | Some metric =>
        memoryUsage (main info) = metric_value metric /\
        memoryUsage renderer = half (metric_value metric)
    | None =>
        memoryUsage (main info) = 0%float /\ memoryUsage renderer = 0%float
    end.
Proof.
  intros Hid Hr Hrun Hclient Hsend.
  unfold getElectronDebugInfo. unfold bind at 1. unfold mapGet. rewrite Hid.
  unfold bind at 1. rewrite (deref_run r s p Hr), Hrun.
  change (negb (Status_eqb running running)) with false. cbv beta iota.
  unfold bind at 1. unfold tryCatch. unfold bind at 1.
  destruct (updateCDPTargets w r s) as [result s1] eqn:Hupd.
  destruct (updateCDPTargets_preserves w r s s1 p result Hr Hupd)
    as (p1 & Hr1 & Hc1 & Hpid1).
  rewrite Hclient in Hc1.
  assert (Hrest : exists info s' renderer,
    (let* p' := deref r in
     let* readings := collectReadings w p' in
     let pid := orZero (ElectronProcess.pid p') in
     ret (Some (mkDebugInfo (webContentsOf p')
                  (mkProcessInfo pid
                     (numberOrZero (mainCpuUsage readings))
                     (numberOrZero (mainMemoryUsage readings))
                     "running")
                  [mkProcessInfo (pid + 1)
                     (numberOrZero (rendererCpuUsage readings))
                     (numberOrZero (rendererMemoryUsage readings))
                     "running"]))) s1 = (Ok (Some info), s') /\
    renderers info = [renderer] /\
    trace s' = (trace s1 ++ [Send client "Performance.getMetrics" None])%list /\
    cpuUsage (main info) = numberOrZero (mainCpuUsage (readMetrics (ReplyMetrics metrics))) /\
    cpuUsage renderer = numberOrZero (rendererCpuUsage (readMetrics (ReplyMetrics metrics))) /\
    memoryUsage (main info) = numberOrZero (mainMemoryUsage (readMetrics (ReplyMetrics metrics))) /\
    memoryUsage renderer = numberOrZero (rendererMemoryUsage (readMetrics (ReplyMetrics metrics)))).
  { unfold bind at 1. rewrite (deref_run r s1 p1 Hr1). unfold bind at 1.
    unfold collectReadings. rewrite Hc1. unfold tryCatch. unfold bind at 1.
    rewrite sendCommand_run. unfold sendResult. rewrite Hsend.
    eexists. eexists. eexists. split; [reflexivity|]. simpl.
    repeat split; reflexivity. }
  destruct Hrest as (info & s' & renderer & Hrun' & Hrend & Htrace & Hcpu & Hrcpu
                     & Hmem & Hrmem).
  exists info, s', renderer, (trace s1).
  split; [destruct result as [targets | e]; exact Hrun'|].
  split; [exact Hrend|]. split; [exact Htrace|].
  rewrite Hcpu, Hrcpu, Hmem, Hrmem. simpl.
  split.
  - destruct (findMetric "CPUUsage" metrics); split; reflexivity.
  - destruct (findMetric "JSHeapUsedSize" metrics); split; reflexivity.
Qed.

(** * The further properties at concrete inputs *)

Lemma holding_mapLive (p : ElectronProcess.t) (now : Z) :
  mapLive (Scenario.holding p now).
Proof.
  intros id r Hr.
  change (({[ElectronProcess.id p := 0%nat]} : gmap string loc) !! id = Some r) in Hr.
  apply lookup_singleton_Some in Hr as [_ <-].
  exists p. reflexivity.
Qed.

(** X1 when every port of the range is taken. *)
Lemma start_no_port_available_witness :
  let w : World := Cases.noPort in
  let s : State := Scenario.fresh 1000 in
  let appPath : string := "/app" in
  let debugPort : option Z := None in
  let startupTimeout : option Z := None in
  (givenNumber debugPort = None) /\
  (forall q, 9222 <= q <= 9999 -> isPortAvailable w q = false) /\
  (startElectronApp w appPath debugPort startupTimeout s =
     (Throw NoPortAvailable, withCalls s (List.map Probe portRange)) /\
   List.length portRange = 778%nat /\
   (forall i, (i < 778)%nat -> List.nth_error portRange i = Some (9222 + Z.of_nat i))).
Proof.
  intros w s appPath debugPort startupTimeout.
  assert (H1 : givenNumber debugPort = None).
  { reflexivity. }
  assert (H2 : forall q, 9222 <= q <= 9999 -> isPortAvailable w q = false).
  { intros q Hq. reflexivity. }
  split; [exact H1|].
  split; [exact H2|].
  exact (start_no_port_available w s appPath debugPort startupTimeout H1 H2).
Defined.

(** X2 on the port argument 0, ports 9222 and 9223 taken. *)
Lemma start_scans_to_lowest_free_port_witness :
  let w : World := Cases.from9224 in
  let s : State := Scenario.fresh 1000 in
  let appPath : string := "/app" in
  let debugPort : option Z := Some 0 in
  let startupTimeout : option Z := None in
  let port : Z := 9224 in
  let pid : Z := 4050 in
  (givenNumber debugPort = None) /\
  (9222 <= port <= 9999) /\
  (isPortAvailable w port = true) /\
  (forall q, 9222 <= q < port -> isPortAvailable w q = false) /\
  (childPid (spawn w (getElectronExecutablePath w) (startArgs appPath port)) = Some pid) /\
  (exists r s' p' calls,
     startElectronApp w appPath debugPort startupTimeout s = (Ok r, s') /\
     heap s' !! r = Some p' /\
     ElectronProcess.debugPort p' = Some port /\
     ElectronProcess.pid p' = Some pid /\
     trace s' =
       (trace s ++ List.map Probe (portsBelow port ++ [port])
          ++ [Spawn (getElectronExecutablePath w) (startArgs appPath port)]
          ++ calls)%list /\
     List.Forall (isPollCall (discoveryUrl port)) calls).
Proof.
  intros w s appPath debugPort startupTimeout port pid.
  assert (H1 : givenNumber debugPort = None).
  { reflexivity. }
  assert (H2 : 9222 <= port <= 9999).
  { unfold port. lia. }
  assert (H3 : isPortAvailable w port = true).
  { reflexivity. }
  assert (H4 : forall q, 9222 <= q < port -> isPortAvailable w q = false).
  { intros q Hq. change ((9224 <=? q) = false). apply Z.leb_gt. unfold port in Hq. lia. }
  assert (H5 : childPid (spawn w (getElectronExecutablePath w) (startArgs appPath port)) = Some pid).
  { reflexivity. }
  split; [exact H1|].
  split; [exact H2|].
  split; [exact H3|].
  split; [exact H4|].
  split; [exact H5|].
  exact (start_scans_to_lowest_free_port w s appPath debugPort startupTimeout port pid H1 H2 H3 H4 H5).
Defined.

(** X3 on a start on the free port 9222. *)
Lemma start_registers_running_record_witness :
  let w : World := Scenario.online in
  let s : State := Scenario.fresh 1000 in
  let appPath : string := "/app" in
  let port : Z := 9222 in
  let startupTimeout : option Z := None in
  let pid : Z := 4050 in
  (1 <= port <= 65535) /\
  (isPortAvailable w port = true) /\
  (childPid (spawn w (getElectronExecutablePath w) (startArgs appPath port)) = Some pid) /\
  (exists r s' p' calls,
     startElectronApp w appPath (Some port) startupTimeout s = (Ok r, s') /\
     heap s !! r = None /\
     heap s' !! r = Some p' /\
     ElectronProcess.id p' = processId (clock s) /\
     ElectronProcess.debugPort p' = Some port /\
     ElectronProcess.process p'
       = spawn w (getElectronExecutablePath w) (startArgs appPath port) /\
     ElectronProcess.pid p' = Some pid /\
     ElectronProcess.name p' = basename w appPath /\
     ElectronProcess.appPath p' = appPath /\
     ElectronProcess.cdpClient p' = None /\
     (forall r', r' <> r -> heap s' !! r' = heap s !! r') /\
     (forall id', id' <> processId (clock s) ->
                  electronProcesses s' !! id' = electronProcesses s !! id') /\
     trace s' =
       (trace s ++ [Probe port; Spawn (getElectronExecutablePath w) (startArgs appPath port)]
          ++ calls)%list /\
     List.Forall (isPollCall (discoveryUrl port)) calls /\
     (staysAlive w (ElectronProcess.process p') ->
      electronProcesses s' = <[processId (clock s) := r]> (electronProcesses s) /\
      ElectronProcess.status p' = running) /\
     (staysQuiet w (ElectronProcess.process p') -> ElectronProcess.logs p' = [])).
Proof.
  intros w s appPath port startupTimeout pid.
  assert (H1 : 1 <= port <= 65535).
  { unfold port. lia. }
  assert (H2 : isPortAvailable w port = true).
  { reflexivity. }
  assert (H3 : childPid (spawn w (getElectronExecutablePath w) (startArgs appPath port)) = Some pid).
  { reflexivity. }
  split; [exact H1|].
  split; [exact H2|].
  split; [exact H3|].
  exact (start_registers_running_record w s appPath port startupTimeout pid H1 H2 H3).
Defined.

(** X4 on a start whose debugging port never answers, with a timeout of one second and a child that writes while the start waits. *)
Lemma start_survives_discovery_timeout_witness :
  let w : World := Cases.chatty in
  let s : State := Scenario.fresh 1000 in
  let appPath : string := "/app" in
  let port : Z := 9222 in
  let startupTimeout : option Z := Some 1000 in
  let pid : Z := 4050 in
  (1 <= port <= 65535) /\
  (isPortAvailable w port = true) /\
  (discoveryDown w (discoveryUrl port)) /\
  (childPid (spawn w (getElectronExecutablePath w) (startArgs appPath port)) = Some pid) /\
  (exists r s' p',
     startElectronApp w appPath (Some port) startupTimeout s = (Ok r, s') /\
     heap s' !! r = Some p' /\
     ElectronProcess.pid p' = Some pid /\
     ElectronProcess.targets p' = None /\
     default 30000 startupTimeout <= clock s' - clock s /\
     (staysAlive w (ElectronProcess.process p') ->
      electronProcesses s' !! processId (clock s) = Some r /\
      ElectronProcess.status p' = running)).
Proof.
  intros w s appPath port startupTimeout pid.
  assert (H1 : 1 <= port <= 65535).
  { unfold port. lia. }
  assert (H2 : isPortAvailable w port = true).
  { reflexivity. }
  assert (H3 : discoveryDown w (discoveryUrl port)).
  { intros t targets statusText Hfetch. discriminate Hfetch. }
  assert (H4 : childPid (spawn w (getElectronExecutablePath w) (startArgs appPath port)) = Some pid).
  { reflexivity. }
  split; [exact H1|].
  split; [exact H2|].
  split; [exact H3|].
  split; [exact H4|].
  exact (start_survives_discovery_timeout w s appPath port startupTimeout pid H1 H2 H3 H4).
Defined.

(** X5 on a start whose debugging port answers the first request. *)
Lemma start_caches_first_discovery_witness :
  let w : World := Scenario.online in
  let s : State := Scenario.fresh 1000 in
  let appPath : string := "/app" in
  let port : Z := 9222 in
  let startupTimeout : option Z := None in
  let statusText : string := "OK" in
  let targets : list CDPTarget.t := [Scenario.target1] in
  let pid : Z := 4050 in
  (1 <= port <= 65535) /\
  (isPortAvailable w port = true) /\
  (fetch w (clock s) (discoveryUrl port) = FetchResponse true statusText (JsonTargets targets)) /\
  (0 < default 30000 startupTimeout) /\
  (childPid (spawn w (getElectronExecutablePath w) (startArgs appPath port)) = Some pid) /\
  (exists r s' p',
     startElectronApp w appPath (Some port) startupTimeout s = (Ok r, s') /\
     heap s' !! r = Some p' /\
     ElectronProcess.pid p' = Some pid /\
     ElectronProcess.targets p' = Some targets /\
     trace s' =
       (trace s ++ [Probe port;
                    Spawn (getElectronExecutablePath w) (startArgs appPath port);
                    Fetch (discoveryUrl port)])%list /\
     (staysAlive w (ElectronProcess.process p') ->
      electronProcesses s' !! processId (clock s) = Some r /\
      ElectronProcess.status p' = running)).
Proof.
  intros w s appPath port startupTimeout statusText targets pid.
  assert (H1 : 1 <= port <= 65535).
  { unfold port. lia. }
  assert (H2 : isPortAvailable w port = true).
  { reflexivity. }
  assert (H3 : fetch w (clock s) (discoveryUrl port) = FetchResponse true statusText (JsonTargets targets)).
  { reflexivity. }
  assert (H4 : 0 < default 30000 startupTimeout).
  { reflexivity. }
  assert (H5 : childPid (spawn w (getElectronExecutablePath w) (startArgs appPath port)) = Some pid).
  { reflexivity. }
  split; [exact H1|].
  split; [exact H2|].
  split; [exact H3|].
  split; [exact H4|].
  split; [exact H5|].
  exact (start_caches_first_discovery w s appPath port startupTimeout statusText targets pid H1 H2 H3 H4 H5).
Defined.

(** X6 on a start from the empty map, of a child that writes and does not exit, then a stop. *)
Lemma stop_after_start_witness :
  let w : World := Cases.chatty in
  let s : State := Scenario.fresh 1000 in
  let appPath : string := "/app" in
  let port : Z := 9222 in
  let startupTimeout : option Z := None in
  let pid : Z := 4050 in
  (1 <= port <= 65535) /\
  (isPortAvailable w port = true) /\
  (childPid (spawn w (getElectronExecutablePath w) (startArgs appPath port)) = Some pid) /\
  (staysAlive w (spawn w (getElectronExecutablePath w) (startArgs appPath port))) /\
  (electronProcesses s !! processId (clock s) = None) /\
  (exists r s1 s2 p2 calls,
     startElectronApp w appPath (Some port) startupTimeout s = (Ok r, s1) /\
     stopElectronApp w (processId (clock s)) s1 = (Ok true, s2) /\
     electronProcesses s2 = electronProcesses s /\
     trace s2 =
       (calls ++ [Kill (spawn w (getElectronExecutablePath w) (startArgs appPath port))])%list /\
     heap s2 !! r = Some p2 /\
     ElectronProcess.status p2 = stopped).
Proof.
  intros w s appPath port startupTimeout pid.
  assert (H1 : 1 <= port <= 65535).
  { unfold port. lia. }
  assert (H2 : isPortAvailable w port = true).
  { reflexivity. }
  assert (H3 : childPid (spawn w (getElectronExecutablePath w) (startArgs appPath port)) = Some pid).
  { reflexivity. }
  assert (H4 : staysAlive w (spawn w (getElectronExecutablePath w) (startArgs appPath port))).
  { intros n. reflexivity. }
  assert (H5 : electronProcesses s !! processId (clock s) = None).
  { reflexivity. }
  split; [exact H1|].
  split; [exact H2|].
  split; [exact H3|].
  split; [exact H4|].
  split; [exact H5|].
  exact (stop_after_start w s appPath port startupTimeout pid H1 H2 H3 H4 H5).
Defined.

(** X7 on a connected record whose child exits with code 1. *)
Lemma exit_handler_contract_witness :
  let w : World := Scenario.online in
  let s : State := Scenario.holding Scenario.record1Connected 3000 in
  let id : string := "electron-1000" in
  let r : loc := 0%nat in
  let p : ElectronProcess.t := Scenario.record1Connected in
  let code : option Z := Some 1 in
  (heap s !! r = Some p) /\
  (exists s' p',
     onExit w id r code s = (Ok tt, s') /\
     electronProcesses s' = delete id (electronProcesses s) /\
     trace s' = (trace s ++ closeCalls p)%list /\
     heap s' !! r = Some p' /\
     (ElectronProcess.status p' = stopped <-> code = Some 0) /\
     (ElectronProcess.status p' = crashed <-> code <> Some 0) /\
     ElectronProcess.cdpClient p' = None /\
     ElectronProcess.logs p' = ElectronProcess.logs p /\
     requireRunningElectronProcess id s' = (Throw (ProcessNotRunning id), s')).
Proof.
  intros w s id r p code.
  assert (H1 : heap s !! r = Some p).
  { reflexivity. }
  split; [exact H1|].
  exact (exit_handler_contract w s id r p code H1).
Defined.

(** X8 on a connected record whose child is ended by a signal. *)
Lemma stop_and_exit_compose_witness :
  let w : World := Scenario.online in
  let s : State := Scenario.holding Scenario.record1Connected 3000 in
  let id : string := "electron-1000" in
  let r : loc := 0%nat in
  let p : ElectronProcess.t := Scenario.record1Connected in
  let code : option Z := None in
  (electronProcesses s !! id = Some r) /\
  (heap s !! r = Some p) /\
  ((exists s1 s2 p2,
      stopElectronApp w id s = (Ok true, s1) /\
      onExit w id r code s1 = (Ok tt, s2) /\
      trace s1 = (trace s ++ closeCalls p ++ [Kill (ElectronProcess.process p)])%list /\
      trace s2 = trace s1 /\
      electronProcesses s2 = electronProcesses s1 /\
      electronProcesses s2 !! id = None /\
      heap s2 !! r = Some p2 /\
      ElectronProcess.status p2 = exitStatus code) /\
   (exists s1,
      onExit w id r code s = (Ok tt, s1) /\
      trace s1 = (trace s ++ closeCalls p)%list /\
      stopElectronApp w id s1 = (Ok false, s1))).
Proof.
  intros w s id r p code.
  assert (H1 : electronProcesses s !! id = Some r).
  { reflexivity. }
  assert (H2 : heap s !! r = Some p).
  { reflexivity. }
  split; [exact H1|].
  split; [exact H2|].
  exact (stop_and_exit_compose w s id r p code H1 H2).
Defined.

(** X9 on a cache that is one second old. *)
Lemma connect_on_fresh_cache_witness :
  let w : World := Scenario.online in
  let s : State := Scenario.holding Scenario.record1 3000 in
  let r : loc := 0%nat in
  let p : ElectronProcess.t := Scenario.record1 in
  let port : Z := 9222 in
  let cached : list CDPTarget.t := [Scenario.target1] in
  let last : Z := 2000 in
  let targetId : string := "t1" in
  let target : CDPTarget.t := Scenario.target1 in
  let client : CDPClient := Client 7 in
  (heap s !! r = Some p) /\
  (givenNumber (ElectronProcess.debugPort p) = Some port) /\
  (ElectronProcess.targets p = Some cached) /\
  (ElectronProcess.lastTargetUpdate p = Some last) /\
  (clock s - last <= 5000) /\
  (Js.find (fun t => String.eqb (CDPTarget.id t) targetId) cached = Some target) /\
  (CDP w targetId port = inr client) /\
  (exists s',
     connectToCDPTarget w r targetId s = (Ok client, s') /\
     trace s' = (trace s ++ [Connect targetId port])%list /\
     heap s' !! r = Some (ElectronProcess.setCdpClient (Some client) p) /\
     (forall r', r' <> r -> heap s' !! r' = heap s !! r') /\
     electronProcesses s' = electronProcesses s).
Proof.
  intros w s r p port cached last targetId target client.
  assert (H1 : heap s !! r = Some p).
  { reflexivity. }
  assert (H2 : givenNumber (ElectronProcess.debugPort p) = Some port).
  { reflexivity. }
  assert (H3 : ElectronProcess.targets p = Some cached).
  { reflexivity. }
  assert (H4 : ElectronProcess.lastTargetUpdate p = Some last).
  { reflexivity. }
  assert (H5 : clock s - last <= 5000).
  { unfold s, last. simpl. lia. }
  assert (H6 : Js.find (fun t => String.eqb (CDPTarget.id t) targetId) cached = Some target).
  { reflexivity. }
  assert (H7 : CDP w targetId port = inr client).
  { reflexivity. }
  split; [exact H1|].
  split; [exact H2|].
  split; [exact H3|].
  split; [exact H4|].
  split; [exact H5|].
  split; [exact H6|].
  split; [exact H7|].
  exact (connect_on_fresh_cache w s r p port cached last targetId target client H1 H2 H3 H4 H5 H6 H7).
Defined.

(** X10 on a target that the fresh cache does not hold. *)
Lemma connect_failure_keeps_record_witness :
  let w : World := Scenario.online in
  let s : State := Scenario.holding Scenario.record1 3000 in
  let r : loc := 0%nat in
  let p : ElectronProcess.t := Scenario.record1 in
  let port : Z := 9222 in
  let cached : list CDPTarget.t := [Scenario.target1] in
  let last : Z := 2000 in
  let targetId : string := "t2" in
  (heap s !! r = Some p) /\
  (givenNumber (ElectronProcess.debugPort p) = Some port) /\
  (ElectronProcess.targets p = Some cached) /\
  (ElectronProcess.lastTargetUpdate p = Some last) /\
  (clock s - last <= 5000) /\
  ((Js.find (fun t => String.eqb (CDPTarget.id t) targetId) cached = None ->
    connectToCDPTarget w r targetId s = (Throw (TargetNotFound targetId), s)) /\
   (forall target reason,
      Js.find (fun t => String.eqb (CDPTarget.id t) targetId) cached = Some target ->
      CDP w targetId port = inl reason ->
      connectToCDPTarget w r targetId s
        = (Throw (ConnectRejected reason), withCalls s [Connect targetId port]))).
Proof.
  intros w s r p port cached last targetId.
  assert (H1 : heap s !! r = Some p).
  { reflexivity. }
  assert (H2 : givenNumber (ElectronProcess.debugPort p) = Some port).
  { reflexivity. }
  assert (H3 : ElectronProcess.targets p = Some cached).
  { reflexivity. }
  assert (H4 : ElectronProcess.lastTargetUpdate p = Some last).
  { reflexivity. }
  assert (H5 : clock s - last <= 5000).
  { unfold s, last. simpl. lia. }
  split; [exact H1|].
  split; [exact H2|].
  split; [exact H3|].
  split; [exact H4|].
  split; [exact H5|].
  exact (connect_failure_keeps_record w s r p port cached last targetId H1 H2 H3 H4 H5).
Defined.

(** X11 on a cache that is eight seconds old. *)
Lemma connect_refreshes_first_witness :
  let w : World := Scenario.online in
  let s : State := Scenario.holding Scenario.record1 10000 in
  let r : loc := 0%nat in
  let p : ElectronProcess.t := Scenario.record1 in
  let port : Z := 9222 in
  let targetId : string := "t1" in
  let statusText : string := "OK" in
  let targets : list CDPTarget.t := [Scenario.target1] in
  (heap s !! r = Some p) /\
  (givenNumber (ElectronProcess.debugPort p) = Some port) /\
  (needsRefresh p (clock s) = true) /\
  (fetch w (clock s) (discoveryUrl port) = FetchResponse true statusText (JsonTargets targets)) /\
  ((forall target client,
      Js.find (fun t => String.eqb (CDPTarget.id t) targetId) targets = Some target ->
      CDP w targetId port = inr client ->
      exists s',
        connectToCDPTarget w r targetId s = (Ok client, s') /\
        trace s' = (trace s ++ [Fetch (discoveryUrl port); Connect targetId port])%list /\
        heap s' !! r =
          Some (ElectronProcess.setCdpClient (Some client)
                  (ElectronProcess.setTargets targets (clock s) p))) /\
   (Js.find (fun t => String.eqb (CDPTarget.id t) targetId) targets = None ->
    exists s',
      connectToCDPTarget w r targetId s = (Throw (TargetNotFound targetId), s') /\
      trace s' = (trace s ++ [Fetch (discoveryUrl port)])%list /\
      heap s' !! r = Some (ElectronProcess.setTargets targets (clock s) p))).
Proof.
  intros w s r p port targetId statusText targets.
  assert (H1 : heap s !! r = Some p).
  { reflexivity. }
  assert (H2 : givenNumber (ElectronProcess.debugPort p) = Some port).
  { reflexivity. }
  assert (H3 : needsRefresh p (clock s) = true).
  { reflexivity. }
  assert (H4 : fetch w (clock s) (discoveryUrl port) = FetchResponse true statusText (JsonTargets targets)).
  { reflexivity. }
  split; [exact H1|].
  split; [exact H2|].
  split; [exact H3|].
  split; [exact H4|].
  exact (connect_refreshes_first w s r p port targetId statusText targets H1 H2 H3 H4).
Defined.

(** X12 on an evaluation on one target, then a reload addressed to another. *)
Lemma first_session_carries_later_commands_witness :
  let w : World := Scenario.online in
  let s : State := Scenario.holding Scenario.record1 3000 in
  let s1 : State := snd (connectToCDPTarget Scenario.online 0%nat "t1" (Scenario.holding Scenario.record1 3000)) in
  let r : loc := 0%nat in
  let p : ElectronProcess.t := Scenario.record1 in
  let client : CDPClient := Client 7 in
  let target1 : string := "t1" in
  let domain1 : string := "Runtime" in
  let command1 : string := "evaluate" in
  let params1 : Params := [("expression", PString "1+1")] in
  let target2 : string := "t2" in
  let domain2 : string := "Page" in
  let command2 : string := "reload" in
  let params2 : Params := [] in
  (heap s !! r = Some p) /\
  (ElectronProcess.cdpClient p = None) /\
  (connectToCDPTarget w r target1 s = (Ok client, s1)) /\
  (let first := executeCDPCommand w r target1 domain1 command1 params1 s in
   let second := executeCDPCommand w r target2 domain2 command2 params2 (snd first) in
   fst first = sendResult w client (domain1 ++ "." ++ command1) (Some params1) /\
   trace (snd first)
     = (trace s1 ++ [Send client (domain1 ++ "." ++ command1) (Some params1)])%list /\
   fst second = sendResult w client (domain2 ++ "." ++ command2) (Some params2) /\
   trace (snd second)
     = (trace (snd first) ++ [Send client (domain2 ++ "." ++ command2) (Some params2)])%list /\
   heap (snd second) = heap s1).
Proof.
  intros w s s1 r p client target1 domain1 command1 params1 target2 domain2 command2 params2.
  assert (H1 : heap s !! r = Some p).
  { reflexivity. }
  assert (H2 : ElectronProcess.cdpClient p = None).
  { reflexivity. }
  assert (H3 : connectToCDPTarget w r target1 s = (Ok client, s1)).
  { reflexivity. }
  split; [exact H1|].
  split; [exact H2|].
  split; [exact H3|].
  exact (first_session_carries_later_commands w s s1 r p client target1 domain1 command1 params1 target2 domain2 command2 params2 H1 H2 H3).
Defined.

(** X13 on a record without a debugging port. *)
Lemma no_debug_port_no_call_witness :
  let w : World := Scenario.online in
  let s : State := Scenario.holding Cases.recordNoPort 3000 in
  let r : loc := 0%nat in
  let p : ElectronProcess.t := Cases.recordNoPort in
  let targetId : string := "t1" in
  let domain : string := "Page" in
  let command : string := "reload" in
  let params : Params := [] in
  (heap s !! r = Some p) /\
  (givenNumber (ElectronProcess.debugPort p) = None) /\
  (updateCDPTargets w r s = (Throw NoDebugPort, s) /\
   connectToCDPTarget w r targetId s = (Throw NoDebugPort, s) /\
   (ElectronProcess.cdpClient p = None ->
    executeCDPCommand w r targetId domain command params s = (Throw NoDebugPort, s))).
Proof.
  intros w s r p targetId domain command params.
  assert (H1 : heap s !! r = Some p).
  { reflexivity. }
  assert (H2 : givenNumber (ElectronProcess.debugPort p) = None).
  { reflexivity. }
  split; [exact H1|].
  split; [exact H2|].
  exact (no_debug_port_no_call w s r p targetId domain command params H1 H2).
Defined.

(** X14 on an identifier that the map does not hold. *)
Lemma process_resource_of_missing_process_witness :
  let w : World := Scenario.online in
  let s : State := Scenario.fresh 1000 in
  let id : string := "electron-1" in
  (id <> "") /\
  (electronProcesses s !! id = None \/
   exists r p, electronProcesses s !! id = Some r /\ heap s !! r = Some p /\
               ElectronProcess.status p <> running) /\
  (getElectronDebugInfo w id s = (Ok None, s) /\
   readResource w (ELECTRON_RESOURCES.PROCESS ++ id) s = (Throw (ProcessNotRunning id), s)).
Proof.
  intros w s id.
  assert (H1 : id <> "").
  { discriminate. }
  assert (H2 : electronProcesses s !! id = None \/
   exists r p, electronProcesses s !! id = Some r /\ heap s !! r = Some p /\
               ElectronProcess.status p <> running).
  { left. reflexivity. }
  split; [exact H1|].
  split; [exact H2|].
  exact (process_resource_of_missing_process w s id H1 H2).
Defined.

(** X15 on a running record without a session. *)
Lemma debug_info_always_answers_witness :
  let w : World := Scenario.online in
  let s : State := Scenario.holding Scenario.record1 3000 in
  let id : string := "electron-1000" in
  let r : loc := 0%nat in
  let p : ElectronProcess.t := Scenario.record1 in
  (electronProcesses s !! id = Some r) /\
  (heap s !! r = Some p) /\
  (ElectronProcess.status p = running) /\
  (exists info s' p1 renderer,
     getElectronDebugInfo w id s = (Ok (Some info), s') /\
     electronProcesses s' = electronProcesses s /\
     heap s' !! r = Some p1 /\
     ElectronProcess.cdpClient p1 = ElectronProcess.cdpClient p /\
     webContents info = webContentsOf p1 /\
     List.length (webContents info) =
       match ElectronProcess.targets p1 with
       | Some targets => List.length targets
       | None => 1%nat
       end /\
     info_pid (main info) = orZero (ElectronProcess.pid p) /\
     info_status (main info) = "running" /\
     renderers info = [renderer] /\
     info_pid renderer = orZero (ElectronProcess.pid p) + 1 /\
     info_status renderer = "running").
Proof.
  intros w s id r p.
  assert (H1 : electronProcesses s !! id = Some r).
  { reflexivity. }
  assert (H2 : heap s !! r = Some p).
  { reflexivity. }
  assert (H3 : ElectronProcess.status p = running).
  { reflexivity. }
  split; [exact H1|].
  split; [exact H2|].
  split; [exact H3|].
  exact (debug_info_always_answers w s id r p H1 H2 H3).
Defined.

(** X16 on the record whose buffer is at the cap. *)
Lemma logs_resource_witness :
  let w : World := Scenario.online in
  let s : State := Scenario.holding Scenario.recordFull 3000 in
  let id : string := "electron-1000" in
  (id <> "") /\
  (let uri := (ELECTRON_RESOURCES.LOGS ++ id)%string in
   (electronProcesses s !! id = None ->
    readResource w uri s = (Throw (ProcessNotFound id), s)) /\
   (forall r p,
      electronProcesses s !! id = Some r ->
      heap s !! r = Some p ->
      readResource w uri s =
        (Ok (textResourceResponse uri
               (Js.join (String (ascii_of_nat 10) "") (ElectronProcess.logs p))), s))).
Proof.
  intros w s id.
  assert (H1 : id <> "").
  { discriminate. }
  split; [exact H1|].
  exact (logs_resource w s id H1).
Defined.

(** X17 on a cached target of a running record. *)
Lemma cdp_metadata_read_witness :
  let w : World := Scenario.online in
  let s : State := Scenario.holding Scenario.record1 3000 in
  let uri : string := "electron://cdp/electron-1000/t1" in
  let processId : string := "electron-1000" in
  let targetId : string := "t1" in
  let r : loc := 0%nat in
  let p : ElectronProcess.t := Scenario.record1 in
  (electronProcesses s !! processId = Some r) /\
  (heap s !! r = Some p) /\
  (ElectronProcess.status p = running) /\
  ((forall target,
      findTarget p targetId = Some target ->
      readCdp w uri processId targetId None s
        = (Ok (jsonResourceResponse uri (TargetPayload target)), s)) /\
   (forall port,
      findTarget p targetId = None ->
      givenNumber (ElectronProcess.debugPort p) = Some port ->
      match fetch w (clock s) (discoveryUrl port) with
      | FetchResponse true _ (JsonTargets targets) =>
          let refreshed := ElectronProcess.setTargets targets (clock s) p in
          let s' := mkState (<[r := refreshed]> (heap s)) (electronProcesses s)
                            (clock s) (trace s ++ [Fetch (discoveryUrl port)]) in
          readCdp w uri processId targetId None s =
            match findTarget refreshed targetId with
            | Some target => (Ok (jsonResourceResponse uri (TargetPayload target)), s')
            | None => (Throw (TargetNotInProcess targetId processId), s')
            end
      | _ =>
          readCdp w uri processId targetId None s
            = (Throw (TargetNotInProcess targetId processId), afterFetch s port)
      end)).
Proof.
  intros w s uri processId targetId r p.
  assert (H1 : electronProcesses s !! processId = Some r).
  { reflexivity. }
  assert (H2 : heap s !! r = Some p).
  { reflexivity. }
  assert (H3 : ElectronProcess.status p = running).
  { reflexivity. }
  split; [exact H1|].
  split; [exact H2|].
  split; [exact H3|].
  exact (cdp_metadata_read w s uri processId targetId r p H1 H2 H3).
Defined.

(** X18 on the reload command read over an open session. *)
Lemma cdp_command_read_witness :
  let w : World := Scenario.online in
  let s : State := Scenario.holding Scenario.record1Connected 3000 in
  let uri : string := "electron://cdp/electron-1000/t1/Page/reload" in
  let processId : string := "electron-1000" in
  let targetId : string := "t1" in
  let domain : string := "Page" in
  let method : string := "reload" in
  let r : loc := 0%nat in
  let p : ElectronProcess.t := Scenario.record1Connected in
  let client : CDPClient := Client 7 in
  (electronProcesses s !! processId = Some r) /\
  (heap s !! r = Some p) /\
  (ElectronProcess.status p = running) /\
  (ElectronProcess.cdpClient p = Some client) /\
  (isSegment domain) /\
  (isSegment method) /\
  (let sent := withCalls s [Send client (domain ++ "." ++ method)%string (Some [])] in
   match send w client (domain ++ "." ++ method)%string (Some []) with
   | inr reply =>
       readCdp w uri processId targetId (Some (domain ++ "/" ++ method)%string) s
         = (Ok (jsonResourceResponse uri (ReplyPayload reply)), sent)
   | inl reason =>
       readCdp w uri processId targetId (Some (domain ++ "/" ++ method)%string) s
         = (Throw (CdpCommandFailed (SessionError reason)), sent) /\
       message (CdpCommandFailed (SessionError reason))
         = ("Error executing CDP command: " ++ reason)%string
   end).
Proof.
  intros w s uri processId targetId domain method r p client.
  assert (H1 : electronProcesses s !! processId = Some r).
  { reflexivity. }
  assert (H2 : heap s !! r = Some p).
  { reflexivity. }
  assert (H3 : ElectronProcess.status p = running).
  { reflexivity. }
  assert (H4 : ElectronProcess.cdpClient p = Some client).
  { reflexivity. }
  assert (H5 : isSegment domain).
  { split; [discriminate | reflexivity]. }
  assert (H6 : isSegment method).
  { split; [discriminate | reflexivity]. }
  split; [exact H1|].
  split; [exact H2|].
  split; [exact H3|].
  split; [exact H4|].
  split; [exact H5|].
  split; [exact H6|].
  exact (cdp_command_read w s uri processId targetId domain method r p client H1 H2 H3 H4 H5 H6).
Defined.

(** X19 on a map of one record. *)
Lemma info_and_list_agree_witness :
  let w : World := Scenario.online in
  let s : State := Scenario.holding Scenario.record1 3000 in
  (mapLive s) /\
  (exists summaries listings,
     readResource w ELECTRON_RESOURCES.INFO s
       = (Ok (jsonResourceResponse ELECTRON_RESOURCES.INFO (InfoPayload summaries)), s) /\
     callTool w electron_list s
       = (Ok (mkToolResult (ListedPayload listings) false), s) /\
     List.length summaries = size (electronProcesses s) /\
     List.length listings = size (electronProcesses s) /\
     (forall x, List.In x summaries <->
                exists id r proc,
                  electronProcesses s !! id = Some r /\ heap s !! r = Some proc /\
                  x = mkSummary id (ElectronProcess.name proc)
                        (ElectronProcess.status proc) (ElectronProcess.pid proc)
                        (ElectronProcess.startTime proc)) /\
     (forall x, List.In x listings <->
                exists id r proc,
                  electronProcesses s !! id = Some r /\ heap s !! r = Some proc /\
                  x = mkListing id (ElectronProcess.name proc)
                        (ElectronProcess.status proc) (ElectronProcess.pid proc)
                        (ElectronProcess.startTime proc)
                        (ElectronProcess.appPath proc)
                        (ElectronProcess.debugPort proc))).
Proof.
  intros w s.
  assert (H1 : mapLive s).
  { apply holding_mapLive. }
  split; [exact H1|].
  exact (info_and_list_agree w s H1).
Defined.

(** X20 on a map of one record whose debugging port does not answer. *)
Lemma targets_resource_never_fails_witness :
  let w : World := Scenario.offline in
  let s : State := Scenario.holding Scenario.record1 3000 in
  (mapLive s) /\
  (exists allTargets s' calls,
     readResource w ELECTRON_RESOURCES.TARGETS s
       = (Ok (jsonResourceResponse ELECTRON_RESOURCES.TARGETS (TargetsPayload allTargets)),
          s') /\
     electronProcesses s' = electronProcesses s /\
     clock s' = clock s /\
     trace s' = (trace s ++ calls)%list /\
     List.Forall isFetch calls /\
     mapLive s' /\
     (forall x, List.In x allTargets -> is_Some (electronProcesses s !! x.1))).
Proof.
  intros w s.
  assert (H1 : mapLive s).
  { apply holding_mapLive. }
  split; [exact H1|].
  exact (targets_resource_never_fails w s H1).
Defined.

(** X21 on a reload without a target, the debugging port not answering. *)
Lemma reload_all_always_succeeds_witness :
  let w : World := Scenario.offline in
  let s : State := Scenario.holding Scenario.record1 3000 in
  let processId : string := "electron-1000" in
  let targetId : option string := None in
  let r : loc := 0%nat in
  let p : ElectronProcess.t := Scenario.record1 in
  (electronProcesses s !! processId = Some r) /\
  (heap s !! r = Some p) /\
  (ElectronProcess.status p = running) /\
  (givenString targetId = None) /\
  (exists s',
     callTool w (electron_reload processId targetId) s
       = (Ok (mkToolResult (ReloadedPayload processId "all") false), s')).
Proof.
  intros w s processId targetId r p.
  assert (H1 : electronProcesses s !! processId = Some r).
  { reflexivity. }
  assert (H2 : heap s !! r = Some p).
  { reflexivity. }
  assert (H3 : ElectronProcess.status p = running).
  { reflexivity. }
  assert (H4 : givenString targetId = None).
  { reflexivity. }
  split; [exact H1|].
  split; [exact H2|].
  split; [exact H3|].
  split; [exact H4|].
  exact (reload_all_always_succeeds w s processId targetId r p H1 H2 H3 H4).
Defined.

(** X22 on a reload whose target argument is the empty string. *)
Lemma reload_all_uses_one_session_witness :
  let w : World := Scenario.online in
  let s : State := Scenario.holding Scenario.record1Connected 3000 in
  let processId : string := "electron-1000" in
  let targetId : option string := Some "" in
  let r : loc := 0%nat in
  let p : ElectronProcess.t := Scenario.record1Connected in
  let client : CDPClient := Client 7 in
  let targets : list CDPTarget.t := [Scenario.target1] in
  (electronProcesses s !! processId = Some r) /\
  (heap s !! r = Some p) /\
  (ElectronProcess.status p = running) /\
  (ElectronProcess.cdpClient p = Some client) /\
  (ElectronProcess.targets p = Some targets) /\
  (givenString targetId = None) /\
  (callTool w (electron_reload processId targetId) s
     = (Ok (mkToolResult (ReloadedPayload processId "all") false),
        withCalls s (List.repeat (Send client "Page.reload" (Some []))
                                 (List.length targets)))).
Proof.
  intros w s processId targetId r p client targets.
  assert (H1 : electronProcesses s !! processId = Some r).
  { reflexivity. }
  assert (H2 : heap s !! r = Some p).
  { reflexivity. }
  assert (H3 : ElectronProcess.status p = running).
  { reflexivity. }
  assert (H4 : ElectronProcess.cdpClient p = Some client).
  { reflexivity. }
  assert (H5 : ElectronProcess.targets p = Some targets).
  { reflexivity. }
  assert (H6 : givenString targetId = None).
  { reflexivity. }
  split; [exact H1|].
  split; [exact H2|].
  split; [exact H3|].
  split; [exact H4|].
  split; [exact H5|].
  split; [exact H6|].
  exact (reload_all_uses_one_session w s processId targetId r p client targets H1 H2 H3 H4 H5 H6).
Defined.

(** X23 on the evaluation of 1+1 without the by-value argument. *)
Lemma evaluate_tool_with_session_witness :
  let w : World := Scenario.online in
  let s : State := Scenario.holding Scenario.record1Connected 3000 in
  let processId : string := "electron-1000" in
  let targetId : string := "t1" in
  let expression : string := "1+1" in
  let returnByValue : option bool := None in
  let r : loc := 0%nat in
  let p : ElectronProcess.t := Scenario.record1Connected in
  let client : CDPClient := Client 7 in
  (electronProcesses s !! processId = Some r) /\
  (heap s !! r = Some p) /\
  (ElectronProcess.status p = running) /\
  (ElectronProcess.cdpClient p = Some client) /\
  (let params : Params :=
     [("expression", PString expression);
      ("returnByValue", PBool (match returnByValue with
                               | Some flag => flag
                               | None => true
                               end))] in
   callTool w (electron_evaluate processId targetId expression returnByValue) s =
     (Ok match send w client "Runtime.evaluate" (Some params) with
         | inr reply => mkToolResult (EvaluatedPayload reply processId targetId) false
         | inl reason => mkToolResult (ErrorPayload reason) true
         end,
      withCalls s [Send client "Runtime.evaluate" (Some params)])).
Proof.
  intros w s processId targetId expression returnByValue r p client.
  assert (H1 : electronProcesses s !! processId = Some r).
  { reflexivity. }
  assert (H2 : heap s !! r = Some p).
  { reflexivity. }
  assert (H3 : ElectronProcess.status p = running).
  { reflexivity. }
  assert (H4 : ElectronProcess.cdpClient p = Some client).
  { reflexivity. }
  split; [exact H1|].
  split; [exact H2|].
  split; [exact H3|].
  split; [exact H4|].
  exact (evaluate_tool_with_session w s processId targetId expression returnByValue r p client H1 H2 H3 H4).
Defined.

(** X24 on a record that is registered but stopped. *)
Lemma tools_on_missing_process_witness :
  let w : World := Scenario.online in
  let s : State := Scenario.holding Cases.recordStopped 3000 in
  let processId : string := "electron-1000" in
  let targetId : string := "t1" in
  let expression : string := "1+1" in
  let optionalTarget : option string := None in
  let returnByValue : option bool := None in
  (electronProcesses s !! processId = None \/
   exists r p, electronProcesses s !! processId = Some r /\ heap s !! r = Some p /\
               ElectronProcess.status p <> running) /\
  (let refused :=
     (Ok (mkToolResult
            (ErrorPayload ("Process " ++ processId ++ " not found or not running")%string)
            true), s) in
   callTool w (electron_reload processId optionalTarget) s = refused /\
   callTool w (electron_evaluate processId targetId expression returnByValue) s = refused /\
   callTool w (electron_pause processId targetId) s = refused /\
   callTool w (electron_resume processId targetId) s = refused).
Proof.
  intros w s processId targetId expression optionalTarget returnByValue.
  assert (H1 : electronProcesses s !! processId = None \/
   exists r p, electronProcesses s !! processId = Some r /\ heap s !! r = Some p /\
               ElectronProcess.status p <> running).
  { right. exists 0%nat, Cases.recordStopped. split; [reflexivity|]. split; [reflexivity | discriminate]. }
  split; [exact H1|].
  exact (tools_on_missing_process w s processId targetId expression optionalTarget returnByValue H1).
Defined.

(** X25 on a start, in a world where every spawn yields a pid. *)
Lemma call_tool_never_throws_witness :
  let w : World := Scenario.online in
  let call : ToolCall := electron_start "/app" (Some 9222) None in
  let s : State := Scenario.fresh 1000 in
  (serverSurvives w call) /\
  (exists result s',
     callTool w call s = (Ok result, s') /\
     (isError result = true <-> exists error, tool_payload result = ErrorPayload error)).
Proof.
  intros w call s.
  assert (H1 : serverSurvives w call).
  { intros command args. discriminate. }
  split; [exact H1|].
  exact (call_tool_never_throws w call s H1).
Defined.

(** X26 on a map of one record with one cached target. *)
Lemma listed_uris_parse_back_witness :
  let s : State := Scenario.holding Scenario.record1 3000 in
  (mapLive s) /\
  (forall id r, electronProcesses s !! id = Some r -> isSegment id) /\
  (forall r p targets target,
     heap s !! r = Some p -> ElectronProcess.targets p = Some targets ->
     List.In target targets -> isSegment (CDPTarget.id target)) /\
  ((forall now, isSegment (processId now)) /\
   exists listed,
     listResources s = (Ok listed, s) /\
     (forall res, List.In res listed ->
        parseElectronResourceUri (listed_uri res) = RouteInfo \/
        parseElectronResourceUri (listed_uri res) = RouteTargets \/
        exists id r p,
          electronProcesses s !! id = Some r /\ heap s !! r = Some p /\
          (parseElectronResourceUri (listed_uri res) = RouteProcess id \/
           parseElectronResourceUri (listed_uri res) = RouteLogs id \/
           exists targets target,
             ElectronProcess.targets p = Some targets /\ List.In target targets /\
             parseElectronResourceUri (listed_uri res)
               = RouteCdp id (CDPTarget.id target) None)) /\
     (forall id r p,
        electronProcesses s !! id = Some r -> heap s !! r = Some p ->
        List.In (ELECTRON_RESOURCES.PROCESS ++ id)%string (List.map listed_uri listed) /\
        List.In (ELECTRON_RESOURCES.LOGS ++ id)%string (List.map listed_uri listed) /\
        (forall targets target,
           ElectronProcess.targets p = Some targets -> List.In target targets ->
           List.In (ELECTRON_RESOURCES.CDP ++ id ++ "/" ++ CDPTarget.id target)%string
                   (List.map listed_uri listed)))).
Proof.
  intros s.
  assert (H1 : mapLive s).
  { apply holding_mapLive. }
  assert (H2 : forall id r, electronProcesses s !! id = Some r -> isSegment id).
  { intros id r Hr. change (({["electron-1000" := 0%nat]} : gmap string loc) !! id = Some r) in Hr. apply lookup_singleton_Some in Hr as [<- _]. split; [discriminate | reflexivity]. }
  assert (H3 : forall r p targets target,
     heap s !! r = Some p -> ElectronProcess.targets p = Some targets ->
     List.In target targets -> isSegment (CDPTarget.id target)).
  { intros r p targets target Hr Htargets Hin. change (({[0%nat := Scenario.record1]} : gmap loc ElectronProcess.t) !! r = Some p) in Hr. apply lookup_singleton_Some in Hr as [_ <-]. injection Htargets as <-. destruct Hin as [<- | []]. split; [discriminate | reflexivity]. }
  split; [exact H1|].
  split; [exact H2|].
  split; [exact H3|].
  exact (listed_uris_parse_back s H1 H2 H3).
Defined.

(** X28 on a URI that ends in a slash after the target identifier. *)
Lemma parse_cdp_inverse_witness :
  let uri : string := "electron://cdp/electron-1000/t1/" in
  let processId : string := "electron-1000" in
  let targetId : string := "t1" in
  let commandPath : option string := None in
  (parseElectronResourceUri uri = RouteCdp processId targetId commandPath) /\
  (isSegment processId /\ isSegment targetId /\
   match commandPath with
   | Some command =>
       command <> "" /\
       uri = (ELECTRON_RESOURCES.CDP ++ processId ++ "/" ++ targetId ++ "/" ++ command)%string
   | None =>
       uri = (ELECTRON_RESOURCES.CDP ++ processId ++ "/" ++ targetId)%string \/
       uri = (ELECTRON_RESOURCES.CDP ++ processId ++ "/" ++ targetId ++ "/")%string
   end).
Proof.
  intros uri processId targetId commandPath.
  assert (H1 : parseElectronResourceUri uri = RouteCdp processId targetId commandPath).
  { reflexivity. }
  split; [exact H1|].
  exact (parse_cdp_inverse uri processId targetId commandPath H1).
Defined.

(** X30 on a metrics reply that has the heap size and no CPU usage. *)
Lemma debug_info_reports_metrics_witness :
  let w : World := Scenario.onlinePartialMetrics in
  let s : State := Scenario.holding Scenario.record1Connected 3000 in
  let id : string := "electron-1000" in
  let r : loc := 0%nat in
  let p : ElectronProcess.t := Scenario.record1Connected in
  let client : CDPClient := Client 7 in
  let metrics : list Metric := [mkMetric "JSHeapUsedSize" 52428800%float] in
  (electronProcesses s !! id = Some r) /\
  (heap s !! r = Some p) /\
  (ElectronProcess.status p = running) /\
  (ElectronProcess.cdpClient p = Some client) /\
  (send w client "Performance.getMetrics" None = inr (ReplyMetrics metrics)) /\
  (exists info s' renderer earlier,
     getElectronDebugInfo w id s = (Ok (Some info), s') /\
     renderers info = [renderer] /\
     trace s' = (earlier ++ [Send client "Performance.getMetrics" None])%list /\
     match findMetric "CPUUsage" metrics with
     | Some metric =>
         cpuUsage (main info) = metric_value metric /\
         cpuUsage renderer = half (metric_value metric)
     | None =>
         cpuUsage (main info) = 0%float /\ cpuUsage renderer = 0%float
     end /\
     match findMetric "JSHeapUsedSize" metrics with
     | Some metric =>
         memoryUsage (main info) = metric_value metric /\
         memoryUsage renderer = half (metric_value metric)
     | None =>
         memoryUsage (main info) = 0%float /\ memoryUsage renderer = 0%float
     end).
Proof.
  intros w s id r p client metrics.
  assert (H1 : electronProcesses s !! id = Some r).
  { reflexivity. }
  assert (H2 : heap s !! r = Some p).
  { reflexivity. }
  assert (H3 : ElectronProcess.status p = running).
  { reflexivity. }
  assert (H4 : ElectronProcess.cdpClient p = Some client).
  { reflexivity. }
  assert (H5 : send w client "Performance.getMetrics" None = inr (ReplyMetrics metrics)).
  { reflexivity. }
  split; [exact H1|].
  split; [exact H2|].
  split; [exact H3|].
  split; [exact H4|].
  split; [exact H5|].
  exact (debug_info_reports_metrics w s id r p client metrics H1 H2 H3 H4 H5).
Defined.

(** X29 on a macOS machine where only the project-local entry exists. *)
Lemma executable_is_first_existing_candidate_witness :
  let m := Cases.mac in
  Executable.existsSync m
    (Executable.pathResolve m [Executable.cwd m; "node_modules"; ".bin"; "electron"]) = true /\
  Executable.platform m <> Executable.win32 /\
  Executable.getElectronExecutablePath m = "/work/app/node_modules/.bin/electron".
Proof.
  intros m. split; [reflexivity|]. split; [discriminate|].
  apply (proj2 (proj2 (executable_is_first_existing_candidate m)));
    [reflexivity | discriminate].
Defined.
